(** * Activity tracker backend: a shallow embedding of [main.py]

    The development follows the layout of the source file:

    - [Text]: the [str] methods the handlers call ([strip], [lower],
      [replace], slicing);
    - [Datetime]: the part of Python's [datetime] the handlers call
      ([replace(microsecond=0)], [isoformat], [fromisoformat], subtraction
      and [total_seconds]);
    - [Store]: the JSON files under [data/], the exceptions, and the two
      helpers [_read_json] and [_write_json];
    - [Types]: the activity-type CRUD handlers;
    - [Activities]: the start/end handlers, the active lookup and the
      summary.

    Handlers are sequential programs over the file store: every handler
    body runs under the collection's lock, so a handler is modelled as one
    atomic state transformer.  The values the handlers draw from the
    environment ([uuid4()], [datetime.utcnow()]) are explicit arguments.
    So are the library functions whose full behaviour is a matter of
    Unicode tables or of the many spellings of a timestamp: the handlers
    take [str.strip], [str.lower] and [datetime.fromisoformat] as
    parameters, and the statements hold for every such function.  [Text]
    and [Datetime] give the instances used at sample inputs. *)

From Stdlib Require Import ZArith String Ascii Lia Bool.
From stdpp Require Import base option list gmap sets strings sorting.

Local Open Scope string_scope.
Local Open Scope Z_scope.

(* ===================================================================== *)
(** ** [str] methods *)
(* ===================================================================== *)

Module Text.

(** [str.isspace] on the ASCII range: TAB, LF, VT, FF, CR, the four
    separators FS, GS, RS, US, and the space.  Strings are byte strings.
    [strip] and [lower] below are [str.strip] and [str.lower] on ASCII
    text only: Python also strips Unicode whitespace (U+00A0, U+0085, ...)
    and lowers letters above 127.  The handlers therefore take the two
    methods as parameters, and the functions here instantiate them at
    sample inputs, which are ASCII. *)
Definition isspace (c : ascii) : bool :=
  let n := N_of_ascii c in
  ((9 <=? n) && (n <=? 13) || (28 <=? n) && (n <=? 32))%N.

(** [s.lstrip()] *)
Fixpoint lstrip (s : string) : string :=
  match s with
  | EmptyString => EmptyString
  | String c s' => if isspace c then lstrip s' else s
  end.

(** [s.rstrip()]: a character is kept when something that is not
    whitespace follows it or when it is not whitespace itself. *)
Fixpoint rstrip (s : string) : string :=
  match s with
  | EmptyString => EmptyString
  | String c s' =>
      match rstrip s' with
      | EmptyString => if isspace c then EmptyString else String c EmptyString
      | r => String c r
      end
  end.

(** [s.strip()] *)
Definition strip (s : string) : string := rstrip (lstrip s).

Definition lower_ascii (c : ascii) : ascii :=
  let n := N_of_ascii c in
  if ((65 <=? n) && (n <=? 90))%N then ascii_of_N (n + 32) else c.

(** [s.lower()] on ASCII letters; other bytes are kept. *)
Fixpoint lower (s : string) : string :=
  match s with
  | EmptyString => EmptyString
  | String c s' => String (lower_ascii c) (lower s')
  end.

(** [s.replace(c, "")] for a one-character pattern: every occurrence of
    [c] is dropped. *)
Fixpoint remove_char (c : ascii) (s : string) : string :=
  match s with
  | EmptyString => EmptyString
  | String d s' => if Ascii.eqb d c then remove_char c s' else String d (remove_char c s')
  end.

(** [s[0:n]]: the first [n] characters, or all of [s] when it is shorter. *)
Definition slice_to (n : nat) (s : string) : string := substring 0 n s.

(** Python's truth value of a [str]. *)
Definition nonempty (s : string) : bool :=
  match s with EmptyString => false | _ => true end.

End Text.

(* ===================================================================== *)
(** ** [datetime] *)
(* ===================================================================== *)

Module Datetime.

(** A naive [datetime]: the fields Python stores. *)
Record datetime : Type := mk {
  year : Z; month : Z; day : Z;
  hour : Z; minute : Z; second : Z;
  microsecond : Z
}.

(** [dt.replace(microsecond=0)] *)
Definition replace_microsecond0 (dt : datetime) : datetime :=
  mk (year dt) (month dt) (day dt) (hour dt) (minute dt) (second dt) 0.

Definition is_leap (y : Z) : bool :=
  (y mod 4 =? 0) && (negb (y mod 100 =? 0) || (y mod 400 =? 0)).

Definition days_before_year (y : Z) : Z :=
  let p := y - 1 in p * 365 + p / 4 - p / 100 + p / 400.

Definition DAYS_IN_MONTH : list Z := [31; 28; 31; 30; 31; 30; 31; 31; 30; 31; 30; 31].
Definition DAYS_BEFORE_MONTH : list Z := [0; 31; 59; 90; 120; 151; 181; 212; 243; 273; 304; 334].

Definition days_in_month (y m : Z) : Z :=
  if (m =? 2) && is_leap y then 29
  else List.nth (Z.to_nat (m - 1)) DAYS_IN_MONTH 0.

Definition days_before_month (y m : Z) : Z :=
  List.nth (Z.to_nat (m - 1)) DAYS_BEFORE_MONTH 0
  + (if (2 <? m) && is_leap y then 1 else 0).

(** [dt.toordinal()]: days since 0001-01-01, which has ordinal 1. *)
Definition toordinal (dt : datetime) : Z :=
  days_before_year (year dt) + days_before_month (year dt) (month dt) + day dt.

(** [a - b], a [timedelta], kept as its length in microseconds. *)
Definition sub (a b : datetime) : Z :=
  let days := toordinal a - toordinal b in
  let secs := (second a + minute a * 60 + hour a * 3600)
              - (second b + minute b * 60 + hour b * 3600) in
  (days * 86400 + secs) * 1000000 + (microsecond a - microsecond b).

(** [a / b] for two [int]s, [n] and [b] positive, is the double nearest
    to the quotient, ties to the even mantissa.  [scaled n b e] is the
    fraction [n / (b * 2^e)] as a pair of integers; [exponent n b] is the
    exponent [e] that puts it in the range of a 53-bit mantissa, from
    [2^52] up to [2^53]; [nearest_double n b] is the rounded mantissa with
    that exponent (the value is [mantissa * 2^exponent]).  The quotients
    met here are far from the subnormal and the overflow range. *)
Definition scaled (n b e : Z) : Z * Z :=
  if 0 <=? e then (n, b * 2 ^ e) else (n * 2 ^ (- e), b).

Definition exponent (n b : Z) : Z :=
  let e0 := Z.log2 n - Z.log2 b - 52 in
  if fst (scaled n b e0) / snd (scaled n b e0) <? 2 ^ 52 then e0 - 1 else e0.

Definition nearest_double (n b : Z) : Z * Z :=
  let e := exponent n b in
  let num := fst (scaled n b e) in
  let den := snd (scaled n b e) in
  let q := num / den in
  let r := num mod den in
  (if (den <? 2 * r) || ((den =? 2 * r) && Z.odd q) then q + 1 else q, e).

(** [int(td.total_seconds())]: [total_seconds] divides the microseconds
    of the [timedelta] by [10**6] into a [float], and [int] rounds that
    float towards zero. *)
Definition int_total_seconds (td : Z) : Z :=
  if td =? 0 then 0
  else
    let (m, e) := nearest_double (Z.abs td) 1000000 in
    Z.sgn td * (if 0 <=? e then m * 2 ^ e else m / 2 ^ (- e)).

Definition digit_char (d : Z) : ascii := ascii_of_N (48 + Z.to_N (d mod 10)).

(** ["%0<w>d" % n] for [0 <= n < 10^w]. *)
Fixpoint zero_padded (w : nat) (n : Z) : string :=
  match w with
  | O => ""
  | S w' => zero_padded w' (n / 10) ++ String (digit_char n) ""
  end.

(** [dt.isoformat()] *)
Definition isoformat (dt : datetime) : string :=
  zero_padded 4 (year dt) ++ "-" ++ zero_padded 2 (month dt) ++ "-"
    ++ zero_padded 2 (day dt) ++ "T" ++ zero_padded 2 (hour dt) ++ ":"
    ++ zero_padded 2 (minute dt) ++ ":" ++ zero_padded 2 (second dt)
    ++ (if microsecond dt =? 0 then "" else "." ++ zero_padded 6 (microsecond dt)).

Definition digit_value (c : ascii) : option Z :=
  let n := N_of_ascii c in
  if ((48 <=? n) && (n <=? 57))%N then Some (Z.of_N n - 48) else None.

Fixpoint number_from (acc : Z) (s : string) : option Z :=
  match s with
  | EmptyString => Some acc
  | String c s' =>
      match digit_value c with
      | Some d => number_from (acc * 10 + d) s'
      | None => None
      end
  end.

(** The decimal value of [s[i:i+n]] when that slice is [n] digits. *)
Definition field (i n : nat) (s : string) : option Z :=
  let t := substring i n s in
  if Nat.eqb (String.length t) n then number_from 0 t else None.

Definition valid (dt : datetime) : bool :=
  (1 <=? year dt) && (year dt <=? 9999)
  && (1 <=? month dt) && (month dt <=? 12)
  && (1 <=? day dt) && (day dt <=? days_in_month (year dt) (month dt))
  && (0 <=? hour dt) && (hour dt <=? 23)
  && (0 <=? minute dt) && (minute dt <=? 59)
  && (0 <=? second dt) && (second dt <=? 59).

(** [datetime.fromisoformat(s)] on the spelling [isoformat] writes for a
    whole second, [YYYY-MM-DDTHH:MM:SS].  [None] stands for the
    [ValueError] Python raises.  Python reads further spellings (a date
    alone, fractions of a second, offsets); the handlers below take the
    parser as a parameter, and this one instantiates it. *)
Definition fromisoformat (s : string) : option datetime :=
  if negb (Nat.eqb (String.length s) 19) then None else
  match field 0 4 s, field 5 2 s, field 8 2 s,
        field 11 2 s, field 14 2 s, field 17 2 s with
  | Some y, Some mo, Some d, Some h, Some mi, Some se =>
      if negb (String.eqb (substring 4 1 s) "-" && String.eqb (substring 7 1 s) "-"
               && String.eqb (substring 10 1 s) "T"
               && String.eqb (substring 13 1 s) ":" && String.eqb (substring 16 1 s) ":")
      then None
      else let dt := mk y mo d h mi se 0 in
           if valid dt then Some dt else None
  | _, _, _, _, _, _ => None
  end.

(** What [fromisoformat] gives: a naive [datetime], or one that carries
    a UTC offset (in minutes). *)
Inductive parsed : Type :=
| Naive (dt : datetime)
| Aware (dt : datetime) (utcoffset : Z).

(** [datetime.fromisoformat(s)] on the three spellings
    [YYYY-MM-DDTHH:MM:SS], [YYYY-MM-DDTHH:MM:SS.ffffff] and
    [YYYY-MM-DDTHH:MM:SS+HH:MM] (or [-HH:MM]).  It instantiates the
    parser the handlers take as a parameter. *)
Definition fromisoformat_tz (s : string) : option parsed :=
  if Nat.eqb (String.length s) 19 then option_map Naive (fromisoformat s)
  else if Nat.eqb (String.length s) 26 then
    match fromisoformat (substring 0 19 s), field 20 6 s with
    | Some dt, Some us =>
        if String.eqb (substring 19 1 s) "."
        then Some (Naive (mk (year dt) (month dt) (day dt)
                             (hour dt) (minute dt) (second dt) us))
        else None
    | _, _ => None
    end
  else if negb (Nat.eqb (String.length s) 25) then None
  else
    match fromisoformat (substring 0 19 s), field 20 2 s, field 23 2 s with
    | Some dt, Some h, Some mi =>
        if negb (String.eqb (substring 22 1 s) ":" && (h <=? 23) && (mi <=? 59)) then None
        else if String.eqb (substring 19 1 s) "+" then Some (Aware dt (h * 60 + mi))
        else if String.eqb (substring 19 1 s) "-" then Some (Aware dt (- (h * 60 + mi)))
        else None
    | _, _, _ => None
    end.

End Datetime.

(* ===================================================================== *)
(** ** The file store and the two JSON helpers *)
(* ===================================================================== *)

Module Store.

(** The exceptions the handlers raise or meet. *)
Inductive exn : Type :=
| JSONDecodeError
| UnicodeDecodeError
| RecursionError
| OSError
| ValueError
| TypeError
| HTTPException (status_code : Z) (detail : string).

Definition is_JSONDecodeError (e : exn) : bool :=
  match e with JSONDecodeError => true | _ => false end.

Inductive outcome (X : Type) : Type :=
| Return (x : X)
| Raise (e : exn).
Arguments Return {X} x.
Arguments Raise {X} e.

(** What makes the reading of a file fail other than with
    [JSONDecodeError], and the exception raised: bytes that are not UTF-8,
    nesting too deep for the parser, a file that the process may not
    open. *)
Inductive load_failure : Type :=
| NotUTF8
| TooDeep
| Denied.

Definition load_exn (f : load_failure) : exn :=
  match f with
  | NotUTF8 => UnicodeDecodeError
  | TooDeep => RecursionError
  | Denied => OSError
  end.

(** What a file holds: a JSON text that [json.load] reads as a sequence
    of records; a text on which [json.load] raises [JSONDecodeError]; or
    a content on which opening, decoding or loading fails otherwise.  A text that [json.load] reads as
    something other than a sequence of records of the schema ([null], an
    object, a number) is not covered: [_read_json] returns it as it is,
    and what a handler does next depends on the value. *)
Inductive document (A : Type) : Type :=
| Json (v : list A)
| Garbage (raw : string)
| Unreadable (f : load_failure) (raw : string).
Arguments Json {A} v.
Arguments Garbage {A} raw.
Arguments Unreadable {A} f raw.

(** The directory [data/]: the files by path, and the paths the
    operating system refuses to create or overwrite. *)
Record fs (A : Type) : Type := mkfs {
  files : gmap string (document A);
  readonly : gset string
}.
Arguments mkfs {A} files readonly.
Arguments files {A} f.
Arguments readonly {A} f.

(** A handler: a state transformer on the store that returns or raises. *)
Definition io (A X : Type) : Type := fs A -> outcome X * fs A.

Section Monad.
Context {A : Type}.

Definition ret {X} (x : X) : io A X := fun w => (Return x, w).

Definition raise {X} (e : exn) : io A X := fun w => (Raise e, w).

Definition bind {X Y} (m : io A X) (k : X -> io A Y) : io A Y :=
  fun w => match m w with
           | (Return x, w') => k x w'
           | (Raise e, w') => (Raise e, w')
           end.

(** [try: m  except <caught>: h] *)
Definition try_except {X} (m : io A X) (caught : exn -> bool) (h : io A X) : io A X :=
  fun w => match m w with
           | (Return x, w') => (Return x, w')
           | (Raise e, w') => if caught e then h w' else (Raise e, w')
           end.
End Monad.

Declare Scope io_scope.
Delimit Scope io_scope with io.
Notation "x <- m ;; k" := (bind m (fun x => k))
  (at level 100, m at next level, right associativity) : io_scope.
Notation "m ;;; k" := (bind m (fun _ => k))
  (at level 100, right associativity) : io_scope.

Section Files.
Context {A : Type}.
Local Open Scope io_scope.

(** [path.exists()] *)
Definition path_exists (path : string) : io A bool :=
  fun w => (Return (bool_decide (is_Some (files w !! path))), w).

(** [with path.open("r") as f: json.load(f)] *)
Definition json_load (path : string) : io A (list A) :=
  fun w => match files w !! path with
           | None => (Raise OSError, w)
           | Some (Json v) => (Return v, w)
           | Some (Garbage _) => (Raise JSONDecodeError, w)
           | Some (Unreadable f _) => (Raise (load_exn f), w)
           end.

(** [with path.open("w") as f: json.dump(data, f, ...)] *)
Definition json_dump (path : string) (data : list A) : io A unit :=
  fun w => if bool_decide (path ∈ readonly w) then (Raise OSError, w)
           else (Return tt, mkfs (<[path := Json data]> (files w)) (readonly w)).

(** [src.replace(dst)]: rename, overwriting [dst]. *)
Definition path_replace (src dst : string) : io A unit :=
  fun w => match files w !! src with
           | None => (Raise OSError, w)
           | Some d =>
               if bool_decide (dst ∈ readonly w) then (Raise OSError, w)
               else (Return tt, mkfs (<[dst := d]> (delete src (files w))) (readonly w))
           end.

(** [path.with_suffix(path.suffix + ext)]: the path with [ext] added
    at its end. *)
Definition add_suffix (path ext : string) : string := String.append path ext.

Definition _read_json (path : string) (default : list A) : io A (list A) :=
  e <- path_exists path ;;
  if negb e then ret default
  else
    try_except (json_load path) is_JSONDecodeError
      (let backup := add_suffix path ".bak" in
       (try_except (path_replace path backup) (fun _ => true) (ret tt)) ;;;
       ret default).

Definition _write_json (path : string) (data : list A) : io A unit :=
  let tmp_path := add_suffix path ".tmp" in
  json_dump tmp_path data ;;;
  path_replace tmp_path path.

(** What [Load] gives for a collection: the sequence that
    [_read_json path []] returns in store [w], and the empty sequence
    when it raises. *)
Definition contents (path : string) (w : fs A) : list A :=
  match _read_json path [] w with
  | (Return v, _) => v
  | (Raise _, _) => []
  end.

(** The file at [path], when there is one, can be read up to a
    [JSONDecodeError]: reading it raises no exception that [_read_json]
    lets through. *)
Definition readable (path : string) (w : fs A) : Prop :=
  forall (f : load_failure) (raw : string), files w !! path <> Some (Unreadable f raw).

(** The store lets [_write_json path] through: neither the file nor
    its temporary sibling is refused. *)
Definition writable (path : string) (w : fs A) : Prop :=
  (path ∉ readonly w) ∧ (add_suffix path ".tmp" ∉ readonly w).

End Files.

End Store.
Import Store.

(* ===================================================================== *)
(** ** Activity types: the CRUD handlers *)
(* ===================================================================== *)

(** The request bodies (the [pydantic] models of the source). *)
Module ActivityTypeIn.
Record t : Type := mk { activity_category : string; activity_name : string }.
End ActivityTypeIn.

(** A stored activity type: the dictionary with the three keys of the
    [ActivityType] model. *)
Module ActivityType.
Record t : Type := mk { id : string; activity_category : string; activity_name : string }.
End ActivityType.

Module Types.
Local Open Scope io_scope.

Definition TYPES_FILE : string := "data/activity_types.json".

Definition list_activity_types : io ActivityType.t (list ActivityType.t) :=
  _read_json TYPES_FILE [].

Section Str.
(** [str.strip] and [str.lower] *)
Variables (strip lower : string -> string).

(** The test of the duplicate scan: both fields equal after [strip] and
    [lower] on either side. *)
Definition same_type (it : ActivityType.t) (payload : ActivityTypeIn.t) : bool :=
  String.eqb (lower (strip (ActivityType.activity_category it)))
             (lower (strip (ActivityTypeIn.activity_category payload)))
  && String.eqb (lower (strip (ActivityType.activity_name it)))
                (lower (strip (ActivityTypeIn.activity_name payload))).

(** The same test as a proposition. *)
Definition matches (it : ActivityType.t) (payload : ActivityTypeIn.t) : Prop :=
  lower (strip (ActivityType.activity_category it))
    = lower (strip (ActivityTypeIn.activity_category payload))
  ∧ lower (strip (ActivityType.activity_name it))
    = lower (strip (ActivityTypeIn.activity_name payload)).

(** The dictionary both handlers build: the given id, the stripped fields. *)
Definition new_type (type_id : string) (payload : ActivityTypeIn.t) : ActivityType.t :=
  ActivityType.mk type_id
    (strip (ActivityTypeIn.activity_category payload))
    (strip (ActivityTypeIn.activity_name payload)).

(** [uuid] is the value [str(uuid4())] draws. *)
Definition create_activity_type (uuid : string) (payload : ActivityTypeIn.t)
  : io ActivityType.t ActivityType.t :=
  items <- _read_json TYPES_FILE [] ;;
  if existsb (fun it => same_type it payload) items
  then raise (HTTPException 400 "Activity type already exists")
  else
    let new_item := new_type uuid payload in
    let items := (items ++ [new_item])%list in
    _write_json TYPES_FILE items ;;;
    ret new_item.

Definition update_activity_type (type_id : string) (payload : ActivityTypeIn.t)
  : io ActivityType.t ActivityType.t :=
  items <- _read_json TYPES_FILE [] ;;
  match list_find (fun it => ActivityType.id it = type_id) items with
  | Some (idx, _) =>
      if existsb (fun other =>
                    negb (String.eqb (ActivityType.id other) type_id)
                    && same_type other payload) items
      then raise (HTTPException 400 "Another activity type with same name exists")
      else
        let updated := new_type type_id payload in
        let items := <[idx := updated]> items in
        _write_json TYPES_FILE items ;;;
        ret updated
  | None => raise (HTTPException 404 "Activity type not found")
  end.

End Str.

Definition delete_activity_type (type_id : string) : io ActivityType.t unit :=
  items <- _read_json TYPES_FILE [] ;;
  let new_items :=
    List.filter (fun it => negb (String.eqb (ActivityType.id it) type_id)) items in
  if Nat.eqb (length new_items) (length items)
  then raise (HTTPException 404 "Activity type not found")
  else _write_json TYPES_FILE new_items.

End Types.

(* ===================================================================== *)
(** ** Activities: start, end, active, summary *)
(* ===================================================================== *)

Module ActivityStartIn.
Record t : Type := mk { activity_category : string; activity_name : string }.
End ActivityStartIn.

Module ActivityEndIn.
Record t : Type := mk { id : string }.
End ActivityEndIn.

(** A stored activity: the dictionary with the keys of the
    [ActivityRecord] model.  [end_time] and [duration_seconds] are the two
    [Optional] fields ([None] is JSON [null]); [activity_category] is
    optional because the summary reads it with a default for a missing
    key. *)
Module ActivityRecord.
Record t : Type := mk {
  id : string;
  activity_category : option string;
  activity_name : string;
  start_time : string;
  end_time : option string;
  duration_seconds : option Z
}.
End ActivityRecord.

Module Activities.
Local Open Scope io_scope.
Import ActivityRecord.

Definition ACTIVITIES_FILE : string := "data/activities.json".

(** [datetime.utcnow().replace(microsecond=0).isoformat() + "Z"], for
    the value [utcnow] that [datetime.utcnow()] gives. *)
Definition _iso_now (utcnow : Datetime.datetime) : string :=
  String.append (Datetime.isoformat (Datetime.replace_microsecond0 utcnow)) "Z".

(** [x in (None, "")] *)
Definition in_None_or_empty (x : option string) : bool :=
  match x with
  | None => true
  | Some s => String.eqb s ""
  end.

(** Python's truth value of an optional string: [None] and [""] are false. *)
Definition truthy_str (x : option string) : bool :=
  match x with
  | None => false
  | Some s => Text.nonempty s
  end.

(** Python's truth value of an optional integer: [None] and [0] are false. *)
Definition truthy_int (x : option Z) : bool :=
  match x with
  | None => false
  | Some n => negb (n =? 0)
  end.

Definition list_activities : io t (list t) := _read_json ACTIVITIES_FILE [].

Section Start_activity.
(** [str.strip] *)
Variable strip : string -> string.

Definition start_activity (uuid : string) (utcnow : Datetime.datetime)
    (payload : ActivityStartIn.t) : io t t :=
  activities <- _read_json ACTIVITIES_FILE [] ;;
  let active_exists := existsb (fun a => in_None_or_empty (end_time a)) activities in
  if active_exists
  then raise (HTTPException 400
                "An activity is already in progress. End it before starting a new one.")
  else
    let record :=
      mk uuid
         (Some (strip (ActivityStartIn.activity_category payload)))
         (strip (ActivityStartIn.activity_name payload))
         (_iso_now utcnow) None None in
    let activities := (activities ++ [record])%list in
    _write_json ACTIVITIES_FILE activities ;;;
    ret record.
End Start_activity.

Section End_activity.
(** [datetime.fromisoformat], with [None] for the [ValueError] it raises. *)
Variable fromisoformat : string -> option Datetime.parsed.

Definition end_activity (utcnow : Datetime.datetime) (payload : ActivityEndIn.t)
  : io t t :=
  activities <- _read_json ACTIVITIES_FILE [] ;;
  match list_find (fun a => id a = ActivityEndIn.id payload) activities with
  | Some (idx, a) =>
      if truthy_str (end_time a)
      then raise (HTTPException 400 "Activity already ended")
      else
        let end_time := Datetime.replace_microsecond0 utcnow in
        match fromisoformat (Text.remove_char "Z" (start_time a)) with
        | None => raise ValueError
        | Some (Datetime.Aware _ _) =>
            (* end_time - start: a naive and an aware datetime *)
            raise TypeError
        | Some (Datetime.Naive start) =>
            let duration := Datetime.int_total_seconds (Datetime.sub end_time start) in
            let updated :=
              mk (id a) (activity_category a) (activity_name a) (start_time a)
                 (Some (String.append (Datetime.isoformat end_time) "Z"))
                 (Some duration) in
            let activities := <[idx := updated]> activities in
            _write_json ACTIVITIES_FILE activities ;;;
            ret updated
        end
  | None => raise (HTTPException 404 "Active activity not found")
  end.
End End_activity.

Definition get_active_activity : io t (option t) :=
  activities <- _read_json ACTIVITIES_FILE [] ;;
  ret (List.find (fun a => negb (truthy_str (end_time a))) activities).

(** The response of the summary endpoint. *)
Record summary : Type := mksummary {
  dates : list string;
  data : gmap string (gmap string Z)
}.

(** The test that opens the loop body: the record is skipped. *)
Definition skipped (a : t) : bool :=
  negb (truthy_str (end_time a)) || negb (truthy_int (duration_seconds a)).

(** One turn of the loop over [activities]. *)
Definition accumulate (agg : gmap string (gmap string Z)) (a : t)
  : gmap string (gmap string Z) :=
  if skipped a then agg
  else
    let date_key := Text.slice_to 10 (start_time a) in
    let cat := default "other" (activity_category a) in
    (* agg.setdefault(date_key, {}) *)
    let agg := match agg !! date_key with
               | Some _ => agg
               | None => <[date_key := ∅]> agg
               end in
    let row := default ∅ (agg !! date_key) in
    (* agg[date_key][cat] = agg[date_key].get(cat, 0) + int(a["duration_seconds"]) *)
    <[date_key := <[cat := default 0 (row !! cat) + default 0 (duration_seconds a)]> row]> agg.

(** The body of [get_summary] after the load: the loop, then
    [sorted(agg.keys())]. *)
Definition summarize (activities : list t) : summary :=
  let agg := fold_left accumulate activities ∅ in
  let dates_sorted := merge_sort String.le (map fst (map_to_list agg)) in
  mksummary dates_sorted agg.

Definition get_summary : io t summary :=
  activities <- _read_json ACTIVITIES_FILE [] ;;
  ret (summarize activities).

(** *** Vocabulary of the statements *)

(** The date key and the category bucket the loop body computes. *)
Definition date_of (a : t) : string := Text.slice_to 10 (start_time a).
Definition bucket_of (a : t) : string := default "other" (activity_category a).

(** [data[d][c]], [None] when either key is missing. *)
Definition cell (agg : gmap string (gmap string Z)) (d c : string) : option Z :=
  match agg !! d with
  | Some row => row !! c
  | None => None
  end.

(** The records of the collection that the loop adds to [data[d][c]],
    and the sum of their durations. *)
Definition counted (d c : string) (a : t) : bool :=
  negb (skipped a) && String.eqb (date_of a) d && String.eqb (bucket_of a) c.

Definition total (d c : string) (activities : list t) : Z :=
  foldr (fun a acc => default 0 (duration_seconds a) + acc) 0
    (List.filter (counted d c) activities).

(** The record [start_activity] appends. *)
Definition started (strip : string -> string) (uuid : string)
    (utcnow : Datetime.datetime) (payload : ActivityStartIn.t) : t :=
  mk uuid
     (Some (strip (ActivityStartIn.activity_category payload)))
     (strip (ActivityStartIn.activity_name payload))
     (_iso_now utcnow) None None.

(** The record [end_activity] puts in the place of [a], for the parsed
    start [start]: the keys of [a] with the two closing fields set. *)
Definition ended (utcnow start : Datetime.datetime) (a : t) : t :=
  let end_time := Datetime.replace_microsecond0 utcnow in
  mk (id a) (activity_category a) (activity_name a) (start_time a)
     (Some (String.append (Datetime.isoformat end_time) "Z"))
     (Some (Datetime.int_total_seconds (Datetime.sub end_time start))).

(** [a] is at position [idx] and no earlier record has its id: the
    record the scan of a handler stops at. *)
Definition first_with_id (activities : list t) (idx : nat) (a : t) : Prop :=
  activities !! idx = Some a
  /\ forall (j : nat) (b : t), activities !! j = Some b -> (j < idx)%nat -> id b <> id a.

(** No two records of the collection have [end_time] absent. *)
Definition single_open (activities : list t) : Prop :=
  forall (i j : nat) (a b : t),
    activities !! i = Some a -> activities !! j = Some b ->
    end_time a = None -> end_time b = None -> i = j.

(** A call of one of the two lifecycle handlers, with what it draws from
    the environment. *)
Inductive call : Type :=
| Start (uuid : string) (utcnow : Datetime.datetime) (payload : ActivityStartIn.t)
| End (utcnow : Datetime.datetime) (payload : ActivityEndIn.t).

Section Calls.
Variable strip : string -> string.
Variable fromisoformat : string -> option Datetime.parsed.

(** The store after a call, whether the call returned or raised. *)
Definition step (w : fs t) (c : call) : fs t :=
  match c with
  | Start uuid utcnow payload => snd (start_activity strip uuid utcnow payload w)
  | End utcnow payload => snd (end_activity fromisoformat utcnow payload w)
  end.

(** The stores a sequence of calls goes through, the first one included. *)
Fixpoint trace (w : fs t) (calls : list call) : list (fs t) :=
  match calls with
  | [] => [w]
  | c :: calls' => w :: trace (step w c) calls'
  end.
End Calls.

End Activities.

(* ===================================================================== *)
(** ** Sample stores and records *)
(* ===================================================================== *)

Module Sample.
Import Activities.

(** 2025-11-03 12:00:00.25 UTC *)
Definition noon : Datetime.datetime := Datetime.mk 2025 11 3 12 0 0 250000.
(** 2025-11-03 09:00:00 UTC *)
Definition nine : Datetime.datetime := Datetime.mk 2025 11 3 9 0 0 0.
(** 2025-11-03 10:00:00 UTC *)
Definition ten : Datetime.datetime := Datetime.mk 2025 11 3 10 0 0 0.

(** A store with no file and no refused path. *)
Definition empty_store {A : Type} : fs A := mkfs ∅ ∅.

Definition types_store (items : list ActivityType.t) : fs ActivityType.t :=
  mkfs {[ Types.TYPES_FILE := Json items ]} ∅.

Definition activities_store (activities : list ActivityRecord.t) : fs ActivityRecord.t :=
  mkfs {[ ACTIVITIES_FILE := Json activities ]} ∅.

(** The activities file is not JSON; in the second store its backup
    path is refused as well. *)
Definition corrupt_store : fs ActivityRecord.t :=
  mkfs {[ ACTIVITIES_FILE := Garbage "[{" ]} ∅.
Definition corrupt_stuck_store : fs ActivityRecord.t :=
  mkfs {[ ACTIVITIES_FILE := Garbage "[{" ]} {[ add_suffix ACTIVITIES_FILE ".bak" ]}.

(** The activities file, and the types file, hold bytes that are not
    UTF-8 (FF FE, then an opening bracket and brace). *)
Definition not_utf8 : string :=
  String (ascii_of_N 255) (String (ascii_of_N 254) "[{").
Definition undecodable_store : fs ActivityRecord.t :=
  mkfs {[ ACTIVITIES_FILE := Unreadable NotUTF8 not_utf8 ]} ∅.
Definition undecodable_types_store : fs ActivityType.t :=
  mkfs {[ Types.TYPES_FILE := Unreadable NotUTF8 not_utf8 ]} ∅.

Definition sports_run : ActivityType.t := ActivityType.mk "t1" "Sports" "Run".
Definition study_read : ActivityType.t := ActivityType.mk "t2" "Study" "Read".

(** A run started at 10:00:00 on 2025-11-03, with the given closing
    fields. *)
Definition morning_run (end_time : option string) (duration_seconds : option Z)
  : ActivityRecord.t :=
  ActivityRecord.mk "a1" (Some "sports") "run" "2025-11-03T10:00:00Z"
    end_time duration_seconds.

Definition a_start : ActivityStartIn.t := ActivityStartIn.mk " study " "Read ".

(** An id of the shape [str(uuid.uuid4())] has. *)
Definition an_uuid : string := "3f2b8c1e-6d4a-4b7f-9c05-1a2e3d4f5a6b".

End Sample.

(* ===================================================================== *)
(** ** Sequences of registry calls, and the invariants of the two
       collections *)
(* ===================================================================== *)

Module Registry.
Import Types.

Section Str.
(** [str.strip] and [str.lower] *)
Variables (strip lower : string -> string).

(** Two stored types name the same thing: equal categories and equal
    names after [strip] and [lower], the comparison of the duplicate
    scans. *)
Definition same_fields (a b : ActivityType.t) : Prop :=
  lower (strip (ActivityType.activity_category a))
    = lower (strip (ActivityType.activity_category b))
  /\ lower (strip (ActivityType.activity_name a))
     = lower (strip (ActivityType.activity_name b)).

(** No two stored types of different ids name the same thing. *)
Definition distinct_types (items : list ActivityType.t) : Prop :=
  forall a b : ActivityType.t,
    a ∈ items -> b ∈ items -> ActivityType.id a <> ActivityType.id b -> ~ same_fields a b.

(** A call of one of the three mutating handlers of the registry. *)
Inductive call : Type :=
| Create (uuid : string) (payload : ActivityTypeIn.t)
| Update (type_id : string) (payload : ActivityTypeIn.t)
| Delete (type_id : string).

(** The store after a call, whether the call returned or raised. *)
Definition step (w : fs ActivityType.t) (c : call) : fs ActivityType.t :=
  match c with
  | Create uuid payload => snd (create_activity_type strip lower uuid payload w)
  | Update type_id payload => snd (update_activity_type strip lower type_id payload w)
  | Delete type_id => snd (delete_activity_type type_id w)
  end.

End Str.

End Registry.

Module Lifecycle.
Import Activities ActivityRecord.

(** The two closing fields go together: [end_time] is absent exactly
    when [duration_seconds] is. *)
Definition paired (activities : list t) : Prop :=
  forall a : t, a ∈ activities -> (end_time a = None <-> duration_seconds a = None).

(** At most one record is open for the handlers: no two records have a
    false [end_time] ([None] or the empty string). *)
Definition single_active (activities : list t) : Prop :=
  forall (i j : nat) (a b : t),
    activities !! i = Some a -> activities !! j = Some b ->
    truthy_str (end_time a) = false -> truthy_str (end_time b) = false -> i = j.

(** A later collection keeps every record of an earlier one at its place,
    with its id, category, name and start time, and keeps a record that
    had a non-empty [end_time] whole. *)
Definition keeps (acts acts' : list t) : Prop :=
  forall (i : nat) (a : t), acts !! i = Some a ->
    exists a' : t, acts' !! i = Some a'
          /\ id a' = id a /\ activity_category a' = activity_category a
          /\ activity_name a' = activity_name a /\ start_time a' = start_time a
          /\ (truthy_str (end_time a) = true -> a' = a).

(** [dt.date().isoformat()]: the calendar date of a time, as
    [YYYY-MM-DD]. *)
Definition isodate (dt : Datetime.datetime) : string :=
  String.append (Datetime.zero_padded 4 (Datetime.year dt))
    (String.append "-"
       (String.append (Datetime.zero_padded 2 (Datetime.month dt))
          (String.append "-" (Datetime.zero_padded 2 (Datetime.day dt))))).

(** The sum of the cells of the summary table. *)
Definition row_sum (row : gmap string Z) : Z :=
  map_fold (fun _ seconds acc => seconds + acc) 0 row.

Definition table_sum (agg : gmap string (gmap string Z)) : Z :=
  map_fold (fun _ row acc => row_sum row + acc) 0 agg.

(** The sum of the durations of the records the loop does not skip. *)
Definition counted_seconds (activities : list t) : Z :=
  foldr (fun a acc => if skipped a then acc else default 0 (duration_seconds a) + acc)
        0 activities.

End Lifecycle.

(* ===================================================================== *)
(** * Properties *)
(* ===================================================================== *)

Local Open Scope list_scope.

(** ** The helpers on concrete inputs *)

Example strip_ex : Text.strip " sports " = "sports".
Proof. reflexivity. Qed.

Example lower_ex : Text.lower "RUN" = "run".
Proof. reflexivity. Qed.

Example slice_ex : Text.slice_to 10 "2025-11-03T10:00:00Z" = "2025-11-03".
Proof. reflexivity. Qed.

Example slice_short_ex : Text.slice_to 10 "2025" = "2025".
Proof. reflexivity. Qed.

Example isoformat_ex :
  Datetime.isoformat (Datetime.mk 2025 11 3 10 0 0 0) = "2025-11-03T10:00:00".
Proof. reflexivity. Qed.

Example isoformat_us_ex :
  Datetime.isoformat (Datetime.mk 2025 11 3 10 0 0 250) = "2025-11-03T10:00:00.000250".
Proof. reflexivity. Qed.

Example fromisoformat_ex :
  Datetime.fromisoformat "2025-11-03T11:30:00" = Some (Datetime.mk 2025 11 3 11 30 0 0).
Proof. reflexivity. Qed.

Example fromisoformat_bad_ex :
  Datetime.fromisoformat "" = None /\ Datetime.fromisoformat "2025-02-29T00:00:00" = None.
Proof. split; reflexivity. Qed.

Example toordinal_ex : Datetime.toordinal (Datetime.mk 2025 11 3 0 0 0 0) = 739558.
Proof. reflexivity. Qed.

Example sub_ex :
  Datetime.int_total_seconds
    (Datetime.sub (Datetime.mk 2025 11 3 11 30 0 0) (Datetime.mk 2025 11 3 10 0 0 0)) = 5400.
Proof. reflexivity. Qed.

(** ** The file store *)

Section StoreFacts.
Context {A : Type}.
Implicit Types (w : fs A) (path : string) (v data : list A).

Lemma append_length s t :
  String.length (String.append s t) = (String.length s + String.length t)%nat.
Proof. induction s as [|c s IH]; simpl; [done | by rewrite IH]. Qed.

Lemma add_suffix_neq path ext : ext ≠ "" → add_suffix path ext ≠ path.
Proof.
  intros Hext Heq. apply (f_equal String.length) in Heq.
  unfold add_suffix in Heq. rewrite append_length in Heq.
  destruct ext; [done | simpl in Heq; lia].
Qed.

(** [Load] read off the directory. *)
Lemma contents_lookup path w :
  contents path w = match files w !! path with
                    | Some (Json v) => v
                    | _ => []
                    end.
Proof.
  unfold contents, _read_json, bind, path_exists, try_except, json_load,
    path_replace, ret.
  destruct (files w !! path) as [[v|raw|e raw]|] eqn:Hp; simpl; rewrite ?Hp; simpl;
    try done.
  - destruct (bool_decide _); done.
  - by destruct e.
Qed.

(** On a store whose file can be read, [_read_json] returns; a reload
    gives the same sequence. *)
Lemma read_json_run path w :
  readable path w →
  ∃ w', _read_json path [] w = (Return (contents path w), w')
        ∧ contents path w' = contents path w
        ∧ readonly w' = readonly w.
Proof.
  intros Hreadable. rewrite contents_lookup.
  unfold _read_json, bind, path_exists, try_except, json_load, path_replace, ret.
  destruct (files w !! path) as [[v|raw|e raw]|] eqn:Hp; simpl; rewrite ?Hp; simpl.
  - exists w. by rewrite contents_lookup, Hp.
  - destruct (bool_decide _); simpl; (eexists; split; [done|]);
      rewrite !contents_lookup; simpl; [by rewrite Hp|].
    rewrite lookup_insert_ne by (apply add_suffix_neq; done).
    by rewrite lookup_delete_eq.
  - by destruct (Hreadable e raw).
  - exists w. by rewrite contents_lookup, Hp.
Qed.

(** On any store, [_read_json] returns as above or raises and leaves the
    store untouched. *)
Lemma read_json_cases path w :
  (∃ w', _read_json path [] w = (Return (contents path w), w')
         ∧ contents path w' = contents path w
         ∧ readonly w' = readonly w)
  ∨ (∃ f, _read_json path [] w = (Raise (load_exn f), w)).
Proof.
  destruct (files w !! path) as [[v|raw|f raw]|] eqn:Hp;
    try (left; apply read_json_run; intros f' raw' Hf'; congruence).
  right. exists f.
  unfold _read_json, bind, path_exists, try_except, json_load.
  rewrite Hp. simpl. rewrite ?Hp. by destruct f.
Qed.

(** A store in which the collection is not empty holds a file that can
    be read. *)
Lemma elem_of_contents_readable path w (x : A) : x ∈ contents path w → readable path w.
Proof.
  rewrite contents_lookup. intros Hx f raw Hf. rewrite Hf in Hx.
  by apply elem_of_nil in Hx.
Qed.

Lemma lookup_contents_readable path w i (x : A) :
  contents path w !! i = Some x → readable path w.
Proof. intros Hi. eapply elem_of_contents_readable. by eapply list_elem_of_lookup_2. Qed.

(** [_write_json] on a store that lets it through. *)
Lemma write_json_run path data w :
  writable path w →
  ∃ w', _write_json path data w = (Return tt, w')
        ∧ contents path w' = data
        ∧ readonly w' = readonly w.
Proof.
  intros [Hp Ht].
  unfold _write_json, bind, json_dump, path_replace.
  rewrite bool_decide_eq_false_2 by done. simpl.
  rewrite lookup_insert_eq. rewrite bool_decide_eq_false_2 by done.
  eexists; split; [done|]. rewrite contents_lookup. simpl.
  by rewrite lookup_insert_eq.
Qed.

(** [_write_json] on any store: it replaces the collection, or it raises
    and the collection is as before. *)
Lemma write_json_any path data w :
  ∃ o w', _write_json path data w = (o, w')
          ∧ readonly w' = readonly w
          ∧ (contents path w' = data ∨ contents path w' = contents path w).
Proof.
  unfold _write_json, bind, json_dump, path_replace.
  destruct (bool_decide (add_suffix path ".tmp" ∈ readonly w)); simpl.
  { eauto 10. }
  rewrite lookup_insert_eq.
  destruct (bool_decide (path ∈ readonly w)); simpl.
  - do 2 eexists; split; [done|]. split; [done|]. right.
    rewrite !contents_lookup. simpl.
    by rewrite lookup_insert_ne by (apply add_suffix_neq; done).
  - do 2 eexists; split; [done|]. split; [done|]. left.
    rewrite contents_lookup. simpl. by rewrite lookup_insert_eq.
Qed.

(** After [_write_json] has returned, the file can be read. *)
Lemma write_json_readable path data w w' :
  _write_json path data w = (Return tt, w') → readable path w'.
Proof.
  unfold _write_json, bind, json_dump, path_replace.
  destruct (bool_decide (add_suffix path ".tmp" ∈ readonly w)); simpl; [done|].
  rewrite lookup_insert_eq.
  destruct (bool_decide (path ∈ readonly w)); simpl; [done|].
  intros [= <-] e raw. simpl. by rewrite lookup_insert_eq.
Qed.

(** The only exception [_write_json] raises is the store's refusal. *)
Lemma write_json_raises path data w e w' :
  _write_json path data w = (Raise e, w') → e = OSError.
Proof.
  unfold _write_json, bind, json_dump, path_replace.
  destruct (bool_decide (add_suffix path ".tmp" ∈ readonly w)); simpl;
    [by intros [= <- _]|].
  rewrite lookup_insert_eq.
  destruct (bool_decide (path ∈ readonly w)); simpl; [by intros [= <- _]|done].
Qed.

(** X24. [Load]: with no file at the path, [_read_json] returns the
    default (the empty sequence at every call site) and the store is as
    before; with a file on which [json.load] raises [JSONDecodeError], it
    returns the default too, the file having been renamed to its [.bak]
    sibling when the store allows the rename and left in place, the
    failure swallowed, when it does not.  [_read_json] raises in neither
    case, a second load returns the default again, and a later
    [_write_json] goes through. *)
Theorem read_json_recovers path (default : list A) w :
  (files w !! path = None → _read_json path default w = (Return default, w))
  ∧ (∀ raw, files w !! path = Some (Garbage raw) →
       ∃ w', _read_json path default w = (Return default, w')
             ∧ (add_suffix path ".bak" ∉ readonly w →
                files w' !! path = None
                ∧ files w' !! add_suffix path ".bak" = Some (Garbage raw))
             ∧ (add_suffix path ".bak" ∈ readonly w → w' = w)
             ∧ fst (_read_json path default w') = Return default
             ∧ (∀ data, writable path w →
                  ∃ w'', _write_json path data w' = (Return tt, w'')
                         ∧ contents path w'' = data)).
Proof.
  split.
  - intros Hp. unfold _read_json, bind, path_exists. by rewrite Hp.
  - intros raw Hp.
    assert (∀ w1 : fs A, files w1 !! path = None ∨ files w1 !! path = Some (Garbage raw) →
              fst (_read_json path default w1) = Return default) as Hagain.
    { intros w1 [H1|H1];
        unfold _read_json, bind, path_exists, try_except, json_load, path_replace, ret;
        rewrite H1; simpl; [done|].
      rewrite H1. simpl. rewrite H1. by destruct (bool_decide _). }
    unfold _read_json at 1.
    unfold bind, path_exists, try_except, json_load, path_replace, ret.
    rewrite Hp. simpl. rewrite Hp. simpl. rewrite Hp.
    destruct (decide (add_suffix path ".bak" ∈ readonly w)) as [Hro|Hro].
    + rewrite bool_decide_eq_true_2 by done. simpl.
      exists w. split; [done|]. split; [done|]. split; [done|].
      split; [apply Hagain; by right|].
      intros data Hw. destruct (write_json_run path data w Hw) as (w'' & ? & ? & _).
      by exists w''.
    + rewrite bool_decide_eq_false_2 by done. simpl.
      eexists. split; [done|]. simpl.
      assert (<[add_suffix path ".bak" := Garbage raw]> (delete path (files w)) !! path
              = None) as Hgone.
      { rewrite lookup_insert_ne by (apply add_suffix_neq; done).
        apply lookup_delete_eq. }
      split; [intros _; split; [done|apply lookup_insert_eq]|].
      split; [done|]. split; [apply Hagain; by left|].
      intros data Hw.
      destruct (write_json_run path data
                  (mkfs (<[add_suffix path ".bak" := Garbage raw]> (delete path (files w)))
                        (readonly w)) Hw) as (w'' & ? & ? & _).
      by exists w''.
Qed.

End StoreFacts.

(** ** Timestamps *)

Section DatetimeFacts.
Import Datetime.

Lemma digit_char_cases d :
  ∃ k, (0 ≤ k < 10) ∧ d mod 10 = k ∧ digit_char d = ascii_of_N (48 + Z.to_N k).
Proof.
  exists (d mod 10). split; [apply Z.mod_pos_bound; lia|]. split; [done|]. done.
Qed.

Lemma digit_value_digit_char d : digit_value (digit_char d) = Some (d mod 10).
Proof.
  destruct (digit_char_cases d) as (k & Hk & -> & ->).
  assert (k = 0 ∨ k = 1 ∨ k = 2 ∨ k = 3 ∨ k = 4 ∨ k = 5 ∨ k = 6 ∨ k = 7 ∨ k = 8 ∨ k = 9)
    as Hcases by lia.
  repeat (destruct Hcases as [->|Hcases]; [reflexivity|]). by subst.
Qed.

Lemma digit_char_not_Z d : Ascii.eqb (digit_char d) "Z" = false.
Proof.
  destruct (digit_char_cases d) as (k & Hk & _ & ->).
  assert (k = 0 ∨ k = 1 ∨ k = 2 ∨ k = 3 ∨ k = 4 ∨ k = 5 ∨ k = 6 ∨ k = 7 ∨ k = 8 ∨ k = 9)
    as Hcases by lia.
  repeat (destruct Hcases as [->|Hcases]; [reflexivity|]). by subst.
Qed.

Lemma two_digits n : 0 ≤ n < 100 → (0 * 10 + (n / 10) mod 10) * 10 + n mod 10 = n.
Proof. intros H. rewrite (Z.mod_small (n / 10) 10) by (split; [apply Z.div_pos; lia | apply Z.div_lt_upper_bound; lia]). rewrite (Z.div_mod n 10) at 3 by lia. lia. Qed.

Lemma four_digits n :
  0 ≤ n < 10000 →
  (((0 * 10 + (n / 10 / 10 / 10) mod 10) * 10 + (n / 10 / 10) mod 10) * 10
   + (n / 10) mod 10) * 10 + n mod 10 = n.
Proof.
  intros H.
  pose proof (Z.div_mod n 10 ltac:(lia)).
  pose proof (Z.div_mod (n / 10) 10 ltac:(lia)).
  pose proof (Z.div_mod (n / 10 / 10) 10 ltac:(lia)).
  assert (0 ≤ n / 10 / 10 / 10 < 10).
  { split; [repeat apply Z.div_pos; lia|].
    repeat (apply Z.div_lt_upper_bound; [lia|]). lia. }
  rewrite (Z.mod_small (n / 10 / 10 / 10) 10) by done. lia.
Qed.

Lemma valid_bounds dt :
  valid dt = true →
  (1 ≤ year dt ≤ 9999) ∧ (1 ≤ month dt ≤ 12) ∧ (1 ≤ day dt ≤ 31)
  ∧ (0 ≤ hour dt ≤ 23) ∧ (0 ≤ minute dt ≤ 59) ∧ (0 ≤ second dt ≤ 59).
Proof.
  unfold valid. rewrite !andb_true_iff, !Z.leb_le. intros H.
  assert (days_in_month (year dt) (month dt) ≤ 31) as Hdim.
  { unfold days_in_month. destruct (_ && _); [lia|].
    assert (month dt = 1 ∨ month dt = 2 ∨ month dt = 3 ∨ month dt = 4 ∨ month dt = 5
            ∨ month dt = 6 ∨ month dt = 7 ∨ month dt = 8 ∨ month dt = 9 ∨ month dt = 10
            ∨ month dt = 11 ∨ month dt = 12) as Hm by lia.
    repeat (destruct Hm as [->|Hm]; [simpl; lia|]). rewrite Hm. simpl. lia. }
  lia.
Qed.

Lemma fromisoformat_tz_naive s dt :
  fromisoformat s = Some dt → fromisoformat_tz s = Some (Naive dt).
Proof.
  intros Hs. unfold fromisoformat_tz.
  destruct (Nat.eqb (String.length s) 19) eqn:Hlen.
  - by rewrite Hs.
  - unfold fromisoformat in Hs. by rewrite Hlen in Hs.
Qed.

Lemma valid_replace_microsecond0 dt :
  valid dt = true → valid (replace_microsecond0 dt) = true.
Proof. done. Qed.

(** What [isoformat] writes for a valid whole second, [fromisoformat]
    reads back, with or without the ["Z"] the handlers add. *)
Lemma fromisoformat_isoformat dt :
  valid dt = true → microsecond dt = 0 →
  fromisoformat (Text.remove_char "Z" (String.append (isoformat dt) "Z")) = Some dt.
Proof.
  intros Hvalid Hus.
  pose proof (valid_bounds dt Hvalid) as (Hy & Hmo & Hd & Hh & Hmi & Hs).
  destruct dt as [y mo d h mi s us]. simpl in *. subst us.
  unfold isoformat. simpl.
  rewrite !digit_char_not_Z.
  unfold fromisoformat, field. simpl.
  rewrite !digit_value_digit_char.
  rewrite four_digits by lia. rewrite !two_digits by lia.
  by rewrite Hvalid.
Qed.
Lemma exponent_whole m b : 0 < m < 2 ^ 52 → 0 < b → exponent (m * b) b ≤ 0.
Proof.
  intros Hm Hb. unfold exponent.
  pose proof (Z.log2_mul_above m b ltac:(lia) ltac:(lia)).
  assert (Z.log2 m < 52) by (apply Z.log2_lt_pow2; lia).
  destruct (_ <? _); lia.
Qed.

Lemma scaled_whole m b e :
  0 < b → e ≤ 0 → scaled (m * b) b e = (m * 2 ^ (- e) * b, b).
Proof.
  intros Hb He. unfold scaled. destruct (Z.leb_spec 0 e).
  - assert (e = 0) as -> by lia. f_equal; simpl; lia.
  - f_equal. lia.
Qed.

(** The double nearest to a whole number below [2^52] is that number. *)
Lemma nearest_double_whole m b :
  0 < m < 2 ^ 52 → 0 < b →
  ∃ e, e ≤ 0 ∧ nearest_double (m * b) b = (m * 2 ^ (- e), e).
Proof.
  intros Hm Hb. pose proof (exponent_whole m b Hm Hb) as He.
  exists (exponent (m * b) b). split; [done|].
  unfold nearest_double. cbv zeta. rewrite (scaled_whole m b _ Hb He). simpl.
  rewrite Z.div_mul, Z.mod_mul by lia.
  rewrite (proj2 (Z.ltb_ge _ _)) by lia.
  rewrite (proj2 (Z.eqb_neq _ _)) by lia. done.
Qed.

(** [int(td.total_seconds())] is exact on a whole number of seconds. *)
Lemma int_total_seconds_whole s :
  Z.abs s < 2 ^ 52 → int_total_seconds (s * 1000000) = s.
Proof.
  intros Hs. unfold int_total_seconds.
  destruct (Z.eqb_spec (s * 1000000) 0) as [H0|H0]; [lia|].
  rewrite Z.abs_mul. change (Z.abs 1000000) with 1000000.
  destruct (nearest_double_whole (Z.abs s) 1000000 ltac:(lia) ltac:(lia)) as (e & He & ->).
  rewrite Z.sgn_mul. change (Z.sgn 1000000) with 1. rewrite Z.mul_1_r.
  destruct (Z.leb_spec 0 e).
  - assert (e = 0) as -> by lia. simpl. rewrite !Z.mul_1_r.
    rewrite Z.mul_comm. apply Z.abs_sgn.
  - rewrite Z.div_mul by (apply Z.pow_nonzero; lia).
    rewrite Z.mul_comm. apply Z.abs_sgn.
Qed.

(** [int(td.total_seconds())] is not negative on a [timedelta] that is
    not. *)
Lemma int_total_seconds_nonneg td : 0 ≤ td → 0 ≤ int_total_seconds td.
Proof.
  intros Htd. unfold int_total_seconds.
  destruct (Z.eqb_spec td 0) as [->|H0]; [done|].
  unfold nearest_double. cbv zeta.
  set (e := exponent (Z.abs td) 1000000).
  assert (0 ≤ (scaled (Z.abs td) 1000000 e).1 ∧ 0 < (scaled (Z.abs td) 1000000 e).2)
    as [Hnum Hden].
  { unfold scaled. destruct (Z.leb_spec 0 e); simpl.
    - split; [lia|]. apply Z.mul_pos_pos; [lia|]. apply Z.pow_pos_nonneg; lia.
    - split; [|lia]. apply Z.mul_nonneg_nonneg; [lia|]. apply Z.pow_nonneg. lia. }
  assert (0 ≤ (scaled (Z.abs td) 1000000 e).1 / (scaled (Z.abs td) 1000000 e).2) as Hq
    by (apply Z.div_pos; [exact Hnum|exact Hden]).
  set (m := if _ || _ then _ else _).
  assert (0 ≤ m) as Hmn.
  { subst m. destruct (_ || _); [apply Z.add_nonneg_nonneg; [exact Hq|done]|exact Hq]. }
  apply Z.mul_nonneg_nonneg; [lia|].
  clearbody e m. destruct (Z.leb_spec 0 e).
  - apply Z.mul_nonneg_nonneg; [done|]. apply Z.pow_nonneg. lia.
  - apply Z.div_pos; [done|]. apply Z.pow_pos_nonneg; lia.
Qed.

Lemma toordinal_bounds dt :
  valid dt = true → 1 ≤ toordinal dt ≤ 3700000.
Proof.
  intros Hv. pose proof (valid_bounds dt Hv) as (Hy & Hmo & Hd & _).
  unfold toordinal, days_before_year, days_before_month.
  assert (0 ≤ nth (Z.to_nat (month dt - 1)) DAYS_BEFORE_MONTH 0 ≤ 334) as Hbm.
  { assert (month dt = 1 ∨ month dt = 2 ∨ month dt = 3 ∨ month dt = 4 ∨ month dt = 5
            ∨ month dt = 6 ∨ month dt = 7 ∨ month dt = 8 ∨ month dt = 9 ∨ month dt = 10
            ∨ month dt = 11 ∨ month dt = 12) as Hm by lia.
    repeat (destruct Hm as [->|Hm]; [simpl; lia|]). rewrite Hm. simpl. lia. }
  cbv zeta. revert Hbm.
  generalize (nth (Z.to_nat (month dt - 1)) DAYS_BEFORE_MONTH 0).
  intros z Hz. destruct (_ && _); Z.div_mod_to_equations; lia.
Qed.

(** Between two valid times of whole seconds, [a - b] is a whole number
    of seconds, far below [2^52]. *)
Lemma sub_whole a b :
  valid a = true → valid b = true → microsecond a = 0 → microsecond b = 0 →
  ∃ s, sub a b = s * 1000000 ∧ Z.abs s < 2 ^ 52.
Proof.
  intros Ha Hb Hua Hub.
  pose proof (toordinal_bounds a Ha). pose proof (toordinal_bounds b Hb).
  pose proof (valid_bounds a Ha) as (_ & _ & _ & ? & ? & ?).
  pose proof (valid_bounds b Hb) as (_ & _ & _ & ? & ? & ?).
  unfold sub. rewrite Hua, Hub.
  eexists. split; [rewrite Z.sub_diag, Z.add_0_r; reflexivity|].
  change (2 ^ 52) with 4503599627370496. lia.
Qed.

End DatetimeFacts.


(** ** The ASCII instances of [strip] and [lower] *)

Section TextMore.

Lemma rstrip_idempotent s : Text.rstrip (Text.rstrip s) = Text.rstrip s.
Proof.
  induction s as [|c s IH]; [done|]. simpl.
  destruct (Text.rstrip s) as [|d r] eqn:Hr.
  - destruct (Text.isspace c) eqn:Hc; [done|]. simpl. by rewrite Hc.
  - simpl in *. by rewrite IH.
Qed.

Lemma rstrip_keeps_head c s :
  Text.isspace c = false → ∃ r, Text.rstrip (String c s) = String c r.
Proof.
  intros Hc. simpl. destruct (Text.rstrip s); [rewrite Hc|]; by eexists.
Qed.

Lemma lstrip_head s :
  Text.lstrip s = "" ∨ ∃ c r, Text.lstrip s = String c r ∧ Text.isspace c = false.
Proof.
  induction s as [|c s IH]; [by left|]. simpl.
  destruct (Text.isspace c) eqn:Hc; [done|]. right. by exists c, s.
Qed.

(** Stripping a stripped string changes nothing. *)
Lemma strip_idempotent s : Text.strip (Text.strip s) = Text.strip s.
Proof.
  unfold Text.strip. destruct (lstrip_head s) as [->|(c & r & -> & Hc)]; [done|].
  destruct (rstrip_keeps_head c r Hc) as (r' & Hr). rewrite Hr.
  simpl Text.lstrip. rewrite Hc. rewrite <- Hr. apply rstrip_idempotent.
Qed.

End TextMore.


(** ** Activity types *)

Section TypesFacts.
Import Types.

(** The handlers are taken with any [strip] and any [lower]: what follows
    holds of [str.strip] and [str.lower] whatever they do to a string. *)
Variables (strip lower : string → string).
Local Notation same_type := (Types.same_type strip lower).
Local Notation matches := (Types.matches strip lower).
Local Notation new_type := (Types.new_type strip).
Local Notation create_activity_type := (Types.create_activity_type strip lower).
Local Notation update_activity_type := (Types.update_activity_type strip lower).

Implicit Types (w : fs ActivityType.t) (payload : ActivityTypeIn.t)
  (items : list ActivityType.t) (it : ActivityType.t).

Lemma same_type_iff it payload :
  same_type it payload = true ↔ matches it payload.
Proof.
  unfold Types.same_type, Types.matches. rewrite andb_true_iff, !String.eqb_eq. done.
Qed.

Lemma existsb_same_type items payload :
  existsb (λ it, same_type it payload) items = true
  ↔ ∃ it, it ∈ items ∧ matches it payload.
Proof.
  rewrite existsb_exists. split; intros (it & Hin & Hm); exists it.
  - by rewrite list_elem_of_In, <- same_type_iff.
  - by rewrite <- list_elem_of_In, same_type_iff.
Qed.

Lemma create_duplicate uuid payload w :
  (∃ it, it ∈ contents TYPES_FILE w ∧ matches it payload) →
  ∃ w', create_activity_type uuid payload w
        = (Raise (HTTPException 400 "Activity type already exists"), w')
        ∧ contents TYPES_FILE w' = contents TYPES_FILE w.
Proof.
  intros Hdup.
  assert (readable TYPES_FILE w) as Hread.
  { destruct Hdup as (it & Hin & _). by eapply elem_of_contents_readable. }
  apply existsb_same_type in Hdup.
  destruct (read_json_run TYPES_FILE w Hread) as (w1 & Hrun & Hc & _).
  exists w1. unfold Types.create_activity_type, bind. rewrite Hrun, Hdup. done.
Qed.

Lemma create_fresh uuid payload w :
  ¬ (∃ it, it ∈ contents TYPES_FILE w ∧ matches it payload) →
  readable TYPES_FILE w →
  writable TYPES_FILE w →
  ∃ w', create_activity_type uuid payload w = (Return (new_type uuid payload), w')
        ∧ contents TYPES_FILE w' = contents TYPES_FILE w ++ [new_type uuid payload]
        ∧ readonly w' = readonly w.
Proof.
  intros Hno Hread Hw. rewrite <- existsb_same_type, not_true_iff_false in Hno.
  destruct (read_json_run TYPES_FILE w Hread) as (w1 & Hrun & Hc & Hr).
  assert (writable TYPES_FILE w1) as Hw1 by (unfold writable in *; by rewrite Hr).
  destruct (write_json_run TYPES_FILE
              (contents TYPES_FILE w ++ [new_type uuid payload]) w1 Hw1)
    as (w2 & Hwr & Hc2 & Hr2).
  exists w2. unfold Types.create_activity_type, bind. rewrite Hrun, Hno.
  fold (new_type uuid payload). rewrite Hwr. simpl.
  split; [done|]. split; [done|]. by rewrite Hr2.
Qed.

Lemma matches_transfer it p q :
  lower (strip (ActivityTypeIn.activity_category p))
    = lower (strip (ActivityTypeIn.activity_category q)) →
  lower (strip (ActivityTypeIn.activity_name p))
    = lower (strip (ActivityTypeIn.activity_name q)) →
  matches it p → matches it q.
Proof. unfold Types.matches. intros <- <-. done. Qed.

Lemma matches_dec it payload : Decision (matches it payload).
Proof. unfold Types.matches. apply _. Defined.

Lemma duplicate_dec items payload :
  Decision (∃ it, it ∈ items ∧ matches it payload).
Proof.
  destruct (existsb (λ it, same_type it payload) items) eqn:E.
  - left. by apply existsb_same_type.
  - right. rewrite <- existsb_same_type. congruence.
Defined.

Lemma NoDup_ids_snoc (items : list ActivityType.t) new_item :
  ActivityType.id new_item ∉ ActivityType.id <$> items →
  NoDup (ActivityType.id <$> items) →
  NoDup (ActivityType.id <$> items ++ [new_item]).
Proof.
  intros Hfresh Hnd. rewrite fmap_app. apply NoDup_app. split; [done|].
  split; [|apply NoDup_singleton].
  intros x Hx Hx'. apply list_elem_of_singleton in Hx'. simpl in Hx'. by subst.
Qed.

(** C6, amended. [Create]: when a stored type has the same category and
    the same name as the request after trimming and ignoring case, the
    call fails with the 400 "already exists" error and the collection is
    as before; otherwise a record made of the id that [uuid4] returns and
    of the trimmed fields is appended and returned, and that id is new to
    the collection, the ids staying pairwise distinct, when [uuid4]
    returns an id that no stored type has.  Creating ("Sports", "Run") and
    then (" sports ", "RUN") fails at the second call. *)
Theorem create_activity_type_spec uuid payload w :
  let items := contents TYPES_FILE w in
  let new_item := new_type uuid payload in
  ((∃ it, it ∈ items ∧ matches it payload) →
     ∃ w', create_activity_type uuid payload w
           = (Raise (HTTPException 400 "Activity type already exists"), w')
           ∧ contents TYPES_FILE w' = items)
  ∧ (¬ (∃ it, it ∈ items ∧ matches it payload) →
     readable TYPES_FILE w →
     writable TYPES_FILE w →
     ∃ w', create_activity_type uuid payload w = (Return new_item, w')
           ∧ contents TYPES_FILE w' = items ++ [new_item]
           ∧ ActivityType.id new_item = uuid
           ∧ ActivityType.activity_category new_item
             = strip (ActivityTypeIn.activity_category payload)
           ∧ ActivityType.activity_name new_item
             = strip (ActivityTypeIn.activity_name payload)
           ∧ (uuid ∉ ActivityType.id <$> items →
              NoDup (ActivityType.id <$> items) →
              NoDup (ActivityType.id <$> contents TYPES_FILE w')))
  ∧ ((∀ s, strip (strip s) = strip s) →
     lower (strip " sports ") = lower (strip "Sports") →
     lower (strip "RUN") = lower (strip "Run") →
     readable TYPES_FILE w →
     writable TYPES_FILE w →
     ∀ uuid1 uuid2,
       let w1 := snd (create_activity_type uuid1 (ActivityTypeIn.mk "Sports" "Run") w) in
       ∃ w2, create_activity_type uuid2 (ActivityTypeIn.mk " sports " "RUN") w1
             = (Raise (HTTPException 400 "Activity type already exists"), w2)
             ∧ contents TYPES_FILE w2 = contents TYPES_FILE w1).
Proof.
  intros items new_item. split; [|split].
  - apply create_duplicate.
  - intros Hno Hread Hw.
    destruct (create_fresh uuid payload w Hno Hread Hw) as (w' & Hrun & Hc & _).
    exists w'. repeat split; try done.
    intros Hfresh Hnd. rewrite Hc. by apply NoDup_ids_snoc.
  - intros Hidem Hcat Hname Hread Hw uuid1 uuid2 w1. apply create_duplicate.
    set (p1 := ActivityTypeIn.mk "Sports" "Run").
    destruct (duplicate_dec items p1) as [(it & Hin & Hm)|Hno].
    + destruct (create_duplicate uuid1 p1 w (ex_intro _ it (conj Hin Hm)))
        as (w' & Hrun & Hc).
      exists it. subst w1. fold p1. rewrite Hrun. simpl. rewrite Hc.
      split; [done|]. revert Hm. by apply matches_transfer.
    + destruct (create_fresh uuid1 p1 w Hno Hread Hw) as (w' & Hrun & Hc & _).
      exists (new_type uuid1 p1). subst w1. fold p1. rewrite Hrun. simpl. rewrite Hc.
      split; [apply elem_of_app; right; apply list_elem_of_singleton; done|].
      unfold Types.matches, Types.new_type. simpl. by rewrite !Hidem, Hcat, Hname.
Qed.

Lemma existsb_other_type items type_id payload :
  existsb (λ other, negb (String.eqb (ActivityType.id other) type_id)
                    && same_type other payload) items = true
  ↔ ∃ other, other ∈ items ∧ ActivityType.id other ≠ type_id ∧ matches other payload.
Proof.
  rewrite existsb_exists. split; intros (it & H1 & H2); exists it.
  - apply andb_true_iff in H2 as [Hid Hm].
    apply negb_true_iff, String.eqb_neq in Hid.
    by rewrite list_elem_of_In, <- same_type_iff.
  - destruct H2 as [Hid Hm]. rewrite <- list_elem_of_In. split; [done|].
    apply andb_true_iff. split; [|by apply same_type_iff].
    by apply negb_true_iff, String.eqb_neq.
Qed.

Lemma update_not_found type_id payload w :
  (∀ it, it ∈ contents TYPES_FILE w → ActivityType.id it ≠ type_id) →
  readable TYPES_FILE w →
  ∃ w', update_activity_type type_id payload w
        = (Raise (HTTPException 404 "Activity type not found"), w')
        ∧ contents TYPES_FILE w' = contents TYPES_FILE w.
Proof.
  intros Hno Hread.
  destruct (read_json_run TYPES_FILE w Hread) as (w1 & Hrun & Hc & _).
  exists w1. unfold Types.update_activity_type, bind. rewrite Hrun.
  assert (list_find (λ it, ActivityType.id it = type_id) (contents TYPES_FILE w) = None)
    as ->; [|done].
  apply list_find_None, Forall_forall. exact Hno.
Qed.

Lemma update_duplicate type_id payload w :
  (∃ it, it ∈ contents TYPES_FILE w ∧ ActivityType.id it = type_id) →
  (∃ other, other ∈ contents TYPES_FILE w
            ∧ ActivityType.id other ≠ type_id ∧ matches other payload) →
  ∃ w', update_activity_type type_id payload w
        = (Raise (HTTPException 400 "Another activity type with same name exists"), w')
        ∧ contents TYPES_FILE w' = contents TYPES_FILE w.
Proof.
  intros (it & Hin & Hid) Hdup. apply existsb_other_type in Hdup.
  assert (readable TYPES_FILE w) as Hread by (by eapply elem_of_contents_readable).
  destruct (read_json_run TYPES_FILE w Hread) as (w1 & Hrun & Hc & _).
  exists w1. unfold Types.update_activity_type, bind. rewrite Hrun.
  destruct (list_find_elem_of (λ it, ActivityType.id it = type_id) _ it Hin Hid)
    as [[idx it'] ->].
  by rewrite Hdup.
Qed.

Lemma update_in_place type_id payload w idx it :
  contents TYPES_FILE w !! idx = Some it →
  ActivityType.id it = type_id →
  (∀ j y, contents TYPES_FILE w !! j = Some y → (j < idx)%nat → ActivityType.id y ≠ type_id) →
  ¬ (∃ other, other ∈ contents TYPES_FILE w
              ∧ ActivityType.id other ≠ type_id ∧ matches other payload) →
  writable TYPES_FILE w →
  ∃ w', update_activity_type type_id payload w = (Return (new_type type_id payload), w')
        ∧ contents TYPES_FILE w' = <[idx := new_type type_id payload]> (contents TYPES_FILE w).
Proof.
  intros Hidx Hid Hfirst Hno Hw.
  rewrite <- existsb_other_type, not_true_iff_false in Hno.
  assert (readable TYPES_FILE w) as Hread by (by eapply lookup_contents_readable).
  destruct (read_json_run TYPES_FILE w Hread) as (w1 & Hrun & Hc & Hr).
  assert (writable TYPES_FILE w1) as Hw1 by (unfold writable in *; by rewrite Hr).
  destruct (write_json_run TYPES_FILE
              (<[idx := new_type type_id payload]> (contents TYPES_FILE w)) w1 Hw1)
    as (w2 & Hwr & Hc2 & _).
  exists w2. unfold Types.update_activity_type, bind. rewrite Hrun.
  rewrite (proj2 (list_find_Some (λ it, ActivityType.id it = type_id) _ idx it))
    by done.
  rewrite Hno, Hwr. done.
Qed.

(** C7. [Update]: with no stored type of the given id the call fails
    with the 404 error (the types file being one that can be read); when a stored type of another id has the
    request's fields (trimmed, ignoring case) it fails with the 400 error
    and the collection is as before; otherwise the first record of that
    id is overwritten in place by the given id and the trimmed fields,
    the length of the collection and every other position are as before,
    and the new record is returned.  The record under update is not part
    of the duplicate scan, so renaming a record to its own fields
    succeeds. *)
Theorem update_activity_type_spec type_id payload w :
  let items := contents TYPES_FILE w in
  let updated := new_type type_id payload in
  ((∀ it, it ∈ items → ActivityType.id it ≠ type_id) →
     readable TYPES_FILE w →
     ∃ w', update_activity_type type_id payload w
           = (Raise (HTTPException 404 "Activity type not found"), w')
           ∧ contents TYPES_FILE w' = items)
  ∧ ((∃ it, it ∈ items ∧ ActivityType.id it = type_id) →
     (∃ other, other ∈ items ∧ ActivityType.id other ≠ type_id ∧ matches other payload) →
     ∃ w', update_activity_type type_id payload w
           = (Raise (HTTPException 400 "Another activity type with same name exists"), w')
           ∧ contents TYPES_FILE w' = items)
  ∧ (∀ idx it,
       items !! idx = Some it →
       ActivityType.id it = type_id →
       (∀ j y, items !! j = Some y → (j < idx)%nat → ActivityType.id y ≠ type_id) →
       ¬ (∃ other, other ∈ items ∧ ActivityType.id other ≠ type_id ∧ matches other payload) →
       writable TYPES_FILE w →
       ∃ w', update_activity_type type_id payload w = (Return updated, w')
             ∧ ActivityType.id updated = ActivityType.id it
             ∧ ActivityType.activity_category updated
               = strip (ActivityTypeIn.activity_category payload)
             ∧ ActivityType.activity_name updated
               = strip (ActivityTypeIn.activity_name payload)
             ∧ length (contents TYPES_FILE w') = length items
             ∧ contents TYPES_FILE w' !! idx = Some updated
             ∧ (∀ j, j ≠ idx → contents TYPES_FILE w' !! j = items !! j))
  ∧ (∀ idx it,
       items !! idx = Some it →
       ActivityType.id it = type_id →
       (∀ j y, items !! j = Some y → (j < idx)%nat → ActivityType.id y ≠ type_id) →
       (∀ other, other ∈ items → ActivityType.id other ≠ type_id →
                 ¬ matches other (ActivityTypeIn.mk (ActivityType.activity_category it)
                                                    (ActivityType.activity_name it))) →
       writable TYPES_FILE w →
       ∃ w', update_activity_type type_id
               (ActivityTypeIn.mk (ActivityType.activity_category it)
                                  (ActivityType.activity_name it)) w
             = (Return (ActivityType.mk type_id
                          (strip (ActivityType.activity_category it))
                          (strip (ActivityType.activity_name it))), w')).
Proof.
  intros items updated. split; [|split; [|split]].
  - apply update_not_found.
  - apply update_duplicate.
  - intros idx it Hidx Hid Hfirst Hno Hw.
    destruct (update_in_place type_id payload w idx it Hidx Hid Hfirst Hno Hw)
      as (w' & Hrun & Hc).
    exists w'. rewrite Hc. split; [done|]. split; [by rewrite Hid|].
    split; [done|]. split; [done|]. split; [apply length_insert|].
    split.
    + apply list_lookup_insert_eq. by eapply lookup_lt_Some.
    + intros j Hj. by apply list_lookup_insert_ne.
  - intros idx it Hidx Hid Hfirst Hno Hw.
    destruct (update_in_place type_id
                (ActivityTypeIn.mk (ActivityType.activity_category it)
                                   (ActivityType.activity_name it))
                w idx it Hidx Hid Hfirst) as (w' & Hrun & Hc); [|done|].
    + intros (other & Hin & Hne & Hm). by apply (Hno other).
    + exists w'. by rewrite Hrun.
Qed.

End TypesFacts.

(** ** A file that cannot be decoded *)

Section Undecodable.
Import Types.

(** C9. [Load] on a file whose reading fails otherwise than with
    [JSONDecodeError] (bytes that are not UTF-8 raise
    [UnicodeDecodeError]): [_read_json] raises that exception, whatever
    the default, and the store is as before, so no backup is made and the
    next load raises again.  A [Create] on such a types file raises the
    same exception and writes nothing. *)
Theorem read_json_unreadable :
  (∀ (A : Type) (path : string) (default : list A) (w : fs A)
     (f : load_failure) (raw : string),
     files w !! path = Some (Unreadable f raw) →
     _read_json path default w = (Raise (load_exn f), w)
     ∧ snd (_read_json path default w) = w
     ∧ _read_json path default (snd (_read_json path default w))
       = (Raise (load_exn f), w))
  ∧ (∀ (strip lower : string → string) (uuid : string) (payload : ActivityTypeIn.t)
       (w : fs ActivityType.t) (f : load_failure) (raw : string),
       files w !! TYPES_FILE = Some (Unreadable f raw) →
       create_activity_type strip lower uuid payload w = (Raise (load_exn f), w))
  ∧ load_exn NotUTF8 = UnicodeDecodeError.
Proof.
  assert (∀ (A : Type) (path : string) (default : list A) (w : fs A) f raw,
            files w !! path = Some (Unreadable f raw) →
            _read_json path default w = (Raise (load_exn f), w)) as Hload.
  { intros A path default w f raw Hp.
    unfold _read_json, bind, path_exists, try_except, json_load.
    rewrite Hp. simpl. rewrite Hp. by destruct f. }
  split; [|split; [|done]].
  - intros A path default w f raw Hp.
    rewrite (Hload A path default w f raw Hp). simpl.
    split; [done|]. split; [done|]. by apply (Hload A path default w f raw).
  - intros strip lower uuid payload w f raw Hp.
    unfold create_activity_type, bind. by rewrite (Hload _ _ _ _ _ _ Hp).
Qed.

End Undecodable.

(** ** The activity lifecycle *)

Section LifecycleFacts.
Import Activities ActivityRecord.

(** [Start] is taken with any [strip]. *)
Variable strip : string → string.
Local Notation start_activity := (Activities.start_activity strip).
Local Notation started := (Activities.started strip).

Implicit Types (w : fs ActivityRecord.t) (acts : list ActivityRecord.t)
  (a : ActivityRecord.t) (utcnow : Datetime.datetime).

Lemma in_None_or_empty_iff (x : option string) :
  in_None_or_empty x = true ↔ x = None ∨ x = Some "".
Proof.
  destruct x as [s|]; simpl.
  - rewrite String.eqb_eq. split; [intros ->; by right|intros [?|?]; congruence].
  - split; [by left|done].
Qed.

Lemma truthy_str_false (x : option string) :
  truthy_str x = false ↔ x = None ∨ x = Some "".
Proof.
  destruct x as [[|c s]|]; simpl; split; try done; auto; intros [?|?]; congruence.
Qed.

Lemma truthy_str_true (x : option string) :
  truthy_str x = true ↔ ∃ e, x = Some e ∧ e ≠ "".
Proof.
  destruct x as [[|c s]|]; simpl; split; try done.
  - intros (e & [= <-] & He). done.
  - intros _. eexists; split; done.
  - intros (e & ? & _). done.
Qed.

Lemma existsb_open acts :
  existsb (λ a, in_None_or_empty (end_time a)) acts = true
  ↔ ∃ a, a ∈ acts ∧ (end_time a = None ∨ end_time a = Some "").
Proof.
  rewrite existsb_exists. split; intros (a & H1 & H2); exists a.
  - by rewrite list_elem_of_In, <- in_None_or_empty_iff.
  - by rewrite <- list_elem_of_In, in_None_or_empty_iff.
Qed.

Lemma start_conflict uuid utcnow payload w :
  (∃ a, a ∈ contents ACTIVITIES_FILE w ∧ (end_time a = None ∨ end_time a = Some "")) →
  ∃ w', start_activity uuid utcnow payload w
        = (Raise (HTTPException 400
             "An activity is already in progress. End it before starting a new one."), w')
        ∧ contents ACTIVITIES_FILE w' = contents ACTIVITIES_FILE w.
Proof.
  intros Hopen.
  assert (readable ACTIVITIES_FILE w) as Hread.
  { destruct Hopen as (a & Hin & _). by eapply elem_of_contents_readable. }
  apply existsb_open in Hopen.
  destruct (read_json_run ACTIVITIES_FILE w Hread) as (w1 & Hrun & Hc & _).
  exists w1. unfold Activities.start_activity, bind. by rewrite Hrun, Hopen.
Qed.

Lemma start_append uuid utcnow payload w :
  ¬ (∃ a, a ∈ contents ACTIVITIES_FILE w ∧ (end_time a = None ∨ end_time a = Some "")) →
  readable ACTIVITIES_FILE w →
  writable ACTIVITIES_FILE w →
  ∃ w', start_activity uuid utcnow payload w = (Return (started uuid utcnow payload), w')
        ∧ contents ACTIVITIES_FILE w'
          = contents ACTIVITIES_FILE w ++ [started uuid utcnow payload]
        ∧ readonly w' = readonly w.
Proof.
  intros Hno Hread Hw. rewrite <- existsb_open, not_true_iff_false in Hno.
  destruct (read_json_run ACTIVITIES_FILE w Hread) as (w1 & Hrun & Hc & Hr).
  assert (writable ACTIVITIES_FILE w1) as Hw1 by (unfold writable in *; by rewrite Hr).
  destruct (write_json_run ACTIVITIES_FILE
              (contents ACTIVITIES_FILE w ++ [started uuid utcnow payload]) w1 Hw1)
    as (w2 & Hwr & Hc2 & Hr2).
  exists w2. unfold Activities.start_activity, bind. rewrite Hrun, Hno.
  fold (started uuid utcnow payload). rewrite Hwr. simpl.
  split; [done|]. split; [done|]. by rewrite Hr2.
Qed.

(** Whatever the store, [start_activity] leaves the collection as it was
    or appends an open record to a collection that had none. *)
Lemma start_any uuid utcnow payload w :
  let w' := snd (start_activity uuid utcnow payload w) in
  contents ACTIVITIES_FILE w' = contents ACTIVITIES_FILE w
  ∨ (contents ACTIVITIES_FILE w'
       = contents ACTIVITIES_FILE w ++ [started uuid utcnow payload]
     ∧ ∀ a, a ∈ contents ACTIVITIES_FILE w → end_time a ≠ None).
Proof.
  destruct (read_json_cases ACTIVITIES_FILE w) as [(w1 & Hrun & Hc & Hr)|(e & Hrun)];
    unfold Activities.start_activity, bind; rewrite Hrun; [|by left].
  destruct (existsb _ _) eqn:Hex; simpl; [by left|].
  fold (started uuid utcnow payload).
  destruct (write_json_any ACTIVITIES_FILE
              (contents ACTIVITIES_FILE w ++ [started uuid utcnow payload]) w1)
    as (o & w2 & Hwr & _ & Hcases).
  rewrite Hwr.
  assert (snd (let (o0, w'0) := (o, w2) in
               match o0 with
               | Return _ => ret (started uuid utcnow payload) w'0
               | Raise e => (Raise e, w'0)
               end) = w2) as -> by (by destruct o).
  destruct Hcases as [Hd|Hs]; [right|left; congruence].
  split; [done|]. intros a Hin Hnone.
  apply not_true_iff_false in Hex. apply Hex, existsb_open. eauto.
Qed.

Section EndFacts.
Variable fromisoformat : string → option Datetime.parsed.

Lemma find_first_with_id acts idx a :
  first_with_id acts idx a →
  list_find (λ b, id b = id a) acts = Some (idx, a).
Proof.
  intros [Hidx Hfirst]. apply list_find_Some. split; [done|]. split; [done|].
  intros j b Hj Hlt. by apply (Hfirst j b).
Qed.

Lemma end_not_found utcnow payload w :
  (∀ a, a ∈ contents ACTIVITIES_FILE w → id a ≠ ActivityEndIn.id payload) →
  readable ACTIVITIES_FILE w →
  ∃ w', end_activity fromisoformat utcnow payload w
        = (Raise (HTTPException 404 "Active activity not found"), w')
        ∧ contents ACTIVITIES_FILE w' = contents ACTIVITIES_FILE w.
Proof.
  intros Hno Hread.
  destruct (read_json_run ACTIVITIES_FILE w Hread) as (w1 & Hrun & Hc & _).
  exists w1. unfold end_activity, bind. rewrite Hrun.
  assert (list_find (λ a, id a = ActivityEndIn.id payload)
            (contents ACTIVITIES_FILE w) = None) as ->; [|done].
  apply list_find_None, Forall_forall. exact Hno.
Qed.

Lemma end_already_ended utcnow payload w idx a :
  first_with_id (contents ACTIVITIES_FILE w) idx a →
  id a = ActivityEndIn.id payload →
  (∃ e, end_time a = Some e ∧ e ≠ "") →
  ∃ w', end_activity fromisoformat utcnow payload w
        = (Raise (HTTPException 400 "Activity already ended"), w')
        ∧ contents ACTIVITIES_FILE w' = contents ACTIVITIES_FILE w.
Proof.
  intros Hfirst Hid Hended. apply truthy_str_true in Hended.
  assert (readable ACTIVITIES_FILE w) as Hread
    by (destruct Hfirst as [Hidx _]; by eapply lookup_contents_readable).
  destruct (read_json_run ACTIVITIES_FILE w Hread) as (w1 & Hrun & Hc & _).
  exists w1. unfold end_activity, bind. rewrite Hrun, <- Hid.
  rewrite (find_first_with_id _ _ _ Hfirst). by rewrite Hended.
Qed.

Lemma end_closes utcnow payload w idx a start :
  first_with_id (contents ACTIVITIES_FILE w) idx a →
  id a = ActivityEndIn.id payload →
  end_time a = None ∨ end_time a = Some "" →
  fromisoformat (Text.remove_char "Z" (start_time a)) = Some (Datetime.Naive start) →
  writable ACTIVITIES_FILE w →
  ∃ w', end_activity fromisoformat utcnow payload w = (Return (ended utcnow start a), w')
        ∧ contents ACTIVITIES_FILE w'
          = <[idx := ended utcnow start a]> (contents ACTIVITIES_FILE w).
Proof.
  intros Hfirst Hid Hopen Hparse Hw. apply truthy_str_false in Hopen.
  assert (readable ACTIVITIES_FILE w) as Hread
    by (destruct Hfirst as [Hidx _]; by eapply lookup_contents_readable).
  destruct (read_json_run ACTIVITIES_FILE w Hread) as (w1 & Hrun & Hc & Hr).
  assert (writable ACTIVITIES_FILE w1) as Hw1 by (unfold writable in *; by rewrite Hr).
  destruct (write_json_run ACTIVITIES_FILE
              (<[idx := ended utcnow start a]> (contents ACTIVITIES_FILE w)) w1 Hw1)
    as (w2 & Hwr & Hc2 & _).
  exists w2. unfold end_activity, bind. rewrite Hrun, <- Hid.
  rewrite (find_first_with_id _ _ _ Hfirst). rewrite Hopen, Hparse.
  fold (ended utcnow start a). by rewrite Hwr.
Qed.

(** The first record of the id is open and its start time does not give
    a naive [datetime]: the call raises before it writes. *)
Lemma end_unparsed utcnow payload w idx a :
  first_with_id (contents ACTIVITIES_FILE w) idx a →
  id a = ActivityEndIn.id payload →
  end_time a = None ∨ end_time a = Some "" →
  (fromisoformat (Text.remove_char "Z" (start_time a)) = None →
   ∃ w', end_activity fromisoformat utcnow payload w = (Raise ValueError, w')
         ∧ contents ACTIVITIES_FILE w' = contents ACTIVITIES_FILE w)
  ∧ (∀ start utcoffset,
       fromisoformat (Text.remove_char "Z" (start_time a))
         = Some (Datetime.Aware start utcoffset) →
       ∃ w', end_activity fromisoformat utcnow payload w = (Raise TypeError, w')
             ∧ contents ACTIVITIES_FILE w' = contents ACTIVITIES_FILE w).
Proof.
  intros Hfirst Hid Hopen. apply truthy_str_false in Hopen.
  assert (readable ACTIVITIES_FILE w) as Hread
    by (destruct Hfirst as [Hidx _]; by eapply lookup_contents_readable).
  destruct (read_json_run ACTIVITIES_FILE w Hread) as (w1 & Hrun & Hc & Hr).
  split; [intros Hparse|intros start utcoffset Hparse];
    exists w1; unfold end_activity, bind; rewrite Hrun, <- Hid;
    rewrite (find_first_with_id _ _ _ Hfirst); by rewrite Hopen, Hparse.
Qed.

(** Whatever the store, [end_activity] leaves the collection as it was
    or puts a record with an end time in the place of one record. *)
Lemma end_any utcnow payload w :
  let w' := snd (end_activity fromisoformat utcnow payload w) in
  contents ACTIVITIES_FILE w' = contents ACTIVITIES_FILE w
  ∨ ∃ idx a, contents ACTIVITIES_FILE w' = <[idx := a]> (contents ACTIVITIES_FILE w)
             ∧ end_time a ≠ None.
Proof.
  destruct (read_json_cases ACTIVITIES_FILE w) as [(w1 & Hrun & Hc & Hr)|(e & Hrun)];
    unfold end_activity, bind; rewrite Hrun; [|by left].
  destruct (list_find _ _) as [[idx a]|]; simpl; [|by left].
  destruct (truthy_str _); simpl; [by left|].
  destruct (fromisoformat _) as [[start|start utcoffset]|]; simpl; [|by left..].
  fold (ended utcnow start a).
  destruct (write_json_any ACTIVITIES_FILE
              (<[idx := ended utcnow start a]> (contents ACTIVITIES_FILE w)) w1)
    as (o & w2 & Hwr & _ & Hcases).
  rewrite Hwr.
  assert (snd (let (o0, w'0) := (o, w2) in
               match o0 with
               | Return _ => ret (ended utcnow start a) w'0
               | Raise e => (Raise e, w'0)
               end) = w2) as -> by (by destruct o).
  destruct Hcases as [Hd|Hs]; [right|left; congruence].
  exists idx, (ended utcnow start a). done.
Qed.

Lemma single_open_snoc acts a :
  (∀ b, b ∈ acts → end_time b ≠ None) → single_open (acts ++ [a]).
Proof.
  intros Hclosed i j x y Hi Hj Hx Hy.
  assert (∀ k z, (acts ++ [a]) !! k = Some z → end_time z = None → k = length acts)
    as Hlast.
  { intros k z Hk Hz. apply lookup_app_Some in Hk as [Hk|[Hge Hk]].
    - exfalso. apply (Hclosed z); [by eapply list_elem_of_lookup_2|done].
    - apply list_lookup_singleton_Some in Hk as [Hk _]. lia. }
  rewrite (Hlast i x Hi Hx), (Hlast j y Hj Hy). done.
Qed.

Lemma single_open_insert acts idx a :
  end_time a ≠ None → single_open acts → single_open (<[idx := a]> acts).
Proof.
  intros Ha Hinv i j x y Hi Hj Hx Hy.
  assert (∀ k z, <[idx := a]> acts !! k = Some z → end_time z = None →
                 acts !! k = Some z) as Hold.
  { intros k z Hk Hz. destruct (decide (k = idx)) as [->|Hne].
    - apply list_lookup_insert_Some in Hk as [(_ & -> & _)|[? _]]; done.
    - by rewrite list_lookup_insert_ne in Hk. }
  eapply Hinv; eauto.
Qed.

Lemma step_single_open w c :
  single_open (contents ACTIVITIES_FILE w) →
  single_open (contents ACTIVITIES_FILE (step strip fromisoformat w c)).
Proof.
  intros Hinv. destruct c as [uuid utcnow payload|utcnow payload]; simpl.
  - destruct (start_any uuid utcnow payload w) as [->|[-> Hclosed]]; [done|].
    by apply single_open_snoc.
  - destruct (end_any utcnow payload w) as [->|(idx & a & -> & Ha)]; [done|].
    by apply single_open_insert.
Qed.

(** C3. Along every sequence of [Start] and [End] calls from a store
    in which no two activity records have [end_time] absent, every
    store reached has at most one such record. *)
Theorem single_open_along_calls w calls :
  single_open (contents ACTIVITIES_FILE w) →
  Forall (λ w', single_open (contents ACTIVITIES_FILE w'))
         (trace strip fromisoformat w calls).
Proof.
  revert w. induction calls as [|c calls IH]; intros w Hinv; simpl.
  - by constructor.
  - constructor; [done|]. apply IH. by apply step_single_open.
Qed.

(** C4, amended. [End]: with no stored activity of the given id the
    call fails with the 404 error; when the first activity of that id
    has a non-empty [end_time] it fails with the 400 "already ended"
    error and the collection is as before; when its [end_time] is
    absent or empty and its [start_time] parses to a time without a UTC
    offset, the record is overwritten in place with [end_time] the
    current time cut to whole seconds and [duration_seconds] the value
    of [int((end_time - start).total_seconds())], and is returned.  That
    value is the exact number of whole seconds from the start to the end
    when the start is a valid time on a whole second, and it is not
    negative when the start is not after the end.  A [start_time] that
    does not parse, or that parses to a time with a UTC offset, makes
    the call raise and leaves the collection as before. *)
Theorem end_activity_spec utcnow payload w :
  let acts := contents ACTIVITIES_FILE w in
  let end_ := Datetime.replace_microsecond0 utcnow in
  ((∀ a, a ∈ acts → id a ≠ ActivityEndIn.id payload) →
     readable ACTIVITIES_FILE w →
     ∃ w', end_activity fromisoformat utcnow payload w
           = (Raise (HTTPException 404 "Active activity not found"), w')
           ∧ contents ACTIVITIES_FILE w' = acts)
  ∧ (∀ idx a,
       first_with_id acts idx a → id a = ActivityEndIn.id payload →
       (∃ e, end_time a = Some e ∧ e ≠ "") →
       ∃ w', end_activity fromisoformat utcnow payload w
             = (Raise (HTTPException 400 "Activity already ended"), w')
             ∧ contents ACTIVITIES_FILE w' = acts)
  ∧ (∀ idx a start,
       first_with_id acts idx a → id a = ActivityEndIn.id payload →
       end_time a = None ∨ end_time a = Some "" →
       fromisoformat (Text.remove_char "Z" (start_time a)) = Some (Datetime.Naive start) →
       writable ACTIVITIES_FILE w →
       ∃ w' updated,
         end_activity fromisoformat utcnow payload w = (Return updated, w')
         ∧ length (contents ACTIVITIES_FILE w') = length acts
         ∧ contents ACTIVITIES_FILE w' !! idx = Some updated
         ∧ (∀ j, j ≠ idx → contents ACTIVITIES_FILE w' !! j = acts !! j)
         ∧ id updated = id a
         ∧ activity_category updated = activity_category a
         ∧ activity_name updated = activity_name a
         ∧ start_time updated = start_time a
         ∧ end_time updated = Some (String.append (Datetime.isoformat end_) "Z")
         ∧ duration_seconds updated
           = Some (Datetime.int_total_seconds (Datetime.sub end_ start))
         ∧ (Datetime.valid end_ = true → Datetime.valid start = true →
            Datetime.microsecond start = 0 →
            duration_seconds updated = Some (Datetime.sub end_ start / 1000000)
            ∧ Datetime.sub end_ start mod 1000000 = 0)
         ∧ (0 ≤ Datetime.sub end_ start →
            ∃ d, duration_seconds updated = Some d ∧ 0 ≤ d))
  ∧ (∀ idx a,
       first_with_id acts idx a → id a = ActivityEndIn.id payload →
       end_time a = None ∨ end_time a = Some "" →
       (fromisoformat (Text.remove_char "Z" (start_time a)) = None →
        ∃ w', end_activity fromisoformat utcnow payload w = (Raise ValueError, w')
              ∧ contents ACTIVITIES_FILE w' = acts)
       ∧ (∀ start utcoffset,
            fromisoformat (Text.remove_char "Z" (start_time a))
              = Some (Datetime.Aware start utcoffset) →
            ∃ w', end_activity fromisoformat utcnow payload w = (Raise TypeError, w')
                  ∧ contents ACTIVITIES_FILE w' = acts)).
Proof.
  intros acts end_. split; [|split; [|split]].
  - apply end_not_found.
  - intros idx a. apply end_already_ended.
  - intros idx a start Hfirst Hid Hopen Hparse Hw.
    destruct (end_closes utcnow payload w idx a start Hfirst Hid Hopen Hparse Hw)
      as (w' & Hrun & Hc).
    exists w', (ended utcnow start a). rewrite Hc.
    split; [done|]. split; [apply length_insert|]. split.
    { apply list_lookup_insert_eq. destruct Hfirst as [Hidx _].
      by eapply lookup_lt_Some. }
    split; [intros j Hj; by apply list_lookup_insert_ne|].
    do 6 (split; [done|]). split.
    + intros Hve Hvs Hus. simpl. fold end_.
      destruct (sub_whole end_ start Hve Hvs eq_refl Hus) as (s & Hs & Hbound).
      rewrite Hs, (int_total_seconds_whole s Hbound).
      split; [by rewrite Z.div_mul|by rewrite Z.mod_mul].
    + intros Hpos. eexists; split; [done|]. by apply int_total_seconds_nonneg.
  - intros idx a. apply end_unparsed.
Qed.

Lemma find_first (P : ActivityRecord.t → bool) acts idx a :
  acts !! idx = Some a → P a = true →
  (∀ j b, acts !! j = Some b → (j < idx)%nat → P b = false) →
  List.find P acts = Some a.
Proof.
  revert idx. induction acts as [|x acts IH]; intros idx Hidx Ha Hbefore; [done|].
  destruct idx as [|idx]; simpl in *.
  - injection Hidx as ->. by rewrite Ha.
  - rewrite (Hbefore 0%nat x) by (done || lia).
    apply (IH idx); [done..|]. intros j b Hj Hlt. apply (Hbefore (S j) b); [done|lia].
Qed.

Lemma NoDup_activity_ids_snoc acts a :
  id a ∉ id <$> acts → NoDup (id <$> acts) → NoDup (id <$> acts ++ [a]).
Proof.
  intros Hfresh Hnd. rewrite fmap_app. apply NoDup_app. split; [done|].
  split; [|apply NoDup_singleton].
  intros x Hx Hx'. apply list_elem_of_singleton in Hx'. simpl in Hx'. by subst.
Qed.

(** C5, amended. [Start]: when some stored activity has [end_time]
    absent or empty, the call fails with the 400 "already in progress"
    error and the collection is as before; with no such activity,
    exactly one record is appended and returned: its id is the one
    [uuid4] returns, its category and name are the trimmed ones, its
    [start_time] is the current time cut to whole seconds, its
    [end_time] and [duration_seconds] are absent.  The id is new to the
    collection, and the ids stay pairwise distinct, when [uuid4] returns
    an id that no stored activity has. *)
Theorem start_activity_spec uuid utcnow payload w :
  let acts := contents ACTIVITIES_FILE w in
  let record := started uuid utcnow payload in
  ((∃ a, a ∈ acts ∧ (end_time a = None ∨ end_time a = Some "")) →
     ∃ w', start_activity uuid utcnow payload w
           = (Raise (HTTPException 400
                "An activity is already in progress. End it before starting a new one."),
              w')
           ∧ contents ACTIVITIES_FILE w' = acts)
  ∧ (¬ (∃ a, a ∈ acts ∧ (end_time a = None ∨ end_time a = Some "")) →
     readable ACTIVITIES_FILE w →
     writable ACTIVITIES_FILE w →
     ∃ w', start_activity uuid utcnow payload w = (Return record, w')
           ∧ contents ACTIVITIES_FILE w' = acts ++ [record]
           ∧ id record = uuid
           ∧ activity_category record
             = Some (strip (ActivityStartIn.activity_category payload))
           ∧ activity_name record = strip (ActivityStartIn.activity_name payload)
           ∧ start_time record
             = String.append
                 (Datetime.isoformat (Datetime.replace_microsecond0 utcnow)) "Z"
           ∧ end_time record = None
           ∧ duration_seconds record = None
           ∧ (uuid ∉ id <$> acts → NoDup (id <$> acts) →
              NoDup (id <$> contents ACTIVITIES_FILE w'))).
Proof.
  intros acts record. split.
  - apply start_conflict.
  - intros Hno Hread Hw.
    destruct (start_append uuid utcnow payload w Hno Hread Hw) as (w' & Hrun & Hc & _).
    exists w'. rewrite Hc. do 8 (split; [done|]).
    intros Hfresh Hnd. by apply NoDup_activity_ids_snoc.
Qed.

(** C10. A stored activity whose [end_time] is the empty string is
    open for the three lifecycle handlers: [Start] fails with the 400
    "already in progress" error; [End] on its id, when it is the first
    record of that id, does not fail with "already ended" and closes
    it; [GetActive] returns it when no earlier record is open. *)
Theorem empty_end_time_is_open uuid utcnow spayload w idx a :
  let acts := contents ACTIVITIES_FILE w in
  acts !! idx = Some a →
  end_time a = Some "" →
  (∃ w', start_activity uuid utcnow spayload w
         = (Raise (HTTPException 400
              "An activity is already in progress. End it before starting a new one."),
            w')
         ∧ contents ACTIVITIES_FILE w' = acts)
  ∧ (first_with_id acts idx a →
     fst (end_activity fromisoformat utcnow (ActivityEndIn.mk (id a)) w)
       ≠ Raise (HTTPException 400 "Activity already ended")
     ∧ ∀ start,
         fromisoformat (Text.remove_char "Z" (start_time a)) = Some (Datetime.Naive start) →
         writable ACTIVITIES_FILE w →
         ∃ w', end_activity fromisoformat utcnow (ActivityEndIn.mk (id a)) w
               = (Return (ended utcnow start a), w')
               ∧ contents ACTIVITIES_FILE w' = <[idx := ended utcnow start a]> acts
               ∧ truthy_str (end_time (ended utcnow start a)) = true)
  ∧ ((∀ j b, acts !! j = Some b → (j < idx)%nat →
             ∃ e, end_time b = Some e ∧ e ≠ "") →
     ∃ w', get_active_activity w = (Return (Some a), w')
           ∧ contents ACTIVITIES_FILE w' = acts).
Proof.
  intros acts Hidx Hblank.
  assert (readable ACTIVITIES_FILE w) as Hread by (by eapply lookup_contents_readable).
  split; [|split].
  - apply start_conflict. fold acts. exists a. split; [by eapply list_elem_of_lookup_2|by right].
  - intros Hfirst. split.
    + destruct (read_json_run ACTIVITIES_FILE w Hread) as (w1 & Hrun & _).
      unfold end_activity, bind. rewrite Hrun. simpl. subst acts.
      rewrite (find_first_with_id _ _ _ Hfirst). rewrite Hblank. simpl.
      destruct (fromisoformat _) as [[start|start utcoffset]|]; simpl; [|done..].
      destruct (_write_json _ _ _) as [[[]|e] w2] eqn:Hwr; simpl; [done|].
      apply write_json_raises in Hwr as ->. done.
    + intros start Hparse Hw.
      destruct (end_closes utcnow (ActivityEndIn.mk (id a)) w idx a start)
        as (w' & Hrun & Hc); [done|done|by right|done|done|].
      exists w'. split; [done|]. split; [done|]. simpl.
      unfold ended, truthy_str, end_time.
      by destruct (Datetime.isoformat (Datetime.replace_microsecond0 utcnow)).
  - intros Hbefore.
    destruct (read_json_run ACTIVITIES_FILE w Hread) as (w1 & Hrun & Hc & _).
    exists w1. unfold get_active_activity, bind. rewrite Hrun. simpl. unfold ret.
    split; [|done]. f_equal. f_equal.
    apply (find_first _ _ idx); [done|by rewrite Hblank|].
    intros j b Hj Hlt. apply negb_false_iff, truthy_str_true. by apply (Hbefore j b).
Qed.
End EndFacts.

(** A record that [Start] wrote at a valid time is closed by [End] on its
    id: the start time is read back from the stored text, and the duration
    is the whole seconds between the two times, both cut to the second. *)
Lemma start_then_end uuid t0 t1 payload w :
  Datetime.valid (Datetime.replace_microsecond0 t0) = true →
  Datetime.valid (Datetime.replace_microsecond0 t1) = true →
  ¬ (∃ a, a ∈ contents ACTIVITIES_FILE w ∧ (end_time a = None ∨ end_time a = Some "")) →
  uuid ∉ id <$> contents ACTIVITIES_FILE w →
  readable ACTIVITIES_FILE w →
  writable ACTIVITIES_FILE w →
  let start := Datetime.replace_microsecond0 t0 in
  let end_ := Datetime.replace_microsecond0 t1 in
  let record := started uuid t0 payload in
  ∃ w1 w2,
    start_activity uuid t0 payload w = (Return record, w1)
    ∧ end_activity Datetime.fromisoformat_tz t1 (ActivityEndIn.mk uuid) w1
      = (Return (ended t1 start record), w2)
    ∧ contents ACTIVITIES_FILE w2 = contents ACTIVITIES_FILE w ++ [ended t1 start record]
    ∧ duration_seconds (ended t1 start record) = Some (Datetime.sub end_ start / 1000000)
    ∧ Datetime.sub end_ start mod 1000000 = 0.
Proof.
  intros Hvalid Hvalid1 Hno Hfresh Hread Hw start end_ record.
  destruct (start_append uuid t0 payload w Hno Hread Hw) as (w1 & Hrun1 & Hc1 & Hr1).
  assert (writable ACTIVITIES_FILE w1) as Hw1 by (unfold writable in *; by rewrite Hr1).
  destruct (end_closes Datetime.fromisoformat_tz t1 (ActivityEndIn.mk uuid) w1
              (length (contents ACTIVITIES_FILE w)) record start)
    as (w2 & Hrun2 & Hc2); [| done | by left | | done |].
  - rewrite Hc1. split.
    + rewrite lookup_app_r by lia. by rewrite Nat.sub_diag.
    + intros j b Hj Hlt Hid. rewrite lookup_app_l in Hj by lia.
      apply Hfresh. apply list_elem_of_fmap. exists b.
      split; [by rewrite Hid|by eapply list_elem_of_lookup_2].
  - apply fromisoformat_tz_naive, fromisoformat_isoformat; done.
  - exists w1, w2. split; [done|]. split; [done|]. split.
    + rewrite Hc2, Hc1. replace (length (contents ACTIVITIES_FILE w))
        with (length (contents ACTIVITIES_FILE w) + 0)%nat at 1 by lia.
      by rewrite insert_app_r.
    + destruct (sub_whole end_ start Hvalid1 Hvalid eq_refl eq_refl) as (s & Hs & Hbound).
      unfold ended, duration_seconds. fold end_. rewrite Hs.
      rewrite (int_total_seconds_whole s Hbound).
      split; [by rewrite Z.div_mul|by rewrite Z.mod_mul].
Qed.

End LifecycleFacts.

(** ** The summary *)

Section SummaryFacts.
Import Activities ActivityRecord.
Implicit Types (acts : list ActivityRecord.t) (a : ActivityRecord.t)
  (agg : gmap string (gmap string Z)) (d c : string).

Lemma skipped_iff a :
  skipped a = true
  ↔ end_time a = None ∨ end_time a = Some "" ∨ duration_seconds a = None
    ∨ duration_seconds a = Some 0.
Proof.
  unfold skipped. rewrite orb_true_iff, !negb_true_iff, truthy_str_false.
  destruct (duration_seconds a) as [n|]; simpl.
  - rewrite negb_false_iff, Z.eqb_eq. split.
    + intros [[?|?]| ->]; auto.
    + intros [?|[?|[?|[= ->]]]]; auto; done.
  - split; intros _; auto.
Qed.

Lemma counted_skipped d c a : skipped a = true → counted d c a = false.
Proof. unfold counted. by intros ->. Qed.

Lemma counted_own a : skipped a = false → counted (date_of a) (bucket_of a) a = true.
Proof. unfold counted. intros ->. by rewrite !String.eqb_refl. Qed.

Lemma accumulate_skipped agg a : skipped a = true → accumulate agg a = agg.
Proof. unfold accumulate. by intros ->. Qed.

(** One turn of the loop, seen at one cell of the table. *)
Lemma accumulate_cell agg a d c :
  cell (accumulate agg a) d c
  = if counted d c a
    then Some (default 0 (cell agg d c) + default 0 (duration_seconds a))
    else cell agg d c.
Proof.
  unfold accumulate, counted, cell, date_of, bucket_of.
  destruct (skipped a); simpl; [done|].
  destruct (String.eqb_spec (Text.slice_to 10 (start_time a)) d) as [<-|Hd]; simpl.
  - destruct (String.eqb_spec (default "other" (activity_category a)) c) as [<-|Hc].
    + destruct (agg !! Text.slice_to 10 (start_time a)) as [row|] eqn:Hrow.
      * by rewrite Hrow, !lookup_insert_eq.
      * by rewrite !lookup_insert_eq.
    + destruct (agg !! Text.slice_to 10 (start_time a)) as [row|] eqn:Hrow.
      * by rewrite Hrow, lookup_insert_eq, lookup_insert_ne.
      * by rewrite !lookup_insert_eq, lookup_insert_ne.
  - destruct (agg !! Text.slice_to 10 (start_time a)) as [row|] eqn:Hrow.
    + by rewrite lookup_insert_ne.
    + by rewrite !lookup_insert_ne.
Qed.

(** One turn of the loop, seen at one date key. *)
Lemma accumulate_row agg a d :
  is_Some (accumulate agg a !! d)
  ↔ is_Some (agg !! d) ∨ (skipped a = false ∧ date_of a = d).
Proof.
  unfold accumulate, date_of.
  destruct (skipped a); simpl.
  { split; [by left|]. by intros [?|[? _]]. }
  destruct (decide (Text.slice_to 10 (start_time a) = d)) as [<-|Hd].
  - rewrite lookup_insert_eq. split; [by right|by eexists].
  - rewrite lookup_insert_ne by done.
    destruct (agg !! Text.slice_to 10 (start_time a)).
    + split; [by left|]. by intros [?|[_ ?]].
    + rewrite lookup_insert_ne by done. split; [by left|]. by intros [?|[_ ?]].
Qed.

Lemma total_cons d c a acts :
  total d c (a :: acts)
  = (if counted d c a then default 0 (duration_seconds a) else 0) + total d c acts.
Proof. unfold total. simpl. by destruct (counted d c a). Qed.

Lemma total_app d c acts1 acts2 :
  total d c (acts1 ++ acts2) = total d c acts1 + total d c acts2.
Proof.
  induction acts1 as [|a acts1 IH]; [done|].
  rewrite <- app_comm_cons, !total_cons, IH. lia.
Qed.

Lemma total_none d c acts : existsb (counted d c) acts = false → total d c acts = 0.
Proof.
  induction acts as [|a acts IH]; [done|]. simpl.
  intros [Ha Hrest]%orb_false_iff. by rewrite total_cons, Ha, IH.
Qed.

(** The loop, seen at one cell of the table. *)
Lemma fold_accumulate_cell acts agg d c :
  cell (fold_left accumulate acts agg) d c
  = if existsb (counted d c) acts
    then Some (default 0 (cell agg d c) + total d c acts)
    else cell agg d c.
Proof.
  revert agg. induction acts as [|a acts IH]; intros agg; [done|].
  simpl. rewrite IH, accumulate_cell, total_cons.
  destruct (counted d c a) eqn:Ha; simpl.
  - destruct (existsb (counted d c) acts) eqn:Hex.
    + f_equal. lia.
    + rewrite (total_none _ _ _ Hex). f_equal. lia.
  - destruct (existsb (counted d c) acts); [|done]. f_equal.
Qed.

(** The loop, seen at one date key. *)
Lemma fold_accumulate_row acts agg d :
  is_Some (fold_left accumulate acts agg !! d)
  ↔ is_Some (agg !! d) ∨ ∃ a, a ∈ acts ∧ skipped a = false ∧ date_of a = d.
Proof.
  revert agg. induction acts as [|a acts IH]; intros agg; simpl.
  - split; [by left|]. intros [?|(a & Ha & _)]; [done|]. by apply elem_of_nil in Ha.
  - rewrite IH, accumulate_row. split.
    + intros [[?|[? ?]]|(b & Hb & ?)]; [by left| |].
      * right. exists a. split; [apply list_elem_of_here|done].
      * right. exists b. split; [by apply list_elem_of_further|done].
    + intros [?|(b & Hb & Hs & Hd)]; [by left; left|].
      apply elem_of_cons in Hb as [->|Hb]; [by left; right|].
      right. by exists b.
Qed.

Lemma summarize_cell acts d c :
  cell (data (summarize acts)) d c
  = if existsb (counted d c) acts then Some (total d c acts) else None.
Proof.
  unfold summarize. simpl. rewrite fold_accumulate_cell.
  unfold cell at 1 2. rewrite lookup_empty. simpl.
  by destruct (existsb _ _).
Qed.

Lemma summarize_dates acts d :
  d ∈ dates (summarize acts) ↔ is_Some (data (summarize acts) !! d).
Proof.
  unfold summarize. simpl. rewrite merge_sort_Permutation.
  rewrite list_elem_of_fmap. split.
  - intros ([k row] & -> & Hin). apply elem_of_map_to_list in Hin. by eexists.
  - intros [row Hrow]. exists (d, row). split; [done|]. by apply elem_of_map_to_list.
Qed.


Lemma summarize_skipped acts1 a acts2 :
  skipped a = true → summarize (acts1 ++ a :: acts2) = summarize (acts1 ++ acts2).
Proof.
  intros Hs. unfold summarize. rewrite !fold_left_app. simpl.
  by rewrite (accumulate_skipped _ _ Hs).
Qed.

(** C2, amended. Every cell [data[d][c]] of the summary is the sum of
    [duration_seconds] over the records that are not skipped, whose
    [start_time] begins with [d] (its first 10 characters) and whose
    bucket is [c]; the cell is missing when there is no such record.
    The bucket is ["other"] when the category is absent, and the
    category itself when present, the empty string included. *)
Theorem summarize_accumulates acts d c :
  cell (data (summarize acts)) d c
  = (if existsb (counted d c) acts then Some (total d c acts) else None)
  ∧ (∀ a, counted d c a = true
          ↔ skipped a = false
            ∧ Text.slice_to 10 (start_time a) = d
            ∧ match activity_category a with
              | Some category => category
              | None => "other"
              end = c).
Proof.
  split; [apply summarize_cell|].
  intros a. unfold counted, date_of, bucket_of.
  rewrite !andb_true_iff, negb_true_iff, !String.eqb_eq.
  destruct (activity_category a); simpl; tauto.
Qed.

(** C1, amended. A record whose [end_time] is absent or empty, or whose
    [duration_seconds] is absent, is left out of the summary: the summary
    is the one of the collection without it.  A record with a non-empty
    [end_time] and a non-zero [duration_seconds] is taken in: its date is
    among [dates] and its duration is added to its cell. *)
Theorem summarize_membership acts1 a acts2 :
  (end_time a = None ∨ end_time a = Some "" ∨ duration_seconds a = None →
   summarize (acts1 ++ a :: acts2) = summarize (acts1 ++ acts2))
  ∧ (∀ e n,
       end_time a = Some e → e ≠ "" → duration_seconds a = Some n → n ≠ 0 →
       date_of a ∈ dates (summarize (acts1 ++ a :: acts2))
       ∧ cell (data (summarize (acts1 ++ a :: acts2))) (date_of a) (bucket_of a)
         = Some (default 0 (cell (data (summarize (acts1 ++ acts2)))
                              (date_of a) (bucket_of a)) + n)).
Proof.
  split.
  - intros H. apply summarize_skipped, skipped_iff. tauto.
  - intros e n He Hne Hn Hn0.
    assert (skipped a = false) as Hs.
    { apply not_true_iff_false. rewrite skipped_iff, He, Hn.
      intros [?|[[= ?]|[?|[= ?]]]]; done. }
    pose proof (counted_own a Hs) as Hown. split.
    + apply summarize_dates. unfold summarize. simpl. apply fold_accumulate_row.
      right. exists a. split; [|done].
      apply elem_of_app. right. apply list_elem_of_here.
    + rewrite !summarize_cell.
      assert (existsb (counted (date_of a) (bucket_of a)) (acts1 ++ a :: acts2) = true)
        as ->.
      { rewrite existsb_app. simpl. rewrite Hown. by rewrite orb_true_r. }
      rewrite total_app, total_cons, Hown, Hn. simpl. f_equal.
      destruct (existsb _ (acts1 ++ acts2)) eqn:Hex; simpl.
      * rewrite total_app. lia.
      * pose proof (total_none _ _ _ Hex) as Hzero.
        rewrite total_app in Hzero. lia.
Qed.

(** C8. [dates] lists the date keys of [data], each once, in ascending
    order; on the two closed "sports" records of 2025-11-03 with
    durations 5400 and 1800 the summary is dates [["2025-11-03"]] and
    data [{"2025-11-03": {"sports": 7200}}]. *)
Theorem summarize_dates_sorted acts :
  StronglySorted String.le (dates (summarize acts))
  ∧ NoDup (dates (summarize acts))
  ∧ (∀ d, d ∈ dates (summarize acts) ↔ is_Some (data (summarize acts) !! d))
  ∧ (∀ id1 name1 id2 name2,
       summarize
         [ mk id1 (Some "sports") name1 "2025-11-03T10:00:00Z"
              (Some "2025-11-03T11:30:00Z") (Some 5400);
           mk id2 (Some "sports") name2 "2025-11-03T12:00:00Z"
              (Some "2025-11-03T12:30:00Z") (Some 1800) ]
       = mksummary ["2025-11-03"] {[ "2025-11-03" := {[ "sports" := 7200 ]} ]}).
Proof.
  split; [|split; [|split]].
  - unfold summarize. simpl. apply StronglySorted_merge_sort; apply _.
  - unfold summarize. simpl. rewrite merge_sort_Permutation.
    apply NoDup_fst_map_to_list.
  - apply summarize_dates.
  - intros. vm_compute. reflexivity.
Qed.

End SummaryFacts.

(** ** The theorems at sample inputs *)

Section Samples.
Import Types Activities Sample.

(** The handlers at the ASCII [strip] and [lower] and at the parser of
    the three spellings; the sample inputs are ASCII text. *)
Local Notation matches := (Types.matches Text.strip Text.lower).
Local Notation create_activity_type := (Types.create_activity_type Text.strip Text.lower).
Local Notation update_activity_type := (Types.update_activity_type Text.strip Text.lower).
Local Notation start_activity := (Activities.start_activity Text.strip).
Local Notation end_activity := (Activities.end_activity Datetime.fromisoformat_tz).
Local Notation trace := (Activities.trace Text.strip Datetime.fromisoformat_tz).

Lemma writable_unrefused {A : Type} path (files : gmap string (document A)) :
  writable path (mkfs files ∅).
Proof. split; simpl; apply not_elem_of_empty. Qed.

Lemma contents_types_store items : contents TYPES_FILE (types_store items) = items.
Proof. rewrite contents_lookup. unfold types_store. simpl. by rewrite lookup_singleton_eq. Qed.

Lemma contents_activities_store acts :
  contents ACTIVITIES_FILE (activities_store acts) = acts.
Proof.
  rewrite contents_lookup. unfold activities_store. simpl. by rewrite lookup_singleton_eq.
Qed.

Lemma contents_empty_store {A : Type} path : contents path (@empty_store A) = [].
Proof. rewrite contents_lookup. unfold empty_store. simpl. by rewrite lookup_empty. Qed.

Lemma readable_types_store items : readable TYPES_FILE (types_store items).
Proof.
  intros e raw He. unfold types_store in He. simpl in He.
  rewrite lookup_singleton_eq in He. discriminate.
Qed.

Lemma readable_activities_store acts : readable ACTIVITIES_FILE (activities_store acts).
Proof.
  intros e raw He. unfold activities_store in He. simpl in He.
  rewrite lookup_singleton_eq in He. discriminate.
Qed.

Lemma readable_empty_store {A : Type} path : readable path (@empty_store A).
Proof. intros f raw Hf. unfold empty_store in Hf. simpl in Hf. by rewrite lookup_empty in Hf. Qed.

(** C6 at a store that holds the type ("Sports", "Run"), and at the
    empty store. *)
Lemma create_activity_type_spec_witness :
  (∃ w', create_activity_type "t9" (ActivityTypeIn.mk " sports " "RUN")
           (types_store [sports_run])
         = (Raise (HTTPException 400 "Activity type already exists"), w')
         ∧ contents TYPES_FILE w' = [sports_run])
  ∧ (∃ w', create_activity_type "t2" (ActivityTypeIn.mk " Study" "Read ")
             (types_store [sports_run])
           = (Return study_read, w')
           ∧ contents TYPES_FILE w' = [sports_run; study_read]
           ∧ NoDup (ActivityType.id <$> contents TYPES_FILE w'))
  ∧ (∃ w2, create_activity_type "t2" (ActivityTypeIn.mk " sports " "RUN")
             (snd (create_activity_type "t1" (ActivityTypeIn.mk "Sports" "Run") empty_store))
           = (Raise (HTTPException 400 "Activity type already exists"), w2)).
Proof.
  split; [|split].
  - destruct (create_activity_type_spec Text.strip Text.lower
                "t9" (ActivityTypeIn.mk " sports " "RUN")
                (types_store [sports_run])) as (Hdup & _ & _).
    rewrite contents_types_store in Hdup. apply Hdup.
    exists sports_run. split; [apply list_elem_of_here|]. split; reflexivity.
  - destruct (create_activity_type_spec Text.strip Text.lower
                "t2" (ActivityTypeIn.mk " Study" "Read ")
                (types_store [sports_run])) as (_ & Hnew & _).
    rewrite contents_types_store in Hnew.
    destruct Hnew as (w' & Hrun & Hc & _ & _ & _ & Hnd).
    + intros (it & Hin & Hm). apply list_elem_of_singleton in Hin. subst it.
      destruct Hm as [Hm _]. vm_compute in Hm. discriminate.
    + apply readable_types_store.
    + apply writable_unrefused.
    + exists w'. split; [exact Hrun|]. split; [exact Hc|]. apply Hnd.
      * intros Hin. apply list_elem_of_singleton in Hin. discriminate.
      * apply NoDup_singleton.
  - destruct (create_activity_type_spec Text.strip Text.lower
                "t1" (ActivityTypeIn.mk "Sports" "Run")
                empty_store) as (_ & _ & Hex).
    destruct (Hex strip_idempotent eq_refl eq_refl (readable_empty_store _)
                (writable_unrefused _ _) "t1" "t2") as (w2 & Hrun & _).
    exists w2. exact Hrun.
Defined.

(** C6 as stated fails: the id is what [uuid4] returns, and nothing
    compares it with the stored ids.  When [uuid4] returns the id of a
    stored type, the new record is appended under that id, and two
    records of the collection have the same id. *)
Lemma create_activity_type_counterexample :
  fst (create_activity_type an_uuid (ActivityTypeIn.mk "Study" "Read")
         (types_store [ActivityType.mk an_uuid "Sports" "Run"]))
  = Return (ActivityType.mk an_uuid "Study" "Read")
  ∧ contents TYPES_FILE
      (snd (create_activity_type an_uuid (ActivityTypeIn.mk "Study" "Read")
              (types_store [ActivityType.mk an_uuid "Sports" "Run"])))
    = [ActivityType.mk an_uuid "Sports" "Run"; ActivityType.mk an_uuid "Study" "Read"]
  ∧ ¬ NoDup (ActivityType.id <$>
               contents TYPES_FILE
                 (snd (create_activity_type an_uuid (ActivityTypeIn.mk "Study" "Read")
                         (types_store [ActivityType.mk an_uuid "Sports" "Run"])))).
Proof.
  assert (contents TYPES_FILE
            (snd (create_activity_type an_uuid (ActivityTypeIn.mk "Study" "Read")
                    (types_store [ActivityType.mk an_uuid "Sports" "Run"])))
          = [ActivityType.mk an_uuid "Sports" "Run"; ActivityType.mk an_uuid "Study" "Read"])
    as Hc by (vm_compute; reflexivity).
  split; [vm_compute; reflexivity|]. split; [exact Hc|].
  rewrite Hc. intros Hnd. apply NoDup_cons in Hnd as [Hnotin _].
  apply Hnotin. apply list_elem_of_here.
Qed.

(** C7 at a store that holds the types t1 ("Sports", "Run") and t2
    ("Study", "Read"). *)
Lemma update_activity_type_spec_witness :
  (∃ w', update_activity_type "t9" (ActivityTypeIn.mk "Study" "Write")
           (types_store [sports_run; study_read])
         = (Raise (HTTPException 404 "Activity type not found"), w')
         ∧ contents TYPES_FILE w' = [sports_run; study_read])
  ∧ (∃ w', update_activity_type "t2" (ActivityTypeIn.mk "sports" " run")
             (types_store [sports_run; study_read])
           = (Raise (HTTPException 400 "Another activity type with same name exists"), w')
           ∧ contents TYPES_FILE w' = [sports_run; study_read])
  ∧ (∃ w', update_activity_type "t2" (ActivityTypeIn.mk " Study " "Write")
             (types_store [sports_run; study_read])
           = (Return (ActivityType.mk "t2" "Study" "Write"), w')
           ∧ contents TYPES_FILE w' !! 0%nat = Some sports_run
           ∧ contents TYPES_FILE w' !! 1%nat = Some (ActivityType.mk "t2" "Study" "Write")
           ∧ length (contents TYPES_FILE w') = 2%nat)
  ∧ (∃ w', update_activity_type "t1" (ActivityTypeIn.mk "Sports" "Run")
             (types_store [sports_run; study_read])
           = (Return sports_run, w')).
Proof.
  assert (∀ p, ¬ matches sports_run p → ¬ matches study_read p →
            ¬ ∃ other, other ∈ [sports_run; study_read]
                       ∧ ActivityType.id other ≠ "t2" ∧ matches other p) as Hscan2.
  { intros p H1 H2 (other & Hin & Hne & Hm).
    apply elem_of_cons in Hin as [->|Hin]; [done|].
    apply list_elem_of_singleton in Hin as ->. done. }
  split; [|split; [|split]].
  - destruct (update_activity_type_spec Text.strip Text.lower
                "t9" (ActivityTypeIn.mk "Study" "Write")
                (types_store [sports_run; study_read])) as (Hnf & _).
    rewrite contents_types_store in Hnf. apply Hnf; [|apply readable_types_store].
    intros it Hin. apply elem_of_cons in Hin as [->|Hin]; [discriminate|].
    apply list_elem_of_singleton in Hin as ->. discriminate.
  - destruct (update_activity_type_spec Text.strip Text.lower
                "t2" (ActivityTypeIn.mk "sports" " run")
                (types_store [sports_run; study_read])) as (_ & Hdup & _).
    rewrite contents_types_store in Hdup. apply Hdup.
    + exists study_read. split; [|reflexivity].
      apply list_elem_of_further, list_elem_of_here.
    + exists sports_run. split; [apply list_elem_of_here|].
      split; [discriminate|]. split; reflexivity.
  - destruct (update_activity_type_spec Text.strip Text.lower
                "t2" (ActivityTypeIn.mk " Study " "Write")
                (types_store [sports_run; study_read])) as (_ & _ & Hok & _).
    rewrite contents_types_store in Hok.
    destruct (Hok 1%nat study_read) as (w' & Hrun & _ & _ & _ & Hlen & Hat & Hrest).
    + reflexivity.
    + reflexivity.
    + intros j y Hj Hlt. assert (j = 0%nat) as -> by lia.
      injection Hj as <-. discriminate.
    + apply Hscan2; intros [_ Hm]; vm_compute in Hm; discriminate.
    + apply writable_unrefused.
    + exists w'. split; [exact Hrun|]. split; [by rewrite (Hrest 0%nat)|].
      split; [exact Hat|exact Hlen].
  - destruct (update_activity_type_spec Text.strip Text.lower
                "t1" (ActivityTypeIn.mk "Sports" "Run")
                (types_store [sports_run; study_read])) as (_ & _ & _ & Hsame).
    rewrite contents_types_store in Hsame.
    apply (Hsame 0%nat sports_run).
    + reflexivity.
    + reflexivity.
    + intros j y _ Hlt. lia.
    + intros other Hin Hne [Hm _].
      apply elem_of_cons in Hin as [->|Hin]; [done|].
      apply list_elem_of_singleton in Hin as ->. vm_compute in Hm. discriminate.
    + apply writable_unrefused.
Defined.

(** C9 at a store whose activities file is not UTF-8, and at a store
    whose types file is not UTF-8: the load and the [Create] raise
    [UnicodeDecodeError], and the stores are as before, without a
    backup. *)
Lemma read_json_unreadable_witness :
  (_read_json ACTIVITIES_FILE [] undecodable_store
   = (Raise UnicodeDecodeError, undecodable_store)
   ∧ files undecodable_store !! "data/activities.json.bak" = None)
  ∧ create_activity_type "t1" (ActivityTypeIn.mk "Sports" "Run") undecodable_types_store
    = (Raise UnicodeDecodeError, undecodable_types_store).
Proof.
  destruct read_json_unreadable as (Hload & Hcreate & _).
  split; [split|].
  - destruct (Hload ActivityRecord.t ACTIVITIES_FILE [] undecodable_store
                NotUTF8 not_utf8) as (Hrun & _).
    + apply lookup_singleton_eq.
    + exact Hrun.
  - apply lookup_singleton_ne. discriminate.
  - apply (Hcreate Text.strip Text.lower "t1" (ActivityTypeIn.mk "Sports" "Run")
             undecodable_types_store NotUTF8 not_utf8).
    apply lookup_singleton_eq.
Defined.

(** X24 at a store whose activities file is not JSON, with the backup
    path free and with the backup path refused, and at the empty store. *)
Lemma read_json_recovers_witness :
  _read_json ACTIVITIES_FILE [] (@empty_store ActivityRecord.t) = (Return [], empty_store)
  ∧ (∃ w', _read_json ACTIVITIES_FILE [] corrupt_store = (Return [], w')
           ∧ files w' !! ACTIVITIES_FILE = None
           ∧ files w' !! "data/activities.json.bak" = Some (Garbage "[{"))
  ∧ _read_json ACTIVITIES_FILE [] corrupt_stuck_store = (Return [], corrupt_stuck_store).
Proof.
  split; [|split].
  - destruct (read_json_recovers ACTIVITIES_FILE [] (@empty_store ActivityRecord.t))
      as (Hnone & _).
    apply Hnone. apply lookup_empty.
  - destruct (read_json_recovers ACTIVITIES_FILE [] corrupt_store) as (_ & Hbad).
    destruct (Hbad "[{") as (w' & Hrun & Hmoved & _).
    + apply lookup_singleton_eq.
    + exists w'. split; [exact Hrun|]. apply Hmoved. apply not_elem_of_empty.
  - destruct (read_json_recovers ACTIVITIES_FILE [] corrupt_stuck_store) as (_ & Hbad).
    destruct (Hbad "[{") as (w' & Hrun & _ & Hstuck & _).
    + apply lookup_singleton_eq.
    + rewrite Hrun. f_equal. apply Hstuck. apply elem_of_singleton. reflexivity.
Defined.

(** C3 along five calls from the empty store: a start, a refused start,
    the end of the first activity, a refused second end, a new start. *)
Lemma single_open_along_calls_witness :
  Forall (λ w', single_open (contents ACTIVITIES_FILE w'))
    (trace empty_store
       [ Start "a1" ten a_start; Start "a2" noon a_start;
         End noon (ActivityEndIn.mk "a1"); End noon (ActivityEndIn.mk "a1");
         Start "a3" noon a_start ]).
Proof.
  apply (single_open_along_calls Text.strip Datetime.fromisoformat_tz empty_store).
  rewrite contents_empty_store. intros i j a b Hi. discriminate.
Defined.

(** C5 at a store with one open activity and at a store with one closed
    activity. *)
Lemma start_activity_spec_witness :
  (∃ w', start_activity "a2" noon a_start (activities_store [morning_run None None])
         = (Raise (HTTPException 400
              "An activity is already in progress. End it before starting a new one."),
            w')
         ∧ contents ACTIVITIES_FILE w' = [morning_run None None])
  ∧ (∃ w', start_activity "a2" noon a_start
             (activities_store [morning_run (Some "2025-11-03T11:30:00Z") (Some 5400)])
           = (Return (ActivityRecord.mk "a2" (Some "study") "Read"
                        "2025-11-03T12:00:00Z" None None), w')
           ∧ contents ACTIVITIES_FILE w'
             = [ morning_run (Some "2025-11-03T11:30:00Z") (Some 5400);
                 ActivityRecord.mk "a2" (Some "study") "Read"
                   "2025-11-03T12:00:00Z" None None ]).
Proof.
  split.
  - destruct (start_activity_spec Text.strip "a2" noon a_start
                (activities_store [morning_run None None])) as (Hbusy & _).
    rewrite contents_activities_store in Hbusy. apply Hbusy.
    exists (morning_run None None). split; [apply list_elem_of_here|by left].
  - destruct (start_activity_spec Text.strip "a2" noon a_start
                (activities_store [morning_run (Some "2025-11-03T11:30:00Z") (Some 5400)]))
      as (_ & Hfree).
    rewrite contents_activities_store in Hfree.
    destruct Hfree as (w' & Hrun & Hc & _).
    + intros (a & Hin & Hopen). apply list_elem_of_singleton in Hin as ->.
      destruct Hopen as [Hopen|Hopen]; discriminate.
    + apply readable_activities_store.
    + apply writable_unrefused.
    + exists w'. split; [exact Hrun|exact Hc].
Defined.

(** C5 as stated fails in two ways.  The stored activity has an
    [end_time], the empty string, so no record has [end_time] absent, and
    [Start] is refused all the same, with nothing appended.  And the id
    is what [uuid4] returns, which nothing compares with the stored ids:
    when [uuid4] returns the id of a stored activity, the new record is
    appended under that id. *)
Lemma start_activity_counterexample :
  (Forall (λ a, ActivityRecord.end_time a ≠ None)
     (contents ACTIVITIES_FILE (activities_store [morning_run (Some "") None]))
   ∧ writable ACTIVITIES_FILE (activities_store [morning_run (Some "") None])
   ∧ start_activity "a2" noon a_start (activities_store [morning_run (Some "") None])
     = (Raise (HTTPException 400
          "An activity is already in progress. End it before starting a new one."),
        activities_store [morning_run (Some "") None]))
  ∧ (fst (start_activity an_uuid noon a_start
            (activities_store
               [ActivityRecord.mk an_uuid (Some "sports") "run" "2025-11-03T10:00:00Z"
                  (Some "2025-11-03T11:30:00Z") (Some 5400)]))
     = Return (ActivityRecord.mk an_uuid (Some "study") "Read"
                 "2025-11-03T12:00:00Z" None None)
     ∧ ActivityRecord.id <$>
         contents ACTIVITIES_FILE
           (snd (start_activity an_uuid noon a_start
                   (activities_store
                      [ActivityRecord.mk an_uuid (Some "sports") "run" "2025-11-03T10:00:00Z"
                         (Some "2025-11-03T11:30:00Z") (Some 5400)])))
       = [an_uuid; an_uuid]).
Proof.
  split; [split; [|split]|split].
  - rewrite contents_activities_store. by repeat constructor.
  - apply writable_unrefused.
  - vm_compute. reflexivity.
  - vm_compute. reflexivity.
  - vm_compute. reflexivity.
Qed.

(** C4 at stores with one activity: another id, a closed activity, an
    open activity ended two hours after its start. *)
Lemma end_activity_spec_witness :
  (∃ w', end_activity noon (ActivityEndIn.mk "a7")
           (activities_store [morning_run None None])
         = (Raise (HTTPException 404 "Active activity not found"), w')
         ∧ contents ACTIVITIES_FILE w' = [morning_run None None])
  ∧ (∃ w', end_activity noon (ActivityEndIn.mk "a1")
             (activities_store [morning_run (Some "2025-11-03T11:30:00Z") (Some 5400)])
           = (Raise (HTTPException 400 "Activity already ended"), w')
           ∧ contents ACTIVITIES_FILE w'
             = [morning_run (Some "2025-11-03T11:30:00Z") (Some 5400)])
  ∧ (∃ w' updated,
       end_activity noon (ActivityEndIn.mk "a1")
         (activities_store [morning_run None None])
       = (Return updated, w')
       ∧ contents ACTIVITIES_FILE w' !! 0%nat = Some updated
       ∧ ActivityRecord.end_time updated = Some "2025-11-03T12:00:00Z"
       ∧ ActivityRecord.duration_seconds updated = Some 7200)
  ∧ (∃ w', end_activity noon (ActivityEndIn.mk "a1")
             (activities_store
                [ActivityRecord.mk "a1" (Some "sports") "run"
                   "2025-11-03T10:00:00+00:00" None None])
           = (Raise TypeError, w')).
Proof.
  split; [|split; [|split]].
  - destruct (end_activity_spec Datetime.fromisoformat_tz noon (ActivityEndIn.mk "a7")
                (activities_store [morning_run None None])) as (Hnf & _).
    rewrite contents_activities_store in Hnf. apply Hnf; [|apply readable_activities_store].
    intros a Hin. apply list_elem_of_singleton in Hin as ->. discriminate.
  - destruct (end_activity_spec Datetime.fromisoformat_tz noon (ActivityEndIn.mk "a1")
                (activities_store [morning_run (Some "2025-11-03T11:30:00Z") (Some 5400)]))
      as (_ & Hended & _).
    rewrite contents_activities_store in Hended.
    apply (Hended 0%nat (morning_run (Some "2025-11-03T11:30:00Z") (Some 5400))).
    + split; [reflexivity|]. intros j b _ Hlt. lia.
    + reflexivity.
    + eexists. split; [reflexivity|discriminate].
  - destruct (end_activity_spec Datetime.fromisoformat_tz noon (ActivityEndIn.mk "a1")
                (activities_store [morning_run None None])) as (_ & _ & Hclose & _).
    rewrite contents_activities_store in Hclose.
    destruct (Hclose 0%nat (morning_run None None) ten)
      as (w' & updated & Hrun & _ & Hat & _ & _ & _ & _ & _ & Hend & _ & Hdur & _).
    + split; [reflexivity|]. intros j b _ Hlt. lia.
    + reflexivity.
    + by left.
    + vm_compute. reflexivity.
    + apply writable_unrefused.
    + exists w', updated. split; [exact Hrun|]. split; [exact Hat|].
      split; [exact Hend|]. apply Hdur; reflexivity.
  - destruct (end_activity_spec Datetime.fromisoformat_tz noon (ActivityEndIn.mk "a1")
                (activities_store
                   [ActivityRecord.mk "a1" (Some "sports") "run"
                      "2025-11-03T10:00:00+00:00" None None]))
      as (_ & _ & _ & Hraise).
    rewrite contents_activities_store in Hraise.
    destruct (Hraise 0%nat (ActivityRecord.mk "a1" (Some "sports") "run"
                              "2025-11-03T10:00:00+00:00" None None))
      as (_ & Haware).
    + split; [reflexivity|]. intros j b _ Hlt. lia.
    + reflexivity.
    + by left.
    + destruct (Haware ten 0) as (w' & Hrun & _); [vm_compute; reflexivity|].
      exists w'. exact Hrun.
Defined.

(** C4 as stated fails in five ways: a record whose [end_time] is
    present, as the empty string, is closed and not refused; a record
    whose stored start is after the current time gets a negative
    duration; a record whose [start_time] is not a timestamp makes the
    handler raise [ValueError]; a record whose [start_time] carries a UTC
    offset makes it raise [TypeError]; and a record started on
    1400-01-01 at one microsecond past midnight, 19749614399.999999
    seconds before the end, gets the duration 19749614400, the float
    that [total_seconds] returns being rounded up to that whole
    number. *)
Lemma end_activity_counterexample :
  (ActivityRecord.end_time (morning_run (Some "") None) = Some ""
   ∧ fst (end_activity noon (ActivityEndIn.mk "a1")
            (activities_store [morning_run (Some "") None]))
     = Return (morning_run (Some "2025-11-03T12:00:00Z") (Some 7200)))
  ∧ fst (end_activity nine (ActivityEndIn.mk "a1")
           (activities_store [morning_run None None]))
    = Return (morning_run (Some "2025-11-03T09:00:00Z") (Some (-3600)))
  ∧ fst (end_activity noon (ActivityEndIn.mk "a1")
           (activities_store [ActivityRecord.mk "a1" (Some "sports") "run" "" None None]))
    = Raise ValueError
  ∧ fst (end_activity noon (ActivityEndIn.mk "a1")
           (activities_store
              [ActivityRecord.mk "a1" (Some "sports") "run"
                 "2025-11-03T10:00:00+00:00" None None]))
    = Raise TypeError
  ∧ (Datetime.sub (Datetime.replace_microsecond0 noon)
       (Datetime.mk 1400 1 1 0 0 0 1) = 19749614399999999
     ∧ fst (end_activity noon (ActivityEndIn.mk "a1")
              (activities_store
                 [ActivityRecord.mk "a1" (Some "sports") "run"
                    "1400-01-01T00:00:00.000001" None None]))
       = Return (ActivityRecord.mk "a1" (Some "sports") "run"
                   "1400-01-01T00:00:00.000001"
                   (Some "2025-11-03T12:00:00Z") (Some 19749614400))).
Proof. repeat split; vm_compute; reflexivity. Qed.

(** C10 at a store whose only activity has the empty string as
    [end_time]. *)
Lemma empty_end_time_is_open_witness :
  (∃ w', start_activity "a2" noon a_start (activities_store [morning_run (Some "") None])
         = (Raise (HTTPException 400
              "An activity is already in progress. End it before starting a new one."),
            w'))
  ∧ (∃ w', end_activity noon (ActivityEndIn.mk "a1")
             (activities_store [morning_run (Some "") None])
           = (Return (morning_run (Some "2025-11-03T12:00:00Z") (Some 7200)), w'))
  ∧ (∃ w', get_active_activity (activities_store [morning_run (Some "") None])
           = (Return (Some (morning_run (Some "") None)), w')).
Proof.
  destruct (empty_end_time_is_open Text.strip Datetime.fromisoformat_tz "a2" noon a_start
              (activities_store [morning_run (Some "") None])
              0%nat (morning_run (Some "") None)) as (Hstart & Hend & Hactive).
  - rewrite contents_activities_store. reflexivity.
  - reflexivity.
  - rewrite contents_activities_store in *. split; [|split].
    + destruct Hstart as (w' & Hrun & _). exists w'. exact Hrun.
    + destruct Hend as (_ & Hclose).
      { split; [reflexivity|]. intros j b _ Hlt. lia. }
      destruct (Hclose ten) as (w' & Hrun & _).
      { vm_compute. reflexivity. }
      { apply writable_unrefused. }
      exists w'. exact Hrun.
    + destruct Hactive as (w' & Hrun & _).
      { intros j b _ Hlt. lia. }
      exists w'. exact Hrun.
Defined.

(** C1 at three records: an open one, one with the empty string as
    [end_time], a closed one of 5400 seconds. *)
Lemma summarize_membership_witness :
  summarize [morning_run None (Some 5); morning_run (Some "2025-11-03T11:30:00Z") (Some 5400)]
  = summarize [morning_run (Some "2025-11-03T11:30:00Z") (Some 5400)]
  ∧ summarize [morning_run (Some "") (Some 5)] = summarize []
  ∧ "2025-11-03"
    ∈ dates (summarize [ morning_run (Some "2025-11-03T10:30:00Z") (Some 1800);
                         morning_run (Some "2025-11-03T11:30:00Z") (Some 5400) ])
  ∧ cell (data (summarize [ morning_run (Some "2025-11-03T10:30:00Z") (Some 1800);
                            morning_run (Some "2025-11-03T11:30:00Z") (Some 5400) ]))
      "2025-11-03" "sports" = Some 7200.
Proof.
  split; [|split].
  - destruct (summarize_membership [] (morning_run None (Some 5))
                [morning_run (Some "2025-11-03T11:30:00Z") (Some 5400)]) as (Hout & _).
    apply Hout. by left.
  - destruct (summarize_membership [] (morning_run (Some "") (Some 5)) []) as (Hout & _).
    apply Hout. right. by left.
  - destruct (summarize_membership
                [morning_run (Some "2025-11-03T10:30:00Z") (Some 1800)]
                (morning_run (Some "2025-11-03T11:30:00Z") (Some 5400)) [])
      as (_ & Hin).
    destruct (Hin "2025-11-03T11:30:00Z" 5400) as (Hdate & Hcell);
      [reflexivity|discriminate|reflexivity|lia|].
    split; [exact Hdate|]. exact Hcell.
Defined.

(** C1 as stated fails: both closing fields of each record are present,
    and neither record is taken into the summary.  In the first the
    [end_time] is the empty string; in the second the duration is 0. *)
Lemma summarize_membership_counterexample :
  (is_Some (ActivityRecord.end_time (morning_run (Some "") (Some 5)))
   ∧ is_Some (ActivityRecord.duration_seconds (morning_run (Some "") (Some 5)))
   ∧ summarize [morning_run (Some "") (Some 5)] = mksummary [] ∅)
  ∧ (is_Some (ActivityRecord.end_time (morning_run (Some "2025-11-03T10:00:00Z") (Some 0)))
     ∧ is_Some (ActivityRecord.duration_seconds
                  (morning_run (Some "2025-11-03T10:00:00Z") (Some 0)))
     ∧ summarize [morning_run (Some "2025-11-03T10:00:00Z") (Some 0)] = mksummary [] ∅).
Proof. repeat split; try (by eexists); vm_compute; reflexivity. Qed.

(** C2 as stated fails: the duration of a closed record whose category
    is the empty string goes to the bucket [""], and there is no
    ["other"] bucket. *)
Lemma summarize_accumulates_counterexample :
  cell (data (summarize
                [ActivityRecord.mk "a1" (Some "") "run" "2025-11-03T10:00:00Z"
                   (Some "2025-11-03T10:01:00Z") (Some 60)]))
    "2025-11-03" "other" = None
  ∧ cell (data (summarize
                  [ActivityRecord.mk "a1" (Some "") "run" "2025-11-03T10:00:00Z"
                     (Some "2025-11-03T10:01:00Z") (Some 60)]))
      "2025-11-03" "" = Some 60.
Proof. split; vm_compute; reflexivity. Qed.

End Samples.

(* ===================================================================== *)
(** * Further properties of the handlers *)
(* ===================================================================== *)

(** ** The two JSON helpers *)

Section StoreMore.
Context {A : Type}.
Implicit Types (w : fs A) (path : string) (v data : list A).

(** X1. [_write_json] is all or nothing: when it returns, a load gives
    the new sequence and the temporary file is gone; when it raises, the
    exception is the store's refusal and the file at the path is the one
    from before.  Files other than the path and its temporary sibling are
    never touched. *)
Theorem write_json_atomic path data w :
  match _write_json path data w with
  | (Return _, w') =>
      contents path w' = data ∧ files w' !! add_suffix path ".tmp" = None
  | (Raise e, w') =>
      e = OSError ∧ files w' !! path = files w !! path
      ∧ contents path w' = contents path w
  end
  ∧ (∀ p, p ≠ path → p ≠ add_suffix path ".tmp" →
          files (snd (_write_json path data w)) !! p = files w !! p)
  ∧ readonly (snd (_write_json path data w)) = readonly w.
Proof.
  pose proof (add_suffix_neq path ".tmp" ltac:(done)) as Hne.
  unfold _write_json, bind, json_dump, path_replace.
  destruct (bool_decide (add_suffix path ".tmp" ∈ readonly w)); simpl; [done|].
  rewrite lookup_insert_eq.
  destruct (bool_decide (path ∈ readonly w)); simpl.
  - split; [|split; [|done]].
    + split; [done|]. rewrite !contents_lookup. simpl.
      by rewrite lookup_insert_ne.
    + intros p _ Hp. by rewrite lookup_insert_ne.
  - split; [|split; [|done]].
    + rewrite contents_lookup. simpl. rewrite lookup_insert_eq. split; [done|].
      rewrite lookup_insert_ne by done. apply lookup_delete_eq.
    + intros p Hp Hp'. rewrite lookup_insert_ne by done.
      rewrite lookup_delete_ne by done. by rewrite lookup_insert_ne.
Qed.

(** X2. What [_write_json] wrote, [_read_json] reads back, whatever the
    default, and that read leaves the store as it is. *)
Theorem read_after_write path data default w :
  writable path w →
  ∃ w', _write_json path data w = (Return tt, w')
        ∧ _read_json path default w' = (Return data, w').
Proof.
  intros [Hp Ht].
  unfold _write_json, bind, json_dump, path_replace.
  rewrite bool_decide_eq_false_2 by done. simpl.
  rewrite lookup_insert_eq. rewrite bool_decide_eq_false_2 by done.
  eexists. split; [done|].
  unfold _read_json, bind, path_exists, try_except, json_load. simpl.
  rewrite lookup_insert_eq. simpl. by rewrite lookup_insert_eq.
Qed.

(** X3. A load settles the store.  On a file that can be read up to a
    [JSONDecodeError], or with no file, [_read_json] returns, and run
    again on the store it leaves, it returns the same sequence and changes
    nothing more; on a file that holds a JSON sequence the first load
    already changes nothing.  A load that raises does so with the
    exception that the reading of the file raised, which is not
    [JSONDecodeError], and it leaves the store untouched. *)
Theorem read_json_settles path default w :
  (readable path w →
   ∃ v w', _read_json path default w = (Return v, w')
           ∧ _read_json path default w' = (Return v, w')
           ∧ (∀ u, files w !! path = Some (Json u) → v = u ∧ w' = w))
  ∧ (∀ e, fst (_read_json path default w) = Raise e →
          is_JSONDecodeError e = false
          ∧ snd (_read_json path default w) = w
          ∧ ∃ f raw, files w !! path = Some (Unreadable f raw) ∧ e = load_exn f).
Proof.
  unfold readable.
  unfold _read_json, bind, path_exists, try_except, json_load, path_replace, ret.
  destruct (files w !! path) as [[u|raw|f raw]|] eqn:Hp; simpl; rewrite ?Hp; simpl.
  - split; [|done]. intros _.
    exists u, w. repeat (rewrite ?Hp; simpl). split; [done|]. split; [done|].
    by intros ? [= ->].
  - rewrite ?Hp.
    destruct (bool_decide (add_suffix path ".bak" ∈ readonly w)) eqn:Hro; simpl.
    + split; [|done]. intros _.
      exists default, w. repeat (rewrite ?Hp, ?Hro; simpl). done.
    + split; [|done]. intros _.
      eexists default, _. split; [done|]. simpl.
      rewrite lookup_insert_ne by (apply add_suffix_neq; done).
      rewrite lookup_delete_eq. done.
  - assert (is_JSONDecodeError (load_exn f) = false) as He by (by destruct f).
    rewrite He. simpl. split.
    + intros Hread. by destruct (Hread f raw).
    + intros e [= <-]. split; [done|]. split; [done|]. by exists f, raw.
  - split; [|done]. intros _. exists default, w. repeat (rewrite ?Hp; simpl). done.
Qed.

End StoreMore.

(** ** The registry of activity types *)


Section RegistryMore.
Import Types Registry.

(** The handlers are taken with any [strip] and any [lower]; where a
    statement compares a stored record with a request, [strip] is taken
    to leave a stripped string as it is, as [str.strip] does. *)
Variables (strip lower : string → string).
Hypothesis strip_strip : ∀ s, strip (strip s) = strip s.
Local Notation same_type := (Types.same_type strip lower).
Local Notation matches := (Types.matches strip lower).
Local Notation new_type := (Types.new_type strip).
Local Notation create_activity_type := (Types.create_activity_type strip lower).
Local Notation update_activity_type := (Types.update_activity_type strip lower).
Local Notation same_fields := (Registry.same_fields strip lower).
Local Notation distinct_types := (Registry.distinct_types strip lower).
Local Notation step := (Registry.step strip lower).

Implicit Types (w : fs ActivityType.t) (payload : ActivityTypeIn.t)
  (items : list ActivityType.t) (it : ActivityType.t).

(** The record a handler stores for a request has the request's fields. *)
Lemma new_type_matches type_id payload it :
  same_fields it (new_type type_id payload) ↔ matches it payload.
Proof.
  unfold Registry.same_fields, Types.matches, Types.new_type. simpl.
  by rewrite !strip_strip.
Qed.

Lemma filter_length_all {X} (f : X → bool) (l : list X) :
  length (List.filter f l) = length l → List.filter f l = l.
Proof.
  induction l as [|x l IH]; [done|]. simpl. destruct (f x); simpl.
  - intros [= H]. by rewrite IH.
  - intros H. pose proof (filter_length_le f l). lia.
Qed.

Lemma filter_keeps_id items type_id :
  (∀ it, it ∈ items → ActivityType.id it ≠ type_id) →
  List.filter (λ it, negb (String.eqb (ActivityType.id it) type_id)) items = items.
Proof.
  induction items as [|x items IH]; [done|]. intros Hall. simpl.
  rewrite (proj2 (String.eqb_neq _ _)) by (apply Hall, list_elem_of_here). simpl.
  rewrite IH; [done|]. intros it Hin. by apply Hall, list_elem_of_further.
Qed.

Lemma elem_of_filter_id items type_id it :
  it ∈ List.filter (λ it, negb (String.eqb (ActivityType.id it) type_id)) items
  ↔ it ∈ items ∧ ActivityType.id it ≠ type_id.
Proof.
  rewrite !list_elem_of_In, filter_In, negb_true_iff, String.eqb_neq. done.
Qed.

Lemma delete_not_found type_id w :
  (∀ it, it ∈ contents TYPES_FILE w → ActivityType.id it ≠ type_id) →
  readable TYPES_FILE w →
  ∃ w', delete_activity_type type_id w
        = (Raise (HTTPException 404 "Activity type not found"), w')
        ∧ contents TYPES_FILE w' = contents TYPES_FILE w.
Proof.
  intros Hno Hread. destruct (read_json_run TYPES_FILE w Hread) as (w1 & Hrun & Hc & _).
  exists w1. unfold delete_activity_type, bind. rewrite Hrun.
  rewrite (filter_keeps_id _ _ Hno), Nat.eqb_refl. done.
Qed.

Lemma delete_removes type_id w :
  (∃ it, it ∈ contents TYPES_FILE w ∧ ActivityType.id it = type_id) →
  writable TYPES_FILE w →
  ∃ w', delete_activity_type type_id w = (Return tt, w')
        ∧ contents TYPES_FILE w'
          = List.filter (λ it, negb (String.eqb (ActivityType.id it) type_id))
              (contents TYPES_FILE w).
Proof.
  intros (it & Hin & Hid) Hw.
  assert (readable TYPES_FILE w) as Hread by (by eapply elem_of_contents_readable).
  destruct (read_json_run TYPES_FILE w Hread) as (w1 & Hrun & Hc & Hr).
  assert (writable TYPES_FILE w1) as Hw1 by (unfold writable in *; by rewrite Hr).
  destruct (write_json_run TYPES_FILE
              (List.filter (λ it, negb (String.eqb (ActivityType.id it) type_id))
                 (contents TYPES_FILE w)) w1 Hw1) as (w2 & Hwr & Hc2 & _).
  exists w2. unfold delete_activity_type, bind. rewrite Hrun.
  destruct (Nat.eqb_spec
              (length (List.filter (λ it, negb (String.eqb (ActivityType.id it) type_id))
                         (contents TYPES_FILE w)))
              (length (contents TYPES_FILE w))) as [Hlen|_]; [|by rewrite Hwr].
  exfalso. apply filter_length_all in Hlen.
  rewrite <- Hlen in Hin. apply elem_of_filter_id in Hin as [_ Hne]. done.
Qed.

(** X4. [Delete]: with no stored type of the given id (the types file
    being one that can be read) the call fails with the 404 error and the
    collection is as before; otherwise every record of that id is
    removed, and the records of other ids are kept, in their order. *)
Theorem delete_activity_type_spec type_id w :
  let items := contents TYPES_FILE w in
  ((∀ it, it ∈ items → ActivityType.id it ≠ type_id) →
     readable TYPES_FILE w →
     ∃ w', delete_activity_type type_id w
           = (Raise (HTTPException 404 "Activity type not found"), w')
           ∧ contents TYPES_FILE w' = items)
  ∧ ((∃ it, it ∈ items ∧ ActivityType.id it = type_id) →
     writable TYPES_FILE w →
     ∃ w', delete_activity_type type_id w = (Return tt, w')
           ∧ (∀ it, it ∈ contents TYPES_FILE w' ↔ it ∈ items ∧ ActivityType.id it ≠ type_id)
           ∧ contents TYPES_FILE w' `sublist_of` items
           ∧ (length (contents TYPES_FILE w') < length items)%nat).
Proof.
  intros items. split; [apply delete_not_found|].
  intros Hex Hw. destruct (delete_removes type_id w Hex Hw) as (w' & Hrun & Hc).
  exists w'. rewrite Hc. split; [done|]. split; [apply elem_of_filter_id|].
  split.
  - clear. induction (contents TYPES_FILE w) as [|x l IH]; [done|]. simpl.
    destruct (negb _); by constructor.
  - pose proof (filter_length_le
                  (λ it, negb (String.eqb (ActivityType.id it) type_id)) items) as Hle.
    destruct (decide (length (List.filter
                (λ it, negb (String.eqb (ActivityType.id it) type_id)) items)
              = length items)) as [Heq|Hne]; [|fold items; lia].
    exfalso. apply filter_length_all in Heq. destruct Hex as (it & Hin & Hid).
    fold items in Hin. rewrite <- Heq in Hin.
    apply elem_of_filter_id in Hin as [_ Hne]. done.
Qed.

(** X5. Creating a type that no stored type matches, under an id that
    no stored type has, and then deleting that id, gives the collection
    back as it was. *)
Theorem create_then_delete uuid payload w :
  ¬ (∃ it, it ∈ contents TYPES_FILE w ∧ matches it payload) →
  uuid ∉ ActivityType.id <$> contents TYPES_FILE w →
  readable TYPES_FILE w →
  writable TYPES_FILE w →
  ∃ w1 w2, create_activity_type uuid payload w = (Return (new_type uuid payload), w1)
           ∧ delete_activity_type uuid w1 = (Return tt, w2)
           ∧ contents TYPES_FILE w2 = contents TYPES_FILE w.
Proof.
  intros Hno Hfresh Hread Hw.
  destruct (create_fresh strip lower uuid payload w Hno Hread Hw)
    as (w1 & Hrun1 & Hc1 & Hr1).
  assert (writable TYPES_FILE w1) as Hw1 by (unfold writable in *; by rewrite Hr1).
  destruct (delete_removes uuid w1) as (w2 & Hrun2 & Hc2); [|done|].
  { exists (new_type uuid payload). split; [|done].
    rewrite Hc1. apply elem_of_app. right. apply list_elem_of_here. }
  exists w1, w2. split; [done|]. split; [done|].
  rewrite Hc2, Hc1, List.filter_app. simpl. rewrite String.eqb_refl. simpl.
  rewrite app_nil_r. apply filter_keeps_id.
  intros it Hin Hid. apply Hfresh. apply list_elem_of_fmap. by exists it.
Qed.

(** X6. After a successful [Create], a second [Create] whose fields are
    the same up to surrounding whitespace and letter case fails with the
    400 error, under any id, and leaves the collection as the first call
    left it. *)
Theorem create_twice uuid payload uuid' payload' w :
  ¬ (∃ it, it ∈ contents TYPES_FILE w ∧ matches it payload) →
  readable TYPES_FILE w →
  writable TYPES_FILE w →
  lower (strip (ActivityTypeIn.activity_category payload'))
    = lower (strip (ActivityTypeIn.activity_category payload)) →
  lower (strip (ActivityTypeIn.activity_name payload'))
    = lower (strip (ActivityTypeIn.activity_name payload)) →
  ∃ w1 w2, create_activity_type uuid payload w = (Return (new_type uuid payload), w1)
           ∧ create_activity_type uuid' payload' w1
             = (Raise (HTTPException 400 "Activity type already exists"), w2)
           ∧ contents TYPES_FILE w2
             = contents TYPES_FILE w ++ [new_type uuid payload].
Proof.
  intros Hno Hread Hw Hcat Hname.
  destruct (create_fresh strip lower uuid payload w Hno Hread Hw)
    as (w1 & Hrun1 & Hc1 & _).
  destruct (create_duplicate strip lower uuid' payload' w1) as (w2 & Hrun2 & Hc2).
  { exists (new_type uuid payload). rewrite Hc1. split.
    - apply elem_of_app. right. apply list_elem_of_here.
    - unfold Types.matches, Types.new_type. simpl.
      by rewrite !strip_strip, Hcat, Hname. }
  exists w1, w2. split; [done|]. split; [done|]. by rewrite Hc2.
Qed.

(** Whatever the store, [create_activity_type] leaves the collection as
    it was or appends the new record to a collection with no match. *)
Lemma create_any uuid payload w :
  let w' := snd (create_activity_type uuid payload w) in
  contents TYPES_FILE w' = contents TYPES_FILE w
  ∨ (contents TYPES_FILE w' = contents TYPES_FILE w ++ [new_type uuid payload]
     ∧ ∀ it, it ∈ contents TYPES_FILE w → ¬ matches it payload).
Proof.
  destruct (read_json_cases TYPES_FILE w) as [(w1 & Hrun & Hc & _)|(e & Hrun)];
    unfold Types.create_activity_type, bind; rewrite Hrun; [|by left].
  destruct (existsb _ _) eqn:Hex; simpl; [by left|].
  destruct (write_json_any TYPES_FILE
              (contents TYPES_FILE w ++ [new_type uuid payload]) w1)
    as (o & w2 & Hwr & _ & Hcases).
  rewrite Hwr.
  assert (snd (let (o0, w'0) := (o, w2) in
               match o0 with
               | Return _ => ret (new_type uuid payload) w'0
               | Raise e => (Raise e, w'0)
               end) = w2) as -> by (by destruct o).
  destruct Hcases as [Hd|Hs]; [right|left; congruence].
  split; [done|]. intros it Hin Hm.
  apply not_true_iff_false in Hex. apply Hex, existsb_same_type. eauto.
Qed.

(** Whatever the store, [update_activity_type] leaves the collection as
    it was or overwrites one record of the given id, no record of another
    id having the request's fields. *)
Lemma update_any type_id payload w :
  let w' := snd (update_activity_type type_id payload w) in
  contents TYPES_FILE w' = contents TYPES_FILE w
  ∨ ∃ idx it,
      contents TYPES_FILE w !! idx = Some it ∧ ActivityType.id it = type_id
      ∧ contents TYPES_FILE w' = <[idx := new_type type_id payload]> (contents TYPES_FILE w)
      ∧ ∀ other, other ∈ contents TYPES_FILE w → ActivityType.id other ≠ type_id →
                 ¬ matches other payload.
Proof.
  destruct (read_json_cases TYPES_FILE w) as [(w1 & Hrun & Hc & _)|(e & Hrun)];
    unfold Types.update_activity_type, bind; rewrite Hrun; [|by left].
  destruct (list_find _ _) as [[idx it]|] eqn:Hfind; simpl; [|by left].
  apply list_find_Some in Hfind as (Hidx & Hid & _).
  destruct (existsb _ _) eqn:Hex; simpl; [by left|].
  destruct (write_json_any TYPES_FILE
              (<[idx := new_type type_id payload]> (contents TYPES_FILE w)) w1)
    as (o & w2 & Hwr & _ & Hcases).
  rewrite Hwr.
  assert (snd (let (o0, w'0) := (o, w2) in
               match o0 with
               | Return _ => ret (new_type type_id payload) w'0
               | Raise e => (Raise e, w'0)
               end) = w2) as -> by (by destruct o).
  destruct Hcases as [Hd|Hs]; [right|left; congruence].
  exists idx, it. split; [done|]. split; [done|]. split; [done|].
  intros other Hin Hne Hm.
  apply not_true_iff_false in Hex. apply Hex, existsb_other_type. eauto.
Qed.

(** Whatever the store, [delete_activity_type] leaves the collection as it
    was or keeps the records of the other ids. *)
Lemma delete_any type_id w :
  let w' := snd (delete_activity_type type_id w) in
  contents TYPES_FILE w' = contents TYPES_FILE w
  ∨ contents TYPES_FILE w'
    = List.filter (λ it, negb (String.eqb (ActivityType.id it) type_id))
        (contents TYPES_FILE w).
Proof.
  destruct (read_json_cases TYPES_FILE w) as [(w1 & Hrun & Hc & _)|(e & Hrun)];
    unfold delete_activity_type, bind; rewrite Hrun; [|by left].
  destruct (Nat.eqb _ _); simpl; [by left|].
  destruct (write_json_any TYPES_FILE
              (List.filter (λ it, negb (String.eqb (ActivityType.id it) type_id))
                 (contents TYPES_FILE w)) w1)
    as (o & w2 & Hwr & _ & Hcases).
  rewrite Hwr. simpl. destruct Hcases as [Hd|Hs]; [by right|left; congruence].
Qed.

Lemma distinct_types_snoc items type_id payload :
  (∀ it, it ∈ items → ¬ matches it payload) →
  distinct_types items → distinct_types (items ++ [new_type type_id payload]).
Proof.
  intros Hno Hinv a b Ha Hb Hne Hsame.
  apply elem_of_app in Ha as [Ha|Ha]; apply elem_of_app in Hb as [Hb|Hb].
  - by apply (Hinv a b).
  - apply list_elem_of_singleton in Hb as ->.
    apply (Hno a Ha). by apply (new_type_matches type_id).
  - apply list_elem_of_singleton in Ha as ->.
    apply (Hno b Hb). apply (new_type_matches type_id).
    destruct Hsame as [H1 H2]. by split.
  - apply list_elem_of_singleton in Ha as ->.
    apply list_elem_of_singleton in Hb as ->. done.
Qed.

Lemma distinct_types_insert items idx it payload :
  items !! idx = Some it →
  (∀ other, other ∈ items → ActivityType.id other ≠ ActivityType.id it →
            ¬ matches other payload) →
  distinct_types items →
  distinct_types (<[idx := new_type (ActivityType.id it) payload]> items).
Proof.
  intros Hidx Hno Hinv a b Ha Hb Hne Hsame.
  assert (∀ x, x ∈ <[idx := new_type (ActivityType.id it) payload]> items →
               x = new_type (ActivityType.id it) payload ∨ x ∈ items) as Hcases.
  { intros x Hx. apply list_elem_of_lookup in Hx as [k Hk].
    destruct (decide (k = idx)) as [->|Hk'].
    - apply list_lookup_insert_Some in Hk as [(_ & -> & _)|[? _]]; [by left|done].
    - rewrite list_lookup_insert_ne in Hk by done. right.
      by eapply list_elem_of_lookup_2. }
  destruct (Hcases a Ha) as [->|Ha']; destruct (Hcases b Hb) as [->|Hb'].
  - done.
  - apply (Hno b Hb'); [by apply not_eq_sym|].
    apply (new_type_matches (ActivityType.id it)). destruct Hsame as [H1 H2]. by split.
  - apply (Hno a Ha'); [done|]. by apply (new_type_matches (ActivityType.id it)).
  - by apply (Hinv a b).
Qed.

Lemma distinct_types_filter items (f : ActivityType.t → bool) :
  distinct_types items → distinct_types (List.filter f items).
Proof.
  intros Hinv a b Ha Hb. apply list_elem_of_In, filter_In in Ha as [Ha _].
  apply list_elem_of_In, filter_In in Hb as [Hb _].
  apply Hinv; by apply list_elem_of_In.
Qed.

Lemma step_distinct_types w c :
  distinct_types (contents TYPES_FILE w) →
  distinct_types (contents TYPES_FILE (step w c)).
Proof.
  intros Hinv. destruct c as [uuid payload|type_id payload|type_id]; simpl.
  - destruct (create_any uuid payload w) as [->|[-> Hno]]; [done|].
    by apply distinct_types_snoc.
  - destruct (update_any type_id payload w)
      as [->|(idx & it & Hidx & Hid & Hc & Hno)]; [done|].
    rewrite Hc. subst type_id. by apply distinct_types_insert.
  - destruct (delete_any type_id w) as [->| ->]; [done|].
    by apply distinct_types_filter.
Qed.

(** X7. The registry keeps its names apart: along every sequence of
    [Create], [Update] and [Delete] calls from a store in which no two
    types of different ids have the same category and name (trimmed,
    ignoring case), the store reached has no two such types either. *)
Theorem distinct_types_along_calls calls w :
  distinct_types (contents TYPES_FILE w) →
  distinct_types (contents TYPES_FILE (fold_left step calls w)).
Proof.
  revert w. induction calls as [|c calls IH]; intros w Hinv; simpl; [done|].
  apply IH. by apply step_distinct_types.
Qed.

Lemma update_readonly type_id payload w :
  readonly (snd (update_activity_type type_id payload w)) = readonly w.
Proof.
  destruct (read_json_cases TYPES_FILE w) as [(w1 & Hrun & _ & Hr)|(e & Hrun)];
    unfold Types.update_activity_type, bind; rewrite Hrun; [|done].
  destruct (list_find _ _) as [[k x]|]; simpl; [|done].
  destruct (existsb _ _); simpl; [done|].
  destruct (write_json_any TYPES_FILE
              (<[k := new_type type_id payload]> (contents TYPES_FILE w)) w1)
    as (o & w2 & Hwr & Hro & _).
  rewrite Hwr. destruct o; simpl; congruence.
Qed.

(** X8. [Update] can be repeated: after a successful update, the same
    request succeeds again, returns the same record and leaves the
    collection as the first update left it. *)
Theorem update_twice type_id payload w idx it :
  contents TYPES_FILE w !! idx = Some it →
  ActivityType.id it = type_id →
  (∀ j y, contents TYPES_FILE w !! j = Some y → (j < idx)%nat → ActivityType.id y ≠ type_id) →
  ¬ (∃ other, other ∈ contents TYPES_FILE w
              ∧ ActivityType.id other ≠ type_id ∧ matches other payload) →
  writable TYPES_FILE w →
  ∃ w1 w2, update_activity_type type_id payload w = (Return (new_type type_id payload), w1)
           ∧ update_activity_type type_id payload w1
             = (Return (new_type type_id payload), w2)
           ∧ contents TYPES_FILE w2 = contents TYPES_FILE w1.
Proof.
  intros Hidx Hid Hfirst Hno Hw.
  assert (idx < length (contents TYPES_FILE w))%nat as Hlt by (by eapply lookup_lt_Some).
  destruct (update_in_place strip lower type_id payload w idx it Hidx Hid Hfirst Hno Hw)
    as (w1 & Hrun1 & Hc1).
  assert (readonly w1 = readonly w) as Hr1.
  { pose proof (update_readonly type_id payload w) as Hro. by rewrite Hrun1 in Hro. }
  assert (writable TYPES_FILE w1) as Hw1 by (unfold writable in *; by rewrite Hr1).
  destruct (update_in_place strip lower type_id payload w1 idx (new_type type_id payload))
    as (w2 & Hrun2 & Hc2); [| done | | | done |].
  - rewrite Hc1. by apply list_lookup_insert_eq.
  - intros j y Hj Hjlt. rewrite Hc1, list_lookup_insert_ne in Hj by lia.
    by apply (Hfirst j y).
  - intros (other & Hin & Hne & Hm). apply Hno. exists other. split; [|done].
    rewrite Hc1 in Hin. apply list_elem_of_lookup in Hin as [k Hk].
    destruct (decide (k = idx)) as [->|Hk'].
    + rewrite list_lookup_insert_eq in Hk by done. injection Hk as <-. done.
    + rewrite list_lookup_insert_ne in Hk by done. by eapply list_elem_of_lookup_2.
  - exists w1, w2. split; [done|]. split; [done|].
    by rewrite Hc2, Hc1, list_insert_insert_eq.
Qed.

(** X21. [Delete] removes for good: after a successful [Delete] of an id,
    a second [Delete] of that id fails with the 404 error and changes
    nothing. *)
Theorem delete_twice type_id w :
  (∃ it, it ∈ contents TYPES_FILE w ∧ ActivityType.id it = type_id) →
  writable TYPES_FILE w →
  ∃ w1 w2, delete_activity_type type_id w = (Return tt, w1)
           ∧ delete_activity_type type_id w1
             = (Raise (HTTPException 404 "Activity type not found"), w2)
           ∧ contents TYPES_FILE w2 = contents TYPES_FILE w1.
Proof.
  intros Hex Hw. destruct (delete_removes type_id w Hex Hw) as (w1 & Hrun1 & Hc1).
  destruct (delete_not_found type_id w1) as (w2 & Hrun2 & Hc2).
  { intros it Hin. rewrite Hc1 in Hin. by apply elem_of_filter_id in Hin as [_ Hne]. }
  { unfold delete_activity_type, bind in Hrun1.
    destruct (_read_json TYPES_FILE [] w) as [[v|e] w0]; [|done].
    destruct (Nat.eqb _ _); [done|].
    destruct (_write_json TYPES_FILE _ w0) as [[[]|e] w3] eqn:Hwr; [|done].
    injection Hrun1 as <-. by eapply write_json_readable. }
  by exists w1, w2.
Qed.

(** X22. [Update] never adds, removes or reorders records: whatever the
    request and whatever the outcome, the ids of the collection, in
    order, are the ones from before. *)
Theorem update_keeps_ids type_id payload w :
  ActivityType.id <$> contents TYPES_FILE (snd (update_activity_type type_id payload w))
  = ActivityType.id <$> contents TYPES_FILE w.
Proof.
  destruct (update_any type_id payload w) as [->|(idx & it & Hidx & Hid & -> & _)];
    [done|].
  rewrite list_fmap_insert. apply list_insert_id.
  rewrite list_lookup_fmap, Hidx. simpl. by rewrite Hid.
Qed.

End RegistryMore.

(** ** The activity lifecycle *)

Section LifecycleMore.
Import Activities ActivityRecord Lifecycle.

(** [Start] is taken with any [strip]. *)
Variable strip : string → string.
Local Notation start_activity := (Activities.start_activity strip).
Local Notation started := (Activities.started strip).

Implicit Types (w : fs ActivityRecord.t) (acts : list ActivityRecord.t)
  (a : ActivityRecord.t) (utcnow : Datetime.datetime).

(** X9. The text [_iso_now] writes for a valid time reads back, once its
    ["Z"] is dropped as [end_activity] drops it, as that time cut to the
    whole second. *)
Theorem iso_now_parses_back utcnow :
  Datetime.valid utcnow = true →
  Datetime.fromisoformat (Text.remove_char "Z" (_iso_now utcnow))
  = Some (Datetime.replace_microsecond0 utcnow).
Proof.
  intros Hvalid. unfold _iso_now. apply fromisoformat_isoformat; [|done].
  by destruct utcnow.
Qed.

Lemma in_None_or_empty_truthy (x : option string) :
  in_None_or_empty x = negb (truthy_str x).
Proof. by destruct x as [[|c s]|]. Qed.

Lemma ended_truthy utcnow start a : truthy_str (end_time (ended utcnow start a)) = true.
Proof.
  unfold ended, truthy_str, end_time.
  by destruct (Datetime.isoformat (Datetime.replace_microsecond0 utcnow)).
Qed.

Lemma start_any_active uuid utcnow payload w :
  let w' := snd (start_activity uuid utcnow payload w) in
  contents ACTIVITIES_FILE w' = contents ACTIVITIES_FILE w
  ∨ (contents ACTIVITIES_FILE w'
       = contents ACTIVITIES_FILE w ++ [started uuid utcnow payload]
     ∧ ∀ a, a ∈ contents ACTIVITIES_FILE w → truthy_str (end_time a) = true).
Proof.
  destruct (read_json_cases ACTIVITIES_FILE w) as [(w1 & Hrun & Hc & Hr)|(f & Hrun)];
    unfold Activities.start_activity, bind; rewrite Hrun; [|by left].
  destruct (existsb _ _) eqn:Hex; simpl; [by left|].
  fold (started uuid utcnow payload).
  destruct (write_json_any ACTIVITIES_FILE
              (contents ACTIVITIES_FILE w ++ [started uuid utcnow payload]) w1)
    as (o & w2 & Hwr & _ & Hcases).
  rewrite Hwr.
  assert (snd (let (o0, w'0) := (o, w2) in
               match o0 with
               | Return _ => ret (started uuid utcnow payload) w'0
               | Raise e => (Raise e, w'0)
               end) = w2) as -> by (by destruct o).
  destruct Hcases as [Hd|Hs]; [right|left; congruence].
  split; [done|]. intros a Hin.
  destruct (truthy_str (end_time a)) eqn:Ht; [done|].
  apply not_true_iff_false in Hex. destruct Hex. apply existsb_open.
  exists a. split; [done|]. by apply truthy_str_false.
Qed.

Lemma get_active_run w :
  readable ACTIVITIES_FILE w →
  ∃ w', get_active_activity w
        = (Return (List.find (λ a, negb (truthy_str (end_time a)))
                     (contents ACTIVITIES_FILE w)), w')
        ∧ contents ACTIVITIES_FILE w' = contents ACTIVITIES_FILE w.
Proof.
  intros Hread. destruct (read_json_run ACTIVITIES_FILE w Hread) as (w1 & Hrun & Hc & _).
  exists w1. unfold get_active_activity, bind. by rewrite Hrun.
Qed.

(** X13. [GetActive] and [Start] agree on what is open.  On an
    activities file that can be read, [GetActive] returns, and the record
    it returns, if any, is a stored record whose [end_time] is absent or
    empty.  On any store, [GetActive] returns a record exactly when
    [Start] is refused with the 400 "already in progress" error, and when
    [GetActive] raises, [Start] raises the same exception. *)
Theorem active_iff_start_refused uuid utcnow payload w :
  (readable ACTIVITIES_FILE w →
   ∃ r w', get_active_activity w = (Return r, w')
           ∧ contents ACTIVITIES_FILE w' = contents ACTIVITIES_FILE w
           ∧ ∀ a, r = Some a →
                  a ∈ contents ACTIVITIES_FILE w
                  ∧ (end_time a = None ∨ end_time a = Some ""))
  ∧ ((∃ a, fst (get_active_activity w) = Return (Some a))
     ↔ fst (start_activity uuid utcnow payload w)
       = Raise (HTTPException 400
           "An activity is already in progress. End it before starting a new one."))
  ∧ (∀ e, fst (get_active_activity w) = Raise e →
          fst (start_activity uuid utcnow payload w) = Raise e).
Proof.
  split; [|split].
  - intros Hread. destruct (get_active_run w Hread) as (w1 & Hrun & Hc).
    exists (List.find (λ a, negb (truthy_str (end_time a))) (contents ACTIVITIES_FILE w)), w1.
    split; [done|]. split; [done|]. intros a Ha.
    apply find_some in Ha as [Hin Hopen]. split; [by apply list_elem_of_In|].
    by apply truthy_str_false, negb_true_iff.
  - unfold get_active_activity, Activities.start_activity, bind.
    destruct (read_json_cases ACTIVITIES_FILE w) as [(w2 & Hrun2 & _)|(f & Hrun2)];
      rewrite Hrun2; simpl.
    + destruct (existsb _ _) eqn:Hex; simpl.
      * split; [done|]. intros _. apply existsb_exists in Hex as (a & Hin & Hopen).
        rewrite in_None_or_empty_truthy in Hopen.
        destruct (List.find (λ a, negb (truthy_str (end_time a)))
                    (contents ACTIVITIES_FILE w)) as [b|] eqn:Hfind; [by exists b|].
        pose proof (find_none _ _ Hfind a Hin) as Hnone. simpl in Hnone. congruence.
      * split.
        -- intros (a & [= Ha]). apply find_some in Ha as [Hin Hopen].
           apply not_true_iff_false in Hex. destruct Hex. apply existsb_exists.
           exists a. split; [done|]. by rewrite in_None_or_empty_truthy.
        -- destruct (_write_json _ _ _) as [[[]|e] w3] eqn:Hwr; simpl; [done|].
           apply write_json_raises in Hwr as ->. done.
    + split; [by intros (a & ?)|by destruct f].
  - intros e. unfold get_active_activity, Activities.start_activity, bind.
    destruct (read_json_cases ACTIVITIES_FILE w) as [(w2 & Hrun2 & _)|(f & Hrun2)];
      rewrite Hrun2; simpl; [done|].
    by intros [= <-].
Qed.

(** X14. After a successful [Start] (no stored activity is open, the
    file can be read and written), [GetActive] returns the record that
    [Start] returned. *)
Theorem start_then_active uuid utcnow payload w :
  ¬ (∃ a, a ∈ contents ACTIVITIES_FILE w ∧ (end_time a = None ∨ end_time a = Some "")) →
  readable ACTIVITIES_FILE w →
  writable ACTIVITIES_FILE w →
  ∃ w1 w2, start_activity uuid utcnow payload w = (Return (started uuid utcnow payload), w1)
           ∧ get_active_activity w1 = (Return (Some (started uuid utcnow payload)), w2).
Proof.
  intros Hno Hread Hw.
  destruct (start_append strip uuid utcnow payload w Hno Hread Hw)
    as (w1 & Hrun1 & Hc1 & _).
  destruct (get_active_run w1) as (w2 & Hrun2 & _).
  { apply (elem_of_contents_readable _ _ (started uuid utcnow payload)).
    rewrite Hc1. apply elem_of_app. right. apply list_elem_of_here. }
  exists w1, w2. split; [done|]. rewrite Hrun2, Hc1. do 2 f_equal.
  apply (find_first _ _ (length (contents ACTIVITIES_FILE w))).
  - rewrite lookup_app_r by lia. by rewrite Nat.sub_diag.
  - done.
  - intros j b Hj Hlt. rewrite lookup_app_l in Hj by lia.
    apply negb_false_iff. destruct (truthy_str (end_time b)) eqn:Ht; [done|].
    destruct Hno. exists b. split; [by eapply list_elem_of_lookup_2|].
    by apply truthy_str_false.
Qed.

(** X23. A second [Start] with no [End] in between is refused: after a
    successful [Start], any further [Start] fails with the 400 "already
    in progress" error and leaves the collection as the first call left
    it. *)
Theorem start_twice uuid utcnow payload uuid' utcnow' payload' w :
  ¬ (∃ a, a ∈ contents ACTIVITIES_FILE w ∧ (end_time a = None ∨ end_time a = Some "")) →
  readable ACTIVITIES_FILE w →
  writable ACTIVITIES_FILE w →
  ∃ w1 w2, start_activity uuid utcnow payload w = (Return (started uuid utcnow payload), w1)
           ∧ start_activity uuid' utcnow' payload' w1
             = (Raise (HTTPException 400
                  "An activity is already in progress. End it before starting a new one."),
                w2)
           ∧ contents ACTIVITIES_FILE w2
             = contents ACTIVITIES_FILE w ++ [started uuid utcnow payload].
Proof.
  intros Hno Hread Hw.
  destruct (start_append strip uuid utcnow payload w Hno Hread Hw)
    as (w1 & Hrun1 & Hc1 & _).
  destruct (start_conflict strip uuid' utcnow' payload' w1) as (w2 & Hrun2 & Hc2).
  { exists (started uuid utcnow payload). split; [|by left].
    rewrite Hc1. apply elem_of_app. right. apply list_elem_of_here. }
  exists w1, w2. split; [done|]. split; [done|]. by rewrite Hc2.
Qed.

Section WithParser.
Variable fromisoformat : string → option Datetime.parsed.
Local Notation step := (Activities.step strip fromisoformat).
Local Notation trace := (Activities.trace strip fromisoformat).

(** Whatever the store, [end_activity] leaves the collection as it was or
    puts, in the place of one open record, that record closed. *)
Lemma end_any_closes utcnow payload w :
  let w' := snd (end_activity fromisoformat utcnow payload w) in
  contents ACTIVITIES_FILE w' = contents ACTIVITIES_FILE w
  ∨ ∃ idx a start,
      contents ACTIVITIES_FILE w !! idx = Some a
      ∧ truthy_str (end_time a) = false
      ∧ contents ACTIVITIES_FILE w'
        = <[idx := ended utcnow start a]> (contents ACTIVITIES_FILE w).
Proof.
  destruct (read_json_cases ACTIVITIES_FILE w) as [(w1 & Hrun & Hc & Hr)|(f & Hrun)];
    unfold end_activity, bind; rewrite Hrun; [|by left].
  destruct (list_find _ _) as [[idx a]|] eqn:Hfind; simpl; [|by left].
  apply list_find_Some in Hfind as (Hidx & _ & _).
  destruct (truthy_str _) eqn:Ht; simpl; [by left|].
  destruct (fromisoformat _) as [[start|start utcoffset]|]; simpl; [|by left..].
  fold (ended utcnow start a).
  destruct (write_json_any ACTIVITIES_FILE
              (<[idx := ended utcnow start a]> (contents ACTIVITIES_FILE w)) w1)
    as (o & w2 & Hwr & _ & Hcases).
  rewrite Hwr.
  assert (snd (let (o0, w'0) := (o, w2) in
               match o0 with
               | Return _ => ret (ended utcnow start a) w'0
               | Raise e => (Raise e, w'0)
               end) = w2) as -> by (by destruct o).
  destruct Hcases as [Hd|Hs]; [right|left; congruence].
  by exists idx, a, start.
Qed.

(** A property of the collection that every call keeps holds along every
    sequence of calls. *)
Lemma along_trace (P : list ActivityRecord.t → Prop) :
  (∀ w c, P (contents ACTIVITIES_FILE w) →
          P (contents ACTIVITIES_FILE (step w c))) →
  ∀ calls w, P (contents ACTIVITIES_FILE w) →
             Forall (λ w', P (contents ACTIVITIES_FILE w')) (trace w calls).
Proof.
  intros Hstep calls. induction calls as [|c calls IH]; intros w HP; simpl.
  - by constructor.
  - constructor; [done|]. by apply IH, Hstep.
Qed.

(** X10. The closing fields stay paired: along every sequence of [Start]
    and [End] calls from a store in which [end_time] is absent exactly
    when [duration_seconds] is, every store reached has that property. *)
Theorem paired_along_calls w calls :
  paired (contents ACTIVITIES_FILE w) →
  Forall (λ w', paired (contents ACTIVITIES_FILE w')) (trace w calls).
Proof.
  revert w. apply along_trace. intros w c Hinv.
  destruct c as [uuid utcnow payload|utcnow payload]; simpl.
  - destruct (start_any strip uuid utcnow payload w) as [->|[-> _]]; [done|].
    intros a Ha. apply elem_of_app in Ha as [Ha|Ha]; [by apply Hinv|].
    apply list_elem_of_singleton in Ha as ->. done.
  - destruct (end_any_closes utcnow payload w) as [->|(idx & a & start & _ & _ & ->)];
      [done|].
    intros b Hb. apply list_elem_of_lookup in Hb as [k Hk].
    destruct (decide (k = idx)) as [->|Hne].
    + apply list_lookup_insert_Some in Hk as [(_ & <- & _)|[? _]]; done.
    + rewrite list_lookup_insert_ne in Hk by done.
      apply Hinv. by eapply list_elem_of_lookup_2.
Qed.

(** X11. At most one activity is open for the handlers: along every
    sequence of [Start] and [End] calls from a store in which no two
    records have an absent or empty [end_time], every store reached has
    at most one such record. *)
Theorem single_active_along_calls w calls :
  single_active (contents ACTIVITIES_FILE w) →
  Forall (λ w', single_active (contents ACTIVITIES_FILE w')) (trace w calls).
Proof.
  revert w. apply along_trace. intros w c Hinv.
  destruct c as [uuid utcnow payload|utcnow payload]; simpl.
  - destruct (start_any_active uuid utcnow payload w) as [->|[-> Hclosed]]; [done|].
    intros i j x y Hi Hj Hx Hy.
    assert (∀ k z, (contents ACTIVITIES_FILE w ++ [started uuid utcnow payload]) !! k
                   = Some z → truthy_str (end_time z) = false →
                   k = length (contents ACTIVITIES_FILE w)) as Hlast.
    { intros k z Hk Hz. apply lookup_app_Some in Hk as [Hk|[Hge Hk]].
      - apply list_elem_of_lookup_2, Hclosed in Hk. congruence.
      - apply list_lookup_singleton_Some in Hk as [Hk _]. lia. }
    by rewrite (Hlast i x Hi Hx), (Hlast j y Hj Hy).
  - destruct (end_any_closes utcnow payload w) as [->|(idx & a & start & _ & _ & ->)];
      [done|].
    intros i j x y Hi Hj Hx Hy.
    assert (∀ k z, <[idx := ended utcnow start a]> (contents ACTIVITIES_FILE w) !! k
                   = Some z → truthy_str (end_time z) = false →
                   contents ACTIVITIES_FILE w !! k = Some z) as Hold.
    { intros k z Hk Hz. destruct (decide (k = idx)) as [->|Hne].
      - apply list_lookup_insert_Some in Hk as [(_ & <- & _)|[? _]]; [|done].
        by rewrite ended_truthy in Hz.
      - by rewrite list_lookup_insert_ne in Hk. }
    eapply Hinv; eauto.
Qed.

Lemma keeps_refl acts : keeps acts acts.
Proof. intros i a Hi. by exists a. Qed.

Lemma keeps_trans acts1 acts2 acts3 :
  keeps acts1 acts2 → keeps acts2 acts3 → keeps acts1 acts3.
Proof.
  intros H12 H23 i a Hi.
  destruct (H12 i a Hi) as (a2 & Hi2 & Hid & Hcat & Hname & Hstart & Hclosed).
  destruct (H23 i a2 Hi2) as (a3 & Hi3 & Hid' & Hcat' & Hname' & Hstart' & Hclosed').
  exists a3. split; [done|]. repeat split; try congruence.
  intros Ht. pose proof (Hclosed Ht) as ->. by apply Hclosed'.
Qed.

Lemma step_keeps w c :
  keeps (contents ACTIVITIES_FILE w) (contents ACTIVITIES_FILE (step w c)).
Proof.
  destruct c as [uuid utcnow payload|utcnow payload]; simpl.
  - destruct (start_any strip uuid utcnow payload w) as [->|[-> _]]; [apply keeps_refl|].
    intros i a Hi. exists a. split; [|done]. by apply lookup_app_l_Some.
  - destruct (end_any_closes utcnow payload w)
      as [->|(idx & a & start & Hidx & Hopen & ->)]; [apply keeps_refl|].
    intros i b Hi. destruct (decide (i = idx)) as [->|Hne].
    + rewrite Hidx in Hi. injection Hi as <-.
      exists (ended utcnow start a). split.
      * apply list_lookup_insert_eq. by eapply lookup_lt_Some.
      * repeat split. congruence.
    + exists b. split; [by rewrite list_lookup_insert_ne|done].
Qed.

(** X12. Nothing is deleted, moved or reopened: along every sequence of
    [Start] and [End] calls, every store reached still has each record of
    the first store at its position, with its id, category, name and
    start time, and a record that had a non-empty [end_time] is there
    unchanged. *)
Theorem records_kept_along_calls w calls :
  Forall (λ w', keeps (contents ACTIVITIES_FILE w) (contents ACTIVITIES_FILE w'))
    (trace w calls).
Proof.
  assert (∀ w0 w1, keeps (contents ACTIVITIES_FILE w0) (contents ACTIVITIES_FILE w1) →
            Forall (λ w', keeps (contents ACTIVITIES_FILE w0) (contents ACTIVITIES_FILE w'))
              (trace w1 calls)) as Hgen.
  { induction calls as [|c calls IH]; intros w0 w1 Hk; simpl.
    - by constructor.
    - constructor; [done|]. apply IH. eapply keeps_trans; [done|]. apply step_keeps. }
  apply Hgen, keeps_refl.
Qed.

(** X15. [End] closes for good: after a successful [End] on an id, a
    second [End] on that id fails with the 400 "already ended" error and
    changes nothing; and when the closed record was the only open one,
    [GetActive] then returns nothing. *)
Theorem end_twice utcnow utcnow' payload w idx a start :
  first_with_id (contents ACTIVITIES_FILE w) idx a →
  id a = ActivityEndIn.id payload →
  end_time a = None ∨ end_time a = Some "" →
  fromisoformat (Text.remove_char "Z" (start_time a)) = Some (Datetime.Naive start) →
  writable ACTIVITIES_FILE w →
  ∃ w1 w2,
    end_activity fromisoformat utcnow payload w = (Return (ended utcnow start a), w1)
    ∧ end_activity fromisoformat utcnow' payload w1
      = (Raise (HTTPException 400 "Activity already ended"), w2)
    ∧ contents ACTIVITIES_FILE w2 = contents ACTIVITIES_FILE w1
    ∧ ((∀ j b, contents ACTIVITIES_FILE w !! j = Some b → j ≠ idx →
               truthy_str (end_time b) = true) →
       fst (get_active_activity w2) = Return None).
Proof.
  intros Hfirst Hid Hopen Hparse Hw.
  destruct (end_closes fromisoformat utcnow payload w idx a start
              Hfirst Hid Hopen Hparse Hw) as (w1 & Hrun1 & Hc1).
  assert (idx < length (contents ACTIVITIES_FILE w))%nat as Hlt.
  { destruct Hfirst as [Hidx _]. by eapply lookup_lt_Some. }
  destruct (end_already_ended fromisoformat utcnow' payload w1 idx (ended utcnow start a))
    as (w2 & Hrun2 & Hc2).
  - rewrite Hc1. split; [by apply list_lookup_insert_eq|].
    intros j b Hj Hjlt. rewrite list_lookup_insert_ne in Hj by lia.
    destruct Hfirst as [_ Hbefore]. by apply (Hbefore j b).
  - done.
  - apply truthy_str_true, ended_truthy.
  - exists w1, w2. split; [done|]. split; [done|]. split; [done|].
    intros Hothers. destruct (get_active_run w2) as (w3 & Hrun3 & _).
    { apply (lookup_contents_readable _ _ idx (ended utcnow start a)).
      rewrite Hc2, Hc1. by apply list_lookup_insert_eq. }
    rewrite Hrun3. simpl. f_equal. clear Hrun3. rewrite Hc2, Hc1.
    destruct (List.find _ _) as [b|] eqn:Hfind; [|done].
    apply find_some in Hfind as [Hin Hb]. apply list_elem_of_In in Hin.
    apply list_elem_of_lookup in Hin as [k Hk]. apply negb_true_iff in Hb.
    destruct (decide (k = idx)) as [->|Hne].
    + rewrite list_lookup_insert_eq in Hk by done. injection Hk as <-.
      by rewrite ended_truthy in Hb.
    + rewrite list_lookup_insert_ne in Hk by done.
      rewrite (Hothers k b Hk Hne) in Hb. done.
Qed.

End WithParser.

End LifecycleMore.

(** ** The summary *)

Section SummaryMore.
Import Activities ActivityRecord Lifecycle.

(** [Start] is taken with any [strip]. *)
Variable strip : string → string.
Local Notation start_activity := (Activities.start_activity strip).
Local Notation started := (Activities.started strip).

Implicit Types (acts : list ActivityRecord.t) (a : ActivityRecord.t)
  (agg : gmap string (gmap string Z)) (d c : string).

Lemma existsb_counted acts d c :
  existsb (counted d c) acts = true ↔ ∃ a, a ∈ acts ∧ counted d c a = true.
Proof.
  rewrite existsb_exists. split; intros (a & Hin & Ha); exists a.
  - by rewrite list_elem_of_In.
  - by rewrite <- list_elem_of_In.
Qed.

Lemma existsb_counted_perm acts1 acts2 d c :
  acts1 ≡ₚ acts2 → existsb (counted d c) acts1 = existsb (counted d c) acts2.
Proof.
  intros Hp. apply eq_true_iff_eq. rewrite !existsb_counted.
  split; intros (a & Hin & Ha); exists a; split; try done.
  - by rewrite <- Hp.
  - by rewrite Hp.
Qed.

Lemma total_perm acts1 acts2 d c : acts1 ≡ₚ acts2 → total d c acts1 = total d c acts2.
Proof.
  induction 1 as [|x l1 l2 _ IH|x y l|l1 l2 l3 _ IH1 _ IH2].
  - done.
  - by rewrite !total_cons, IH.
  - rewrite !total_cons. lia.
  - congruence.
Qed.

Lemma row_cell agg d row c : agg !! d = Some row → row !! c = cell agg d c.
Proof. unfold cell. by intros ->. Qed.

Lemma summarize_row acts d :
  is_Some (data (summarize acts) !! d)
  ↔ ∃ a, a ∈ acts ∧ skipped a = false ∧ date_of a = d.
Proof.
  unfold summarize. simpl. rewrite fold_accumulate_row, lookup_empty. split.
  - intros [[? ?]|?]; done.
  - by right.
Qed.

(** X16. The summary does not depend on the order of the records: two
    collections with the same records, in any order, have the same
    summary. *)
Theorem summarize_permutation acts1 acts2 :
  acts1 ≡ₚ acts2 → summarize acts1 = summarize acts2.
Proof.
  intros Hp.
  assert (data (summarize acts1) = data (summarize acts2)) as Hdata.
  { apply map_eq. intros d.
    destruct (data (summarize acts1) !! d) as [r1|] eqn:H1;
      destruct (data (summarize acts2) !! d) as [r2|] eqn:H2.
    - f_equal. apply map_eq. intros c.
      rewrite (row_cell _ _ _ c H1), (row_cell _ _ _ c H2), !summarize_cell.
      by rewrite (existsb_counted_perm _ _ _ _ Hp), (total_perm _ _ _ _ Hp).
    - exfalso. assert (is_Some (data (summarize acts2) !! d)) as [? ?]; [|congruence].
      apply summarize_row. assert (is_Some (data (summarize acts1) !! d)) as Hs by eauto.
      apply summarize_row in Hs as (a & Hin & Ha). exists a. by rewrite <- Hp.
    - exfalso. assert (is_Some (data (summarize acts1) !! d)) as [? ?]; [|congruence].
      apply summarize_row. assert (is_Some (data (summarize acts2) !! d)) as Hs by eauto.
      apply summarize_row in Hs as (a & Hin & Ha). exists a. by rewrite Hp.
    - done. }
  unfold summarize in *. simpl in Hdata. by rewrite Hdata.
Qed.

(** X17. Every entry of the summary comes from a record: a date of
    [data] is the first 10 characters of the [start_time] of a record
    that is not skipped, its row is not empty, and a bucket of the row is
    the bucket of such a record of that date. *)
Theorem summarize_provenance acts d row :
  data (summarize acts) !! d = Some row →
  row ≠ ∅
  ∧ (∃ a, a ∈ acts ∧ skipped a = false ∧ Text.slice_to 10 (start_time a) = d)
  ∧ (∀ c, is_Some (row !! c)
          ↔ ∃ a, a ∈ acts ∧ skipped a = false
                 ∧ Text.slice_to 10 (start_time a) = d ∧ bucket_of a = c).
Proof.
  intros Hrow.
  assert (∀ c, is_Some (row !! c) ↔ ∃ a, a ∈ acts ∧ counted d c a = true) as Hcells.
  { intros c. rewrite (row_cell _ _ _ c Hrow), summarize_cell, <- existsb_counted.
    destruct (existsb _ _); split; try done; by intros [? ?]. }
  assert (∃ a, a ∈ acts ∧ skipped a = false ∧ date_of a = d) as (a & Hin & Hs & Hd).
  { apply summarize_row. by eexists. }
  split; [|split].
  - intros ->. assert (is_Some ((∅ : gmap string Z) !! bucket_of a)) as [? Hx].
    { apply Hcells. exists a. split; [done|]. rewrite <- Hd. by apply counted_own. }
    by rewrite lookup_empty in Hx.
  - by exists a.
  - intros c. rewrite Hcells. unfold counted, date_of.
    split; intros (b & Hb & Hcount); exists b; (split; [done|]).
    + apply andb_true_iff in Hcount as [Hcount Hc].
      apply andb_true_iff in Hcount as [Hsk Hdt].
      by rewrite negb_true_iff in Hsk; rewrite String.eqb_eq in Hdt, Hc.
    + destruct Hcount as (-> & -> & ->). by rewrite !String.eqb_refl.
Qed.

Lemma fold_sum_insert {V} (g : V → Z) (m : gmap string V) k v :
  map_fold (λ _ x acc, g x + acc) 0 (<[k := v]> m)
  = g v + map_fold (λ _ x acc, g x + acc) 0 m - default 0 (g <$> m !! k).
Proof.
  destruct (m !! k) as [x|] eqn:Hk; simpl.
  - rewrite <- insert_delete_eq.
    rewrite map_fold_insert_L; [|intros; lia|apply lookup_delete_eq].
    rewrite (map_fold_delete_L _ _ k x m); [lia|intros; lia|done].
  - rewrite map_fold_insert_L; [lia|intros; lia|done].
Qed.

Lemma table_sum_accumulate agg a :
  table_sum (accumulate agg a)
  = table_sum agg + (if skipped a then 0 else default 0 (duration_seconds a)).
Proof.
  unfold accumulate. destruct (skipped a); [lia|].
  unfold table_sum, row_sum.
  destruct (agg !! Text.slice_to 10 (start_time a)) as [row|] eqn:Hrow.
  - rewrite Hrow. simpl. rewrite !fold_sum_insert, Hrow. simpl.
    destruct (row !! default "other" (activity_category a)); simpl; lia.
  - rewrite lookup_insert_eq. simpl. rewrite insert_insert_eq.
    rewrite !fold_sum_insert, Hrow, lookup_empty. simpl.
    rewrite map_fold_empty. lia.
Qed.

(** X18. No second is lost or counted twice: the cells of the summary
    table add up to the sum of the durations of the records that are not
    skipped. *)
Theorem summarize_conserves acts :
  table_sum (data (summarize acts)) = counted_seconds acts.
Proof.
  unfold summarize. simpl.
  assert (∀ agg, table_sum (fold_left accumulate acts agg)
                 = table_sum agg + counted_seconds acts) as Hgen.
  { induction acts as [|a acts IH]; intros agg; simpl; [lia|].
    rewrite IH, table_sum_accumulate. destruct (skipped a); lia. }
  rewrite Hgen. unfold table_sum. rewrite map_fold_empty. lia.
Qed.

(** X19. [get_summary] never changes the collection.  On an activities
    file that can be read it returns the summary of the stored records,
    which is the empty summary when the file is missing or is one on which
    [json.load] raises [JSONDecodeError]; on a file whose reading fails
    otherwise it raises the exception of that failure. *)
Theorem get_summary_run (w : fs ActivityRecord.t) :
  contents ACTIVITIES_FILE (snd (get_summary w)) = contents ACTIVITIES_FILE w
  ∧ (readable ACTIVITIES_FILE w →
     ∃ w', get_summary w = (Return (summarize (contents ACTIVITIES_FILE w)), w')
           ∧ ((∀ v, files w !! ACTIVITIES_FILE ≠ Some (Json v)) →
              summarize (contents ACTIVITIES_FILE w) = mksummary [] ∅))
  ∧ (∀ f raw, files w !! ACTIVITIES_FILE = Some (Unreadable f raw) →
              get_summary w = (Raise (load_exn f), w)).
Proof.
  split; [|split].
  - unfold get_summary, bind.
    by destruct (read_json_cases ACTIVITIES_FILE w) as [(w1 & -> & Hc & _)|(f & ->)].
  - intros Hread. destruct (read_json_run ACTIVITIES_FILE w Hread) as (w1 & Hrun & Hc & _).
    exists w1. unfold get_summary, bind. rewrite Hrun. split; [done|].
    intros Hbad. rewrite contents_lookup.
    destruct (files w !! ACTIVITIES_FILE) as [[v|raw|f raw]|];
      [by destruct (Hbad v)|done..].
  - intros f raw Hp. unfold get_summary, bind.
    unfold _read_json, bind, path_exists, try_except, json_load.
    rewrite Hp. simpl. rewrite Hp. by destruct f.
Qed.

Lemma date_of_started uuid utcnow payload : date_of (started uuid utcnow payload) = isodate utcnow.
Proof. by destruct utcnow. Qed.

(** X20. A finished activity shows up in the summary under the day it
    started: after a successful [Start] at a valid time, under an id
    that no stored activity has, and an [End] on that id at a valid time
    a non-zero number of whole seconds away, [get_summary] lists the
    calendar date of the start among [dates], and the cell of that date
    and of the trimmed category has grown by that number of seconds. *)
Theorem start_end_summary uuid t0 t1 payload (w : fs ActivityRecord.t) :
  Datetime.valid (Datetime.replace_microsecond0 t0) = true →
  Datetime.valid (Datetime.replace_microsecond0 t1) = true →
  ¬ (∃ a, a ∈ contents ACTIVITIES_FILE w ∧ (end_time a = None ∨ end_time a = Some "")) →
  uuid ∉ id <$> contents ACTIVITIES_FILE w →
  readable ACTIVITIES_FILE w →
  writable ACTIVITIES_FILE w →
  let seconds := Datetime.sub (Datetime.replace_microsecond0 t1)
                   (Datetime.replace_microsecond0 t0) / 1000000 in
  let category := strip (ActivityStartIn.activity_category payload) in
  seconds ≠ 0 →
  ∃ w1 w2 w3 r s,
    start_activity uuid t0 payload w = (Return (started uuid t0 payload), w1)
    ∧ end_activity Datetime.fromisoformat_tz t1 (ActivityEndIn.mk uuid) w1 = (Return r, w2)
    ∧ duration_seconds r = Some seconds
    ∧ get_summary w2 = (Return s, w3)
    ∧ isodate t0 ∈ dates s
    ∧ cell (data s) (isodate t0) category
      = Some (default 0 (cell (data (summarize (contents ACTIVITIES_FILE w)))
                           (isodate t0) category) + seconds).
Proof.
  intros Hvalid Hvalid1 Hno Hfresh Hread Hw seconds category Hnz.
  destruct (start_then_end strip uuid t0 t1 payload w Hvalid Hvalid1 Hno Hfresh Hread Hw)
    as (w1 & w2 & Hrun1 & Hrun2 & Hc2 & Hdur & _).
  assert (∃ w3, get_summary w2 = (Return (summarize (contents ACTIVITIES_FILE w2)), w3))
    as (w3 & Hrun3).
  { destruct (read_json_run ACTIVITIES_FILE w2) as (w3 & Hrun & _).
    { apply (elem_of_contents_readable _ _
               (ended t1 (Datetime.replace_microsecond0 t0) (started uuid t0 payload))).
      rewrite Hc2. apply elem_of_app. right. apply list_elem_of_here. }
    exists w3. unfold get_summary, bind. by rewrite Hrun. }
  set (r := ended t1 (Datetime.replace_microsecond0 t0) (started uuid t0 payload)) in *.
  exists w1, w2, w3, r, (summarize (contents ACTIVITIES_FILE w2)).
  split; [done|]. split; [done|]. split; [done|]. split; [done|].
  assert (skipped r = false) as Hs.
  { unfold skipped. rewrite Hdur. subst r. rewrite ended_truthy. simpl.
    fold seconds. by rewrite (proj2 (Z.eqb_neq _ _) Hnz). }
  assert (date_of r = isodate t0) as Hdate by exact (date_of_started uuid t0 payload).
  assert (bucket_of r = category) as Hbucket by done.
  pose proof (counted_own r Hs) as Hown. rewrite Hdate, Hbucket in Hown.
  rewrite Hc2. split.
  - apply summarize_dates, summarize_row. exists r. split; [|done].
    apply elem_of_app. right. apply list_elem_of_here.
  - rewrite !summarize_cell, existsb_app. simpl. rewrite Hown, orb_true_r.
    rewrite total_app, total_cons, Hown, Hdur. simpl. f_equal.
    destruct (existsb _ (contents ACTIVITIES_FILE w)) eqn:Hex; simpl.
    + change (total (isodate t0) category []) with 0. subst seconds. lia.
    + rewrite (total_none _ _ _ Hex).
      change (total (isodate t0) category []) with 0. subst seconds. lia.
Qed.

End SummaryMore.

(** ** The further properties at sample inputs *)

Section SamplesMore.
Import Types Registry Activities Lifecycle Sample.

Local Notation matches := (Types.matches Text.strip Text.lower).
Local Notation create_activity_type := (Types.create_activity_type Text.strip Text.lower).
Local Notation update_activity_type := (Types.update_activity_type Text.strip Text.lower).
Local Notation distinct_types := (Registry.distinct_types Text.strip Text.lower).
Local Notation start_activity := (Activities.start_activity Text.strip).
Local Notation started := (Activities.started Text.strip).
Local Notation end_activity := (Activities.end_activity Datetime.fromisoformat_tz).
Local Notation trace := (Activities.trace Text.strip Datetime.fromisoformat_tz).

(** X2 at a store whose activities file is not JSON: the write replaces
    it. *)
Lemma read_after_write_witness :
  ∃ w', _write_json ACTIVITIES_FILE [morning_run None None] corrupt_store = (Return tt, w')
        ∧ _read_json ACTIVITIES_FILE [] w' = (Return [morning_run None None], w').
Proof.
  apply (read_after_write ACTIVITIES_FILE [morning_run None None] [] corrupt_store).
  apply writable_unrefused.
Defined.

(** X4 at a store that holds the types t1 and t2. *)
Lemma delete_activity_type_spec_witness :
  (∃ w', delete_activity_type "t9" (types_store [sports_run; study_read])
         = (Raise (HTTPException 404 "Activity type not found"), w')
         ∧ contents TYPES_FILE w' = [sports_run; study_read])
  ∧ (∃ w', delete_activity_type "t1" (types_store [sports_run; study_read])
           = (Return tt, w')
           ∧ (study_read ∈ contents TYPES_FILE w')
           ∧ (sports_run ∉ contents TYPES_FILE w')).
Proof.
  split.
  - destruct (delete_activity_type_spec "t9" (types_store [sports_run; study_read]))
      as (Hnf & _).
    rewrite contents_types_store in Hnf. apply Hnf; [|apply readable_types_store].
    intros it Hin. apply elem_of_cons in Hin as [->|Hin]; [discriminate|].
    apply list_elem_of_singleton in Hin as ->. discriminate.
  - destruct (delete_activity_type_spec "t1" (types_store [sports_run; study_read]))
      as (_ & Hrm).
    rewrite contents_types_store in Hrm.
    destruct Hrm as (w' & Hrun & Hmem & _).
    + exists sports_run. split; [apply list_elem_of_here|reflexivity].
    + apply writable_unrefused.
    + exists w'. split; [exact Hrun|]. split.
      * apply Hmem. split; [apply list_elem_of_further, list_elem_of_here|discriminate].
      * intros Hin. apply Hmem in Hin as [_ Hne]. apply Hne. reflexivity.
Defined.

(** X5 at a store that holds the type t1: t2 is created and deleted. *)
Lemma create_then_delete_witness :
  ∃ w1 w2, create_activity_type "t2" (ActivityTypeIn.mk " Study" "Read ")
             (types_store [sports_run])
           = (Return study_read, w1)
           ∧ delete_activity_type "t2" w1 = (Return tt, w2)
           ∧ contents TYPES_FILE w2 = [sports_run].
Proof.
  destruct (create_then_delete Text.strip Text.lower
              "t2" (ActivityTypeIn.mk " Study" "Read ")
              (types_store [sports_run])) as (w1 & w2 & H1 & H2 & H3).
  - rewrite contents_types_store. intros (it & Hin & Hm).
    apply list_elem_of_singleton in Hin as ->. destruct Hm as [Hm _].
    vm_compute in Hm. discriminate.
  - rewrite contents_types_store. intros Hin.
    apply list_elem_of_singleton in Hin. discriminate.
  - apply readable_types_store.
  - apply writable_unrefused.
  - exists w1, w2. split; [exact H1|]. split; [exact H2|].
    rewrite H3. apply contents_types_store.
Defined.

(** X6 at the empty store. *)
Lemma create_twice_witness :
  ∃ w1 w2, create_activity_type "t1" (ActivityTypeIn.mk "Sports" "Run") empty_store
           = (Return sports_run, w1)
           ∧ create_activity_type "t2" (ActivityTypeIn.mk " sports " "RUN") w1
             = (Raise (HTTPException 400 "Activity type already exists"), w2)
           ∧ contents TYPES_FILE w2 = [sports_run].
Proof.
  destruct (create_twice Text.strip Text.lower strip_idempotent
              "t1" (ActivityTypeIn.mk "Sports" "Run")
              "t2" (ActivityTypeIn.mk " sports " "RUN") empty_store)
    as (w1 & w2 & H1 & H2 & H3).
  - rewrite contents_empty_store. intros (it & Hin & _). by apply elem_of_nil in Hin.
  - apply readable_empty_store.
  - apply writable_unrefused.
  - reflexivity.
  - reflexivity.
  - exists w1, w2. split; [exact H1|]. split; [exact H2|].
    rewrite H3, contents_empty_store. reflexivity.
Defined.

(** X7 along six calls from the empty store. *)
Lemma distinct_types_along_calls_witness :
  distinct_types
    (contents TYPES_FILE
       (fold_left (Registry.step Text.strip Text.lower)
          [ Registry.Create "t1" (ActivityTypeIn.mk "Sports" "Run");
            Registry.Create "t2" (ActivityTypeIn.mk " sports " "RUN");
            Registry.Create "t2" (ActivityTypeIn.mk "Study" "Read");
            Registry.Update "t2" (ActivityTypeIn.mk "sports" "run");
            Registry.Delete "t1";
            Registry.Update "t2" (ActivityTypeIn.mk "sports" "run") ]
          empty_store)).
Proof.
  apply (distinct_types_along_calls Text.strip Text.lower strip_idempotent).
  rewrite contents_empty_store. intros a b Ha. by apply elem_of_nil in Ha.
Defined.

(** X8 at a store that holds the types t1 and t2. *)
Lemma update_twice_witness :
  ∃ w1 w2, update_activity_type "t2" (ActivityTypeIn.mk " Study " "Write")
             (types_store [sports_run; study_read])
           = (Return (ActivityType.mk "t2" "Study" "Write"), w1)
           ∧ update_activity_type "t2" (ActivityTypeIn.mk " Study " "Write") w1
             = (Return (ActivityType.mk "t2" "Study" "Write"), w2)
           ∧ contents TYPES_FILE w2 = contents TYPES_FILE w1.
Proof.
  apply (update_twice Text.strip Text.lower "t2" (ActivityTypeIn.mk " Study " "Write")
           (types_store [sports_run; study_read]) 1%nat study_read).
  - rewrite contents_types_store. reflexivity.
  - reflexivity.
  - rewrite contents_types_store. intros j y Hj Hlt. assert (j = 0%nat) as -> by lia.
    injection Hj as <-. discriminate.
  - rewrite contents_types_store. intros (other & Hin & Hne & Hm).
    apply elem_of_cons in Hin as [->|Hin].
    + destruct Hm as [Hm _]. vm_compute in Hm. discriminate.
    + apply list_elem_of_singleton in Hin as ->. by apply Hne.
  - apply writable_unrefused.
Defined.

(** X9 at 12:00:00.25 on 2025-11-03. *)
Lemma iso_now_parses_back_witness :
  Datetime.fromisoformat (Text.remove_char "Z" (_iso_now noon))
  = Some (Datetime.mk 2025 11 3 12 0 0 0).
Proof. apply (iso_now_parses_back noon). reflexivity. Defined.

(** X10 along five calls from the empty store. *)
Lemma paired_along_calls_witness :
  Forall (λ w', paired (contents ACTIVITIES_FILE w'))
    (trace empty_store
       [ Start "a1" ten a_start; Start "a2" noon a_start;
         End noon (ActivityEndIn.mk "a1"); End noon (ActivityEndIn.mk "a1");
         Start "a3" noon a_start ]).
Proof.
  apply (paired_along_calls Text.strip Datetime.fromisoformat_tz empty_store).
  rewrite contents_empty_store. intros a Ha. by apply elem_of_nil in Ha.
Defined.

(** X11 along five calls from a store whose only record has the empty
    string as [end_time]. *)
Lemma single_active_along_calls_witness :
  Forall (λ w', single_active (contents ACTIVITIES_FILE w'))
    (trace (activities_store [morning_run (Some "") None])
       [ Start "a2" noon a_start; End noon (ActivityEndIn.mk "a1");
         Start "a2" noon a_start; Start "a3" noon a_start;
         End noon (ActivityEndIn.mk "a2") ]).
Proof.
  apply (single_active_along_calls Text.strip Datetime.fromisoformat_tz
           (activities_store [morning_run (Some "") None])).
  rewrite contents_activities_store. intros i j a b Hi Hj _ _.
  apply lookup_lt_Some in Hi, Hj. simpl in *. lia.
Defined.

(** X14 at a store with one closed activity. *)
Lemma start_then_active_witness :
  ∃ w1 w2, start_activity "a2" noon a_start
             (activities_store [morning_run (Some "2025-11-03T11:30:00Z") (Some 5400)])
           = (Return (started "a2" noon a_start), w1)
           ∧ get_active_activity w1 = (Return (Some (started "a2" noon a_start)), w2).
Proof.
  apply (start_then_active Text.strip "a2" noon a_start
           (activities_store [morning_run (Some "2025-11-03T11:30:00Z") (Some 5400)])).
  - rewrite contents_activities_store. intros (a & Hin & Hopen).
    apply list_elem_of_singleton in Hin as ->. destruct Hopen; discriminate.
  - apply readable_activities_store.
  - apply writable_unrefused.
Defined.

(** X15 at a store with one open activity. *)
Lemma end_twice_witness :
  ∃ w1 w2,
    end_activity noon (ActivityEndIn.mk "a1")
      (activities_store [morning_run None None])
    = (Return (morning_run (Some "2025-11-03T12:00:00Z") (Some 7200)), w1)
    ∧ end_activity noon (ActivityEndIn.mk "a1") w1
      = (Raise (HTTPException 400 "Activity already ended"), w2)
    ∧ fst (get_active_activity w2) = Return None.
Proof.
  destruct (end_twice Datetime.fromisoformat_tz noon noon (ActivityEndIn.mk "a1")
              (activities_store [morning_run None None]) 0%nat (morning_run None None) ten)
    as (w1 & w2 & H1 & H2 & _ & H3).
  - rewrite contents_activities_store. split; [reflexivity|]. intros j b _ Hlt. lia.
  - reflexivity.
  - by left.
  - reflexivity.
  - apply writable_unrefused.
  - exists w1, w2. split; [exact H1|]. split; [exact H2|]. apply H3.
    rewrite contents_activities_store. intros j b Hj Hne.
    apply lookup_lt_Some in Hj. simpl in Hj. lia.
Defined.

(** X16 at two closed records of different days, in both orders. *)
Lemma summarize_permutation_witness :
  summarize
    [ morning_run (Some "2025-11-03T11:30:00Z") (Some 5400);
      ActivityRecord.mk "a2" None "walk" "2025-11-04T08:00:00Z"
        (Some "2025-11-04T08:10:00Z") (Some 600) ]
  = summarize
      [ ActivityRecord.mk "a2" None "walk" "2025-11-04T08:00:00Z"
          (Some "2025-11-04T08:10:00Z") (Some 600);
        morning_run (Some "2025-11-03T11:30:00Z") (Some 5400) ].
Proof. apply summarize_permutation. apply perm_swap. Defined.

(** X17 at one closed record. *)
Lemma summarize_provenance_witness :
  ({[ "sports" := 5400 ]} : gmap string Z) ≠ ∅
  ∧ (∃ a, a ∈ [morning_run (Some "2025-11-03T11:30:00Z") (Some 5400)]
          ∧ skipped a = false
          ∧ Text.slice_to 10 (ActivityRecord.start_time a) = "2025-11-03")
  ∧ (∀ c, is_Some (({[ "sports" := 5400 ]} : gmap string Z) !! c)
          ↔ ∃ a, a ∈ [morning_run (Some "2025-11-03T11:30:00Z") (Some 5400)]
                 ∧ skipped a = false
                 ∧ Text.slice_to 10 (ActivityRecord.start_time a) = "2025-11-03"
                 ∧ bucket_of a = c).
Proof.
  apply (summarize_provenance
           [morning_run (Some "2025-11-03T11:30:00Z") (Some 5400)] "2025-11-03").
  vm_compute. reflexivity.
Defined.

(** X20 from the empty store: a start at 10:00:00 and an end at
    12:00:00.25 on 2025-11-03. *)
Lemma start_end_summary_witness :
  ∃ w1 w2 w3 r s,
    start_activity "a1" ten a_start empty_store = (Return (started "a1" ten a_start), w1)
    ∧ end_activity noon (ActivityEndIn.mk "a1") w1 = (Return r, w2)
    ∧ ActivityRecord.duration_seconds r = Some 7200
    ∧ get_summary w2 = (Return s, w3)
    ∧ "2025-11-03" ∈ dates s
    ∧ cell (data s) "2025-11-03" "study" = Some 7200.
Proof.
  destruct (start_end_summary Text.strip "a1" ten noon a_start empty_store)
    as (w1 & w2 & w3 & r & s & H1 & H2 & H3 & H4 & H5 & H6).
  - reflexivity.
  - reflexivity.
  - rewrite contents_empty_store. intros (a & Hin & _). by apply elem_of_nil in Hin.
  - rewrite contents_empty_store. intros Hin. by apply elem_of_nil in Hin.
  - apply readable_empty_store.
  - apply writable_unrefused.
  - intros H. vm_compute in H. discriminate.
  - exists w1, w2, w3, r, s. split; [exact H1|]. split; [exact H2|].
    split; [exact H3|]. split; [exact H4|]. split; [exact H5|].
    refine (eq_trans H6 _). rewrite contents_empty_store. reflexivity.
Defined.

(** X21 at a store that holds the types t1 and t2. *)
Lemma delete_twice_witness :
  ∃ w1 w2, delete_activity_type "t1" (types_store [sports_run; study_read])
           = (Return tt, w1)
           ∧ delete_activity_type "t1" w1
             = (Raise (HTTPException 404 "Activity type not found"), w2)
           ∧ contents TYPES_FILE w2 = contents TYPES_FILE w1.
Proof.
  apply (delete_twice "t1" (types_store [sports_run; study_read])).
  - rewrite contents_types_store. exists sports_run.
    split; [apply list_elem_of_here|reflexivity].
  - apply writable_unrefused.
Defined.

(** X23 at the empty store. *)
Lemma start_twice_witness :
  ∃ w1 w2, start_activity "a1" ten a_start empty_store
           = (Return (started "a1" ten a_start), w1)
           ∧ start_activity "a2" noon a_start w1
             = (Raise (HTTPException 400
                  "An activity is already in progress. End it before starting a new one."),
                w2)
           ∧ contents ACTIVITIES_FILE w2 = [started "a1" ten a_start].
Proof.
  destruct (start_twice Text.strip "a1" ten a_start "a2" noon a_start empty_store)
    as (w1 & w2 & H1 & H2 & H3).
  - rewrite contents_empty_store. intros (a & Hin & _). by apply elem_of_nil in Hin.
  - apply readable_empty_store.
  - apply writable_unrefused.
  - exists w1, w2. split; [exact H1|]. split; [exact H2|].
    rewrite H3, contents_empty_store. reflexivity.
Defined.

(** X3 at the empty store and at a store whose activities file is not
    UTF-8. *)
Lemma read_json_settles_witness :
  (∃ w', _read_json ACTIVITIES_FILE [] (@empty_store ActivityRecord.t) = (Return [], w'))
  ∧ snd (_read_json ACTIVITIES_FILE [] undecodable_store) = undecodable_store.
Proof.
  split.
  - destruct (read_json_settles ACTIVITIES_FILE [] (@empty_store ActivityRecord.t))
      as (Hret & _).
    destruct (Hret (readable_empty_store _)) as (v & w' & Hrun & _ & _).
    exists w'. refine (eq_trans Hrun _). vm_compute in Hrun.
    injection Hrun as <- _. reflexivity.
  - destruct (read_json_settles ACTIVITIES_FILE [] undecodable_store) as (_ & Hraise).
    destruct (Hraise UnicodeDecodeError) as (_ & Hsame & _); [reflexivity|].
    exact Hsame.
Defined.

(** X13 at a store with one open activity and at a store whose
    activities file is not UTF-8. *)
Lemma active_iff_start_refused_witness :
  (∃ a, fst (get_active_activity (activities_store [morning_run None None]))
        = Return (Some a))
  ∧ fst (start_activity "a2" noon a_start undecodable_store) = Raise UnicodeDecodeError.
Proof.
  split.
  - destruct (active_iff_start_refused Text.strip "a2" noon a_start
                (activities_store [morning_run None None])) as (_ & Hiff & _).
    apply Hiff. reflexivity.
  - destruct (active_iff_start_refused Text.strip "a2" noon a_start undecodable_store)
      as (_ & _ & Hraise).
    apply (Hraise UnicodeDecodeError). reflexivity.
Defined.

(** X19 at a store with one closed activity and at a store whose
    activities file is not UTF-8. *)
Lemma get_summary_run_witness :
  (∃ w', get_summary (activities_store
                        [morning_run (Some "2025-11-03T11:30:00Z") (Some 5400)])
         = (Return (summarize [morning_run (Some "2025-11-03T11:30:00Z") (Some 5400)]), w'))
  ∧ get_summary undecodable_store = (Raise UnicodeDecodeError, undecodable_store).
Proof.
  split.
  - destruct (get_summary_run (activities_store
                                 [morning_run (Some "2025-11-03T11:30:00Z") (Some 5400)]))
      as (_ & Hret & _).
    destruct (Hret (readable_activities_store _)) as (w' & Hrun & _).
    exists w'. rewrite contents_activities_store in Hrun. exact Hrun.
  - destruct (get_summary_run undecodable_store) as (_ & _ & Hraise).
    apply (Hraise NotUTF8 not_utf8). apply lookup_singleton_eq.
Defined.

End SamplesMore.
